(** * gnomad.assessment.summary_stats: a shallow embedding

    The module builds Hail expressions (lazy, three-valued, evaluated per
    row by the engine) with ordinary Python code around them.  Both layers
    are modelled:

    - a Hail expression over rows of type [R] is a function [R -> val A],
      where a [val] is a defined value, a missing value, or a raised error;
    - the Python code that builds expressions runs in the [result] monad,
      whose errors are the Python exceptions the builder can raise.

    Floating point numbers are IEEE 754 binary64 values ([spec_float] at
    precision 53), integers are [Z]. *)

From Stdlib Require Import ZArith Lia Bool List.
From Stdlib Require Import Floats.SpecFloat.
From stdpp Require Import base option list strings gmap sorting.

Local Open Scope string_scope.
Local Open Scope Z_scope.

(** ** Errors and the two evaluation layers *)

Inductive exn : Type :=
| KeyError (key : string)
| TypeError (msg : string)
| OverflowError (msg : string)
| HailException (msg : string).

Inductive result (A : Type) : Type :=
| Ok (a : A)
| Raise (e : exn).
Arguments Ok {A} a.
Arguments Raise {A} e.

#[global] Instance result_ret : MRet result := fun A a => Ok a.
#[global] Instance result_bind : MBind result := fun A B f m =>
  match m with
  | Ok a => f a
  | Raise e => Raise e
  end.
#[global] Instance result_fmap : FMap result := fun A B f m =>
  match m with
  | Ok a => Ok (f a)
  | Raise e => Raise e
  end.

(** [Ok (Some a)]: defined, [Ok None]: missing (NA), [Raise e]: error. *)
Abbreviation val A := (result (option A)).
Abbreviation NA := (Ok None).
Abbreviation Def a := (Ok (Some a)).

Definition Expr (R A : Type) : Type := R -> val A.

Definition is_raise {A} (m : result A) : Prop :=
  match m with Raise _ => True | Ok _ => False end.

(** ** binary64 *)

Abbreviation float64 := spec_float.
Definition prec64 : Z := 53.
Definition emax64 : Z := 1024.

Definition f64_mul : float64 -> float64 -> float64 := SFmul prec64 emax64.
Definition f64_div : float64 -> float64 -> float64 := SFdiv prec64 emax64.
Definition f64_lt : float64 -> float64 -> bool := SFltb.
Definition f64_le : float64 -> float64 -> bool := SFleb.
Definition f64_gt (x y : float64) : bool := SFltb y x.
Definition f64_ge (x y : float64) : bool := SFleb y x.

(** Nearest binary64 to an integer (ties to even, infinite on overflow). *)
Definition f64_of_Z (n : Z) : float64 := binary_normalize prec64 emax64 n 0 false.

(** A decimal literal [n / d] of the source, rounded once to binary64
    (both [n] and [d] are below 2^53, so the quotient is rounded once). *)
Definition f64_lit (n d : Z) : float64 := f64_div (f64_of_Z n) (f64_of_Z d).

(** ** Hail expression primitives *)

Section Expressions.
Context {R : Type}.

Definition lit {A} (a : A) : Expr R A := fun _ => Def a.
Definition missing {A} : Expr R A := fun _ => NA.

(** Strict unary and binary functions: a missing argument gives a missing
    result; arguments are evaluated left to right. *)
Definition lift1 {A B} (f : A -> B) (e : Expr R A) : Expr R B := fun r =>
  match e r with
  | Def a => Def (f a)
  | NA => NA
  | Raise x => Raise x
  end.

Definition lift2 {A B C} (f : A -> B -> C) (e1 : Expr R A) (e2 : Expr R B)
  : Expr R C := fun r =>
  match e1 r with
  | Def a =>
      match e2 r with
      | Def b => Def (f a b)
      | NA => NA
      | Raise x => Raise x
      end
  | NA => NA
  | Raise x => Raise x
  end.

(** Field access on a (possibly missing) struct whose field is itself
    nullable. *)
Definition field {S A} (proj : S -> option A) (e : Expr R S) : Expr R A :=
  fun r =>
    match e r with
    | Def s => Ok (proj s)
    | NA => NA
    | Raise x => Raise x
    end.

(** [a[i]] with a Python integer index: negative indices count from the
    end, an index outside the array is a run-time error, and a missing
    array gives a missing element. *)
Definition index_array {A} (e : Expr R (list (option A))) (i : Z) : Expr R A :=
  fun r =>
    match e r with
    | Def l =>
        let n := Z.of_nat (length l) in
        let j := if i <? 0 then i + n else i in
        if (0 <=? j) && (j <? n) then
          match l !! Z.to_nat j with
          | Some x => Ok x
          | None => Raise (HailException "array index out of bounds")
          end
        else Raise (HailException "array index out of bounds")
    | NA => NA
    | Raise x => Raise x
    end.

Definition hl_is_defined {A} (e : Expr R A) : Expr R bool := fun r =>
  match e r with
  | Def _ => Def true
  | NA => Def false
  | Raise x => Raise x
  end.

Definition hl_is_missing {A} (e : Expr R A) : Expr R bool := fun r =>
  match e r with
  | Def _ => Def false
  | NA => Def true
  | Raise x => Raise x
  end.

(** [a & b] on boolean expressions: Kleene conjunction; the right operand
    is not evaluated once the left one is false. *)
Definition hl_and (e1 e2 : Expr R bool) : Expr R bool := fun r =>
  match e1 r with
  | Def false => Def false
  | Def true => e2 r
  | NA =>
      match e2 r with
      | Def false => Def false
      | Def true => NA
      | NA => NA
      | Raise x => Raise x
      end
  | Raise x => Raise x
  end.

(** [hl.cond(condition, consequent, alternate, missing_false)]. *)
Definition hl_cond {A} (missing_false : bool)
    (c : Expr R bool) (t e : Expr R A) : Expr R A := fun r =>
  match c r with
  | Def true => t r
  | Def false => e r
  | NA => if missing_false then e r else NA
  | Raise x => Raise x
  end.

(** [hl.case(missing_false)]: the builder collects its branches in order;
    finishing folds them from the last to the first into nested
    conditionals. *)
Record CaseBuilder (A : Type) : Type := mkCase {
  missing_false : bool;
  cases : list (Expr R bool * Expr R A)
}.
Arguments mkCase {A}.
Arguments missing_false {A}.
Arguments cases {A}.

Definition hl_case {A} (mf : bool) : CaseBuilder A := mkCase mf [].

Definition when {A} (c : Expr R bool) (t : Expr R A) (b : CaseBuilder A)
  : CaseBuilder A :=
  mkCase (missing_false b) (cases b ++ [(c, t)]).

Definition finish {A} (dflt : Expr R A) (b : CaseBuilder A) : Expr R A :=
  fold_right (fun ct e => hl_cond (missing_false b) (fst ct) (snd ct) e)
             dflt (cases b).

Definition case_default {A} (a : A) (b : CaseBuilder A) : Expr R A :=
  finish (lit a) b.

Definition or_missing {A} (b : CaseBuilder A) : Expr R A :=
  finish missing b.

End Expressions.

Arguments mkCase {R A}.
Arguments missing_false {R A}.
Arguments cases {R A}.

(** Method chaining, [obj.m(args)] of the source: [obj |> m args]. *)
Notation "x |> f" := (f x) (at level 45, left associativity, only parsing).

(** ** Frequency structs and the frequency binner *)

Record Freq : Type := mkFreq {
  AC : option Z;
  AN : option Z;
  AF : option float64
}.

Section FreqBin.
Context {R : Type}.

(** Lines 33-45. *)
Definition freq_bin_expr (freq_expr : Expr R (list (option Freq))) (index : Z)
  : Expr R string :=
  let ac := field AC (index_array freq_expr index) in
  let af := field AF (index_array freq_expr index) in
  hl_case true
  |> when (lift1 (fun x => x =? 0) ac) (lit "Not found")
  |> when (lift1 (fun x => x =? 1) ac) (lit "Singleton")
  |> when (lift1 (fun x => x =? 2) ac) (lit "Doubleton")
  |> when (lift1 (fun x => x <=? 5) ac) (lit "AC 3 - 5")
  |> when (lift1 (fun x => f64_lt x (f64_lit 1 10000)) af) (lit "AC 6 - 0.01%")
  |> when (lift1 (fun x => f64_lt x (f64_lit 1 1000)) af) (lit "0.01% - 0.1%")
  |> when (lift1 (fun x => f64_lt x (f64_lit 1 100)) af) (lit "0.1% - 1%")
  |> when (lift1 (fun x => f64_lt x (f64_lit 1 10)) af) (lit "1% - 10%")
  |> when (lift1 (fun x => f64_gt x (f64_lit 95 100)) af) (lit ">95%")
  |> case_default "10% - 95%".

End FreqBin.

(** ** Tables: filtering, annotating, aggregating, grouping *)

Section Tables.
Context {R : Type}.

(** [Table.filter(c)]: the rows on which [c] is true are kept (a missing
    condition drops the row); an error on any row fails the whole table. *)
Fixpoint table_filter (c : Expr R bool) (rows : list R) : result (list R) :=
  match rows with
  | [] => Ok []
  | r :: rs =>
      b ← c r;
      rs' ← table_filter c rs;
      Ok (match b with Some true => r :: rs' | _ => rs' end)
  end.

(** [Table.annotate(name = e)]: every row is paired with the value of the
    new field. *)
Definition table_annotate {A} (e : Expr R A) (rows : list R)
  : result (list (R * option A)) :=
  mapM (fun r => v ← e r; Ok (r, v)) rows.

(** An aggregator folds a stream of records into a count (an Int64 in the
    engine; a table has far fewer than 2^63 records, so no count wraps). *)
Definition Agg : Type := list R -> result Z.

Definition agg_count : Agg := fun rows => Ok (Z.of_nat (length rows)).

(** [hl.agg.count_where(c)]: the records on which [c] is true. *)
Fixpoint agg_count_where (c : Expr R bool) (rows : list R) : result Z :=
  match rows with
  | [] => Ok 0
  | r :: rs =>
      b ← c r;
      n ← agg_count_where c rs;
      Ok (match b with Some true => 1 + n | _ => n end)
  end.

(** A struct built from a dictionary of aggregators: every aggregator of
    the dictionary is run over the same records, in the dictionary's order. *)
Definition agg_struct (d : list (string * Agg)) (rows : list R)
  : result (list (string * Z)) :=
  mapM (fun na => v ← snd na rows; Ok (fst na, v)) d.

End Tables.

Arguments Agg R : clear implicits.

(** Order of the keys of a grouped table: strings in their usual order, the
    missing key last. *)
Definition key_leb (k1 k2 : option string) : bool :=
  match k1, k2 with
  | Some a, Some b => String.leb a b
  | _, None => true
  | None, Some _ => false
  end.

Section GroupBy.
Context {R : Type}.

Definition group_keys (key : R -> option string) (rows : list R)
  : list (option string) :=
  merge_sort (fun a b => Is_true (key_leb a b)) (remove_dups (key <$> rows)).

Definition group_rows (key : R -> option string) (k : option string)
    (rows : list R) : list R :=
  filter (fun r => key r = k) rows.

(** [Table.group_by(key).aggregate] on a dictionary: one output row per key value
    that occurs, ordered by key, holding the aggregations over the rows
    of that group. *)
Definition group_by_aggregate (key : R -> option string)
    (d : list (string * Agg R)) (rows : list R)
  : result (list (option string * list (string * Z))) :=
  mapM (fun k => s ← agg_struct d (group_rows key k rows); Ok (k, s))
       (group_keys key rows).

End GroupBy.

(** ** Category counter *)

Section SummaryCounts.
(** [hl.is_indel] and [hl.is_snp], the engine's allele classifiers. *)
Variables is_indel is_snp : string -> string -> bool.

Section Dict.
Context {R : Type}.

(** Lines 77-92: the dictionary, in insertion order. *)
Definition get_summary_counts_dict
    (allele_expr : Expr R (list (option string)))
    (lof_expr : Expr R string)
    (no_lof_flags_expr : Expr R bool)
    (prefix_str : string) : list (string * Agg R) :=
  [ (prefix_str +:+ "num_variants", agg_count);
    (prefix_str +:+ "indels",
      agg_count_where
        (lift2 is_indel (index_array allele_expr 0) (index_array allele_expr 1)));
    (prefix_str +:+ "snps",
      agg_count_where
        (lift2 is_snp (index_array allele_expr 0) (index_array allele_expr 1)));
    (prefix_str +:+ "LOF", agg_count_where (hl_is_defined lof_expr));
    (prefix_str +:+ "pass_loftee",
      agg_count_where (lift1 (fun s => String.eqb s "HC") lof_expr));
    (prefix_str +:+ "pass_loftee_no_flag",
      agg_count_where
        (hl_and (lift1 (fun s => String.eqb s "HC") lof_expr) no_lof_flags_expr));
    (prefix_str +:+ "loftee_os",
      agg_count_where (lift1 (fun s => String.eqb s "OS") lof_expr));
    (prefix_str +:+ "fail_loftee",
      agg_count_where (lift1 (fun s => String.eqb s "LC") lof_expr)) ].
End Dict.

(** ** Summary-counts pipeline *)

Record SummaryTable : Type := mkSummaryTable {
  summary_counts : list (string * Z);
  summary_rows : list (option string * list (string * Z))
}.

Section Pipeline.
(** The input table's row type and the fields the pipeline reads;
    [filter_field] and [freq_field] are the fields the parameters of
    these names select. *)
Context {Row : Type}.
Variable filter_field : Row -> option (gset string).
Variable freq_field : Row -> option (list (option Freq)).
Variable alleles : Row -> option (list (option string)).
Variable lof : Row -> option string.
Variable no_lof_flags : Row -> option bool.
(** Collaborators from gnomad.utils. *)
Variable filter_low_conf_regions : list Row -> bool -> result (list Row).
Variable filter_vep_to_canonical_transcripts : list Row -> result (list Row).
Variable get_most_severe_consequence_for_summary : list Row -> result (list Row).

Definition col {A} (f : Row -> option A) : Expr Row A := fun r => Ok (f r).

(** Lines 131-155.  The result holds the globals ([summary_counts]) and the
    rows of the grouped table. *)
Definition get_summary_counts (ht : list Row) (filter_decoy : bool)
  : result SummaryTable :=
  ht ← table_filter
         (lift1 (fun s => Z.of_nat (size s) =? 0) (col filter_field)) ht;
  ht ← filter_low_conf_regions ht filter_decoy;
  ht ← filter_vep_to_canonical_transcripts ht;
  ht ← get_most_severe_consequence_for_summary ht;
  ht ← table_annotate (freq_bin_expr (col freq_field) 0) ht;
  let on_row {A} (e : Expr Row A) : Expr (Row * option string) A :=
    fun r => e (fst r) in
  totals ← agg_struct
             (get_summary_counts_dict (on_row (col alleles)) (on_row (col lof))
                (on_row (col no_lof_flags)) "total_") ht;
  rows ← group_by_aggregate snd
           (get_summary_counts_dict (on_row (col alleles)) (on_row (col lof))
              (on_row (col no_lof_flags)) "") ht;
  Ok (mkSummaryTable totals rows).
End Pipeline.
End SummaryCounts.

(** ** Python values used while building expressions *)

(** [float(n)] as done by [float * int]: nearest binary64, and an
    OverflowError when the integer is beyond the binary64 range. *)
Definition py_float_of_int (n : Z) : result float64 :=
  match f64_of_Z n with
  | S754_infinity _ => Raise (OverflowError "int too large to convert to float")
  | f => Ok f
  end.

Definition py_float_mul_int (x : float64) (n : Z) : result float64 :=
  y ← py_float_of_int n; Ok (f64_mul x y).

(** A dictionary keyed by (possibly missing) strings, as [hl.agg.counter]
    returns it; a caller's dictionary has defined keys only. *)
Definition dict_getitem (d : gmap (option string) Z) (k : string) : result Z :=
  match d !! Some k with
  | Some v => Ok v
  | None => Raise (KeyError k)
  end.

Definition dict_values_sum (d : gmap (option string) Z) : Z :=
  map_fold (fun _ v acc => v + acc) 0 d.

(** [hl.agg.counter]: how often each value occurs, missing included. *)
Definition agg_counter (l : list (option string)) : gmap (option string) Z :=
  foldr (fun k m => <[k := default 0 (m !! k) + 1]> m) ∅ l.

(** [a &= b] on two Python functions: the function type defines none of
    [__iand__], [__and__] and [__rand__]. *)
Definition py_iand_function {A} (f g : A) : result A :=
  Raise (TypeError "unsupported operand type(s) for &=: 'function' and 'function'").

(** ** Loci *)

(** A locus as the reference genome classifies it: on the X contig, on the Y
    contig, mitochondrial, or autosomal (any other contig), and whether it
    lies in a pseudo-autosomal region.  The three predicates are those of
    the engine's locus expressions. *)
Inductive contig_kind : Type := Autosomal | ContigX | ContigY | Mitochondrial.

Record Locus : Type := mkLocus {
  contig : contig_kind;
  in_par : bool
}.

Definition in_autosome_or_par (l : Locus) : bool :=
  match contig l with
  | Autosomal => true
  | ContigX | ContigY => in_par l
  | Mitochondrial => false
  end.

Definition in_x_nonpar (l : Locus) : bool :=
  match contig l with
  | ContigX => negb (in_par l)
  | _ => false
  end.

Definition in_y_nonpar (l : Locus) : bool :=
  match contig l with
  | ContigY => negb (in_par l)
  | _ => false
  end.

(** ** Matrix tables and the AN-adjacency criterion *)

Record MatrixTable (Row Col : Type) : Type := mkMatrixTable {
  mt_rows : list Row;
  mt_cols : list Col
}.
Arguments mkMatrixTable {Row Col}.
Arguments mt_rows {Row Col}.
Arguments mt_cols {Row Col}.

Section AnAdj.
Context {Row Col : Type}.
Variable locus : Row -> option Locus.
(** [mt[meta_root][sex_field]] and [mt[freq_field]]. *)
Variable sex_field : Col -> option string.
Variable freq_field : Row -> option (list (option Freq)).

(** Lines 184-205.  The thresholds are Python floats, computed while the
    case chain is built, in the order of the source: the total for the
    first branch, then the lookups of [xy_str] and [xx_str] for the second,
    then [xy_str] again for the third.  AN, an Int32, is compared as a
    float. *)
Definition get_an_adj_criteria
    (mt : MatrixTable Row Col)
    (samples_by_sex : option (gmap (option string) Z))
    (xy_str xx_str : string)
    (freq_index : Z)
    (an_proportion_cutoff : float64) : result (Expr Row bool) :=
  let samples_by_sex :=
    match samples_by_sex with
    | None => agg_counter (sex_field <$> mt_cols mt)
    | Some d => d
    end in
  let an : Expr Row float64 :=
    lift1 f64_of_Z (field AN (index_array (fun r => Ok (freq_field r)) freq_index)) in
  let loc : Expr Row Locus := fun r => Ok (locus r) in
  c2 ← py_float_mul_int an_proportion_cutoff 2;
  t_auto ← py_float_mul_int c2 (dict_values_sum samples_by_sex);
  xy ← dict_getitem samples_by_sex xy_str;
  xx ← dict_getitem samples_by_sex xx_str;
  t_x ← py_float_mul_int an_proportion_cutoff (xy + xx * 2);
  xy' ← dict_getitem samples_by_sex xy_str;
  t_y ← py_float_mul_int an_proportion_cutoff xy';
  Ok (hl_case false
      |> when (lift1 in_autosome_or_par loc) (lift1 (fun a => f64_ge a t_auto) an)
      |> when (lift1 in_x_nonpar loc) (lift1 (fun a => f64_ge a t_x) an)
      |> when (lift1 in_y_nonpar loc) (lift1 (fun a => f64_ge a t_y) an)
      |> or_missing).
End AnAdj.

(** ** Gene-level LoF matrix builder *)

Record Csq : Type := mkCsq {
  gene_id : option string;
  gene_symbol : option string;
  transcript_id : option string;
  canonical : option Z;
  lof : option string;
  lof_flags : option string;
  most_severe_consequence : option string
}.

Record TxAnnotation : Type := mkTxAnnotation {
  ensg : option string;
  csq : option string;
  mean_expression : option float64
}.

Inductive anno : Type :=
| AStr (s : string)
| ABool (b : bool).

Section Arrays.
Context {R E : Type}.

(** Element-wise evaluation of a lambda over an array: the lambda's
    argument is the (possibly missing) element. *)
Fixpoint filter_elems (f : Expr (option E) bool) (l : list (option E))
  : result (list (option E)) :=
  match l with
  | [] => Ok []
  | x :: xs =>
      b ← f x;
      xs' ← filter_elems f xs;
      Ok (match b with Some true => x :: xs' | _ => xs' end)
  end.

(** [a.filter(f)]. *)
Definition array_filter (f : Expr (option E) bool)
    (a : Expr R (list (option E))) : Expr R (list (option E)) := fun r =>
  match a r with
  | Def l => l' ← filter_elems f l; Ok (Some l')
  | NA => NA
  | Raise x => Raise x
  end.

Fixpoint find_elem (f : Expr (option E) bool) (l : list (option E)) : val E :=
  match l with
  | [] => NA
  | x :: xs =>
      b ← f x;
      match b with Some true => Ok x | _ => find_elem f xs end
  end.

(** [hl.find(f, a)]: the first element on which [f] is true, else
    missing. *)
Definition hl_find (f : Expr (option E) bool)
    (a : Expr R (list (option E))) : Expr R E := fun r =>
  match a r with
  | Def l => find_elem f l
  | NA => NA
  | Raise x => Raise x
  end.

(** [explode_rows] on an array field: one row per element; rows whose
    array is missing or empty disappear. *)
Definition explode_rows (a : Expr R (list (option E))) (rows : list R)
  : result (list (R * option E)) :=
  per_row ← mapM (fun r =>
                    v ← a r;
                    Ok (match v with
                        | Some l => (fun x => (r, x)) <$> l
                        | None => []
                        end)) rows;
  Ok (concat per_row).
End Arrays.

(** The variable a lambda binds, as an expression over the element. *)
Definition elem {E} : Expr (option E) E := fun x => Ok x.

(** [s.contains(x)] on a set literal of strings (which holds no missing
    element). *)
Definition set_contains {R} (s : gset string) (e : Expr R string) : Expr R bool :=
  fun r =>
    match e r with
    | Def x => Def (bool_decide (x ∈ s))
    | NA => Def false
    | Raise x => Raise x
    end.

Definition str_eq {R} (e1 e2 : Expr R string) : Expr R bool :=
  lift2 String.eqb e1 e2.

(** The expression bucket of lines 305-311. *)
Definition expressed_expr {R} (tx_annotation : Expr R float64) : Expr R string :=
  hl_case false
  |> when (lift1 (fun x => f64_ge x (f64_lit 9 10)) tx_annotation) (lit "high")
  |> when (lift1 (fun x => f64_gt x (f64_lit 1 10)) tx_annotation) (lit "medium")
  |> when (hl_is_defined tx_annotation) (lit "low")
  |> case_default "missing".

Section GeneLof.
Variable is_indel : string -> string -> bool.
Context {Row Col : Type}.
Variable locus : Row -> option Locus.
Variable alleles : Row -> option (list (option string)).
(** [mt[filter_field]], [mt[freq_field]], the field named [freq], and the
    default sample sex field [mt.meta.sex_imputation.sex_karyotype]. *)
Variable filter_field : Row -> option (gset string).
Variable freq_field : Row -> option (list (option Freq)).
Variable freq : Row -> option (list (option Freq)).
Variable sex_karyotype : Col -> option string.
(** [mt.vep.transcript_consequences], and [mt.vep.worst_csq_by_gene] as
    [process_consequences] (gnomad.utils.vep) annotates it. *)
Variable transcript_consequences : Row -> option (list (option Csq)).
Variable process_consequences : Row -> Row.
Variable worst_csq_by_gene : Row -> option (list (option Csq)).
(** gnomad.utils.vep. *)
Variable add_most_severe_consequence_to_consequence : option Csq -> val Csq.

(** Lines 264-271: the conjunctive row filter. *)
Definition filt_criteria (mt : MatrixTable Row Col) (freq_index : Z)
    (filter_an filter_to_rare remove_ultra_common : bool)
  : result (Expr Row bool) :=
  let af := field AF (index_array (fun r => Ok (freq_field r)) freq_index) in
  let c := lift1 (fun s => Z.of_nat (size s) =? 0) (fun r => Ok (filter_field r)) in
  c ← (if filter_an then
         a ← get_an_adj_criteria locus sex_karyotype freq mt None "XY" "XX" 0
               (f64_lit 8 10);
         Ok (hl_and c a)
       else Ok c);
  let c := if remove_ultra_common
           then hl_and c (lift1 (fun x => f64_lt x (f64_lit 95 100)) af) else c in
  let c := if filter_to_rare
           then hl_and c (lift1 (fun x => f64_lt x (f64_lit 5 100)) af) else c in
  Ok c.

Definition filter_rows_stage (mt : MatrixTable Row Col) (freq_index : Z)
    (filter_an filter_to_rare remove_ultra_common : bool)
  : result (list Row) :=
  c ← filt_criteria mt freq_index filter_an filter_to_rare remove_ultra_common;
  table_filter c (mt_rows mt).

(** Lines 279-291: the predicate on consequence entries. *)
Definition lof_criteria (pre_loftee : bool) (lof_csq_set : gset string)
  : Expr (option Csq) bool :=
  if pre_loftee then
    set_contains lof_csq_set
      (fun x => field most_severe_consequence
                  add_most_severe_consequence_to_consequence x)
  else
    hl_and (lift1 (fun s => String.eqb s "HC") (field lof elem))
           (hl_is_missing (field lof_flags elem)).

Definition csq_criteria (pre_loftee : bool) (lof_csq_set additional_csq_set : gset string)
  : result (Expr (option Csq) bool) :=
  let criteria := lof_criteria pre_loftee lof_csq_set in
  if bool_decide (additional_csq_set ≠ ∅) then
    py_iand_function criteria
      (set_contains additional_csq_set
         (fun x => field most_severe_consequence
                     add_most_severe_consequence_to_consequence x))
  else Ok criteria.

(** [annotate_tx_expression_data]: the entry of the expression table's
    row (looked up by the row key) that matches the consequence's gene
    and most severe consequence. *)
Definition annotate_tx_expression_data
    (tx_ht : Row -> option (list (option TxAnnotation)))
    : Expr (Row * option Csq) TxAnnotation :=
  fun rc =>
    let csq_expr {A} (f : Csq -> option A) : Expr (option TxAnnotation) A :=
      fun _ => Ok (snd rc ≫= f) in
    hl_find (hl_and (str_eq (field ensg elem) (csq_expr gene_id))
                    (str_eq (field csq elem) (csq_expr most_severe_consequence)))
            (fun rc => Ok (tx_ht (fst rc))) rc.

Definition annotation_expr
    (tx_ht : option (Row -> option (list (option TxAnnotation))))
  : list (string * Expr (Row * option Csq) anno) :=
  let csqs {A} (f : Csq -> option A) : Expr (Row * option Csq) A :=
    fun rc => Ok (snd rc ≫= f) in
  let al : Expr (Row * option Csq) (list (option string)) :=
    fun rc => Ok (alleles (fst rc)) in
  [ ("gene_id", lift1 AStr (csqs gene_id));
    ("gene", lift1 AStr (csqs gene_symbol));
    ("indel", lift1 ABool
                (lift2 is_indel (index_array al 0) (index_array al 1)));
    ("most_severe_consequence",
      lift1 AStr (csqs most_severe_consequence)) ]
  ++ match tx_ht with
     | Some tx =>
         [ ("expressed",
             lift1 AStr
               (expressed_expr
                  (field mean_expression (annotate_tx_expression_data tx)))) ]
     | None =>
         [ ("transcript_id", lift1 AStr (csqs transcript_id));
           ("canonical", lift1 ABool (hl_is_defined (csqs canonical))) ]
     end.

(** The builder up to [annotate_rows] (line 315): the exploded,
    annotated rows on which the grouped aggregation of lines 317-332
    runs.  The expressions are built first (where the Python errors
    arise) and evaluated on the rows afterwards. *)
Definition default_generate_gene_lof_matrix
    (mt : MatrixTable Row Col)
    (tx_ht : option (Row -> option (list (option TxAnnotation))))
    (freq_index : Z)
    (additional_csq_set : gset string)
    (all_transcripts filter_an filter_to_rare pre_loftee : bool)
    (lof_csq_set : gset string)
    (remove_ultra_common : bool)
  : result (list (Row * option Csq * list (string * option anno))) :=
  filt ← filt_criteria mt freq_index filter_an filter_to_rare remove_ultra_common;
  criteria ← csq_criteria pre_loftee lof_csq_set additional_csq_set;
  rows ← table_filter filt (mt_rows mt);
  let rows := if all_transcripts then rows else process_consequences <$> rows in
  let explode_field :=
    if all_transcripts then transcript_consequences else worst_csq_by_gene in
  rows ← explode_rows (array_filter criteria (fun r => Ok (explode_field r))) rows;
  mapM (fun rc =>
          a ← mapM (fun ne => v ← snd ne rc; Ok (fst ne, v)) (annotation_expr tx_ht);
          Ok (rc, a)) rows.
End GeneLof.

(** The default arguments of the source. *)
Definition default_additional_csq_set : gset string :=
  {[ "missense_variant"; "synonymous_variant" ]}.
Definition default_lof_csq_set : gset string :=
  {[ "splice_acceptor_variant"; "splice_donor_variant"; "stop_gained";
     "frameshift_variant" ]}.


(** ** The frequency bins as the specification lists them *)

Definition bin_labels : list string :=
  [ "Not found"; "Singleton"; "Doubleton"; "AC 3 - 5"; "AC 6 - 0.01%";
    "0.01% - 0.1%"; "0.1% - 1%"; "1% - 10%"; ">95%"; "10% - 95%" ].

(** The rule table of the specification, on a defined (AC, AF) pair. *)
Definition freq_bin_rules : list ((Z * float64 -> bool) * string) :=
  [ (fun x => x.1 =? 0, "Not found");
    (fun x => x.1 =? 1, "Singleton");
    (fun x => x.1 =? 2, "Doubleton");
    (fun x => (3 <=? x.1) && (x.1 <=? 5), "AC 3 - 5");
    (fun x => f64_lt x.2 (f64_lit 1 10000), "AC 6 - 0.01%");
    (fun x => f64_lt x.2 (f64_lit 1 1000), "0.01% - 0.1%");
    (fun x => f64_lt x.2 (f64_lit 1 100), "0.1% - 1%");
    (fun x => f64_lt x.2 (f64_lit 1 10), "1% - 10%");
    (fun x => f64_gt x.2 (f64_lit 95 100), ">95%") ].

(** Rules in order, the first true one wins, else the default. *)
Definition first_true_wins {X} (rules : list ((X -> bool) * string))
    (dflt : string) (x : X) : string :=
  match List.find (fun rl => fst rl x) rules with
  | Some rl => snd rl
  | None => dflt
  end.

(** The binner on a one-element frequency array. *)
Definition bin_of (ac : option Z) (af : option float64) : val string :=
  freq_bin_expr (R := unit) (lit [Some (mkFreq ac None af)]) 0 tt.

(** ** The AN-adjacency criterion as the specification describes it *)

Section AnAdjSpec.
Context {Row Col : Type}.
Variable locus : Row -> option Locus.
Variable sex_field : Col -> option string.
Variable freq_field : Row -> option (list (option Freq)).

(** The mapping the function works with. *)
Definition resolved_samples_by_sex (mt : MatrixTable Row Col)
    (samples_by_sex : option (gmap (option string) Z)) : gmap (option string) Z :=
  match samples_by_sex with
  | None => agg_counter (sex_field <$> mt_cols mt)
  | Some d => d
  end.

(** The criterion on one row, given the three thresholds. *)
Definition an_adj_on_row (freq_index : Z) (t_auto t_x t_y : float64) (r : Row)
  : val bool :=
  let an := lift1 f64_of_Z
              (field AN (index_array (fun r => Ok (freq_field r)) freq_index)) in
  match locus r with
  | None => NA
  | Some l =>
      if in_autosome_or_par l then lift1 (fun a => f64_ge a t_auto) an r
      else if in_x_nonpar l then lift1 (fun a => f64_ge a t_x) an r
      else if in_y_nonpar l then lift1 (fun a => f64_ge a t_y) an r
      else NA
  end.
End AnAdjSpec.

(** The condition of a branch counts as true only when it is defined and
    true. *)
Definition holds {R} (c : Expr R bool) (r : R) : bool :=
  match c r with Def true => true | _ => false end.

(** ** Structs of counts *)

Definition category_names : list string :=
  [ "num_variants"; "indels"; "snps"; "LOF"; "pass_loftee";
    "pass_loftee_no_flag"; "loftee_os"; "fail_loftee" ].

Definition Zsum (l : list Z) : Z := foldr Z.add 0 l.

(** The field of a struct by name. *)
Definition struct_get (name : string) (s : list (string * Z)) : option Z :=
  snd <$> List.find (fun nv => String.eqb (fst nv) name) s.

(** The sum of one field over the rows of a grouped table. *)
Definition column_sum (name : string)
    (rows : list (option string * list (string * Z))) : Z :=
  Zsum ((fun row => default 0 (struct_get name (snd row))) <$> rows).

(** An aggregator that adds up a contribution per record. *)
Definition additive {R} (a : Agg R) : Prop :=
  a [] = Ok 0
  /\ forall r rows, a (r :: rows) = (x ← a [r]; n ← a rows; Ok (x + n)).

(** A record whose two alleles are defined and are exactly one of indel
    and SNV. *)
Definition classifiable {R} (is_indel is_snp : string -> string -> bool)
    (allele_expr : Expr R (list (option string))) (r : R) : Prop :=
  exists ref alt,
    index_array allele_expr 0 r = Def ref
    /\ index_array allele_expr 1 r = Def alt
    /\ xorb (is_indel ref alt) (is_snp ref alt) = true.

(** A site on which the pipeline's expressions evaluate: its frequency
    array, if defined, has an element 0, and its allele array, if defined,
    has elements 0 and 1. *)
Definition well_formed_site {Row}
    (freq_field : Row -> option (list (option Freq)))
    (alleles : Row -> option (list (option string))) (r : Row) : Prop :=
  freq_field r <> Some []
  /\ forall l, alleles r = Some l -> (2 <= length l)%nat.

(** ** Fixtures *)

(** Concrete rows: a locus and a frequency array; columns: a karyotype. *)
Definition SiteRow : Type := option Locus * option (list (option Freq)).
Definition row_locus (r : SiteRow) : option Locus := fst r.
Definition row_freq (r : SiteRow) : option (list (option Freq)) := snd r.
Definition col_sex (c : option string) : option string := c.

(** A three-XY, two-XX cohort. *)
Definition cohort_3xy_2xx : gmap (option string) Z :=
  {[ Some "XY" := 3; Some "XX" := 2 ]}.

(** A mapping without the XY key. *)
Definition cohort_xx_only : gmap (option string) Z := {[ Some "XX" := 2 ]}.

(** A mapping without the XY key whose only count is 2^1024. *)
Definition cohort_beyond_float : gmap (option string) Z := {[ Some "XX" := 2 ^ 1024 ]}.

Definition no_samples : MatrixTable SiteRow (option string) := mkMatrixTable [] [].

(** An autosomal row whose frequency struct has no AN. *)
Definition autosomal_no_an : SiteRow :=
  (Some (mkLocus Autosomal false), Some [Some (mkFreq (Some 1) None None)]).

Definition x_nonpar_an6 : SiteRow :=
  (Some (mkLocus ContigX false),
   Some [Some (mkFreq (Some 1) (Some 6) (Some (f64_lit 1 6)))]).

(** Stand-ins for the engine's allele classifiers in the examples: alleles
    of different lengths, and two different single bases. *)
Definition indel_by_length (ref alt : string) : bool :=
  negb (Nat.eqb (String.length ref) (String.length alt)).
Definition snp_by_length (ref alt : string) : bool :=
  Nat.eqb (String.length ref) 1 && Nat.eqb (String.length alt) 1
  && negb (String.eqb ref alt).

(** Rows of a variant table for the summary pipeline. *)
Record SummaryRow : Type := mkSummaryRow {
  s_alleles : option (list (option string));
  s_filters : option (gset string);
  s_freq : option (list (option Freq));
  s_lof : option string;
  s_no_lof_flags : option bool
}.

Definition pass : option (gset string) := Some ∅.

Definition freq_of (ac : Z) (n d : Z) : option (list (option Freq)) :=
  Some [Some (mkFreq (Some ac) (Some 1000) (Some (f64_lit n d)))].

(** Five sites: a singleton SNV, a singleton high-confidence LoF deletion,
    a common SNV, a site that failed a filter, and a flagged LoF SNV. *)
Definition five_sites : list SummaryRow :=
  [ mkSummaryRow (Some [Some "A"; Some "T"]) pass (freq_of 1 1 1000) None None;
    mkSummaryRow (Some [Some "AT"; Some "A"]) pass (freq_of 1 1 1000)
      (Some "HC") (Some true);
    mkSummaryRow (Some [Some "C"; Some "G"]) pass (freq_of 200 2 10) None None;
    mkSummaryRow (Some [Some "C"; Some "T"]) (Some {[ "RF" ]}) (freq_of 200 2 10)
      None None;
    mkSummaryRow (Some [Some "G"; Some "A"]) pass (freq_of 200 2 10)
      (Some "HC") (Some false) ].

(** The pipeline on the fixture row type, with collaborators that keep
    every row. *)
Definition summary_counts_of_sites (ht : list SummaryRow) : result SummaryTable :=
  get_summary_counts indel_by_length snp_by_length
    s_filters s_freq s_alleles s_lof s_no_lof_flags
    (fun ht _ => Ok ht) (fun ht => Ok ht) (fun ht => Ok ht) ht false.

Definition five_sites_table : SummaryTable :=
  mkSummaryTable
    [ ("total_num_variants", 4); ("total_indels", 1); ("total_snps", 3);
      ("total_LOF", 2); ("total_pass_loftee", 2); ("total_pass_loftee_no_flag", 1);
      ("total_loftee_os", 0); ("total_fail_loftee", 0) ]
    [ (Some "10% - 95%",
        [ ("num_variants", 2); ("indels", 0); ("snps", 2); ("LOF", 1);
          ("pass_loftee", 1); ("pass_loftee_no_flag", 0); ("loftee_os", 0);
          ("fail_loftee", 0) ]);
      (Some "Singleton",
        [ ("num_variants", 2); ("indels", 1); ("snps", 1); ("LOF", 1);
          ("pass_loftee", 1); ("pass_loftee_no_flag", 1); ("loftee_os", 0);
          ("fail_loftee", 0) ]) ].

(** Variant rows of a matrix table for the gene-level builder. *)
Record VariantRow : Type := mkVariantRow {
  v_locus : option Locus;
  v_alleles : option (list (option string));
  v_filters : option (gset string);
  v_freq : option (list (option Freq));
  v_transcript_consequences : option (list (option Csq));
  v_worst_csq_by_gene : option (list (option Csq))
}.

(** The consequence annotator leaves an entry that already carries its most
    severe consequence unchanged. *)
Definition keep_most_severe (x : option Csq) : val Csq := Ok x.

Definition hc_stop_gained : Csq :=
  mkCsq (Some "ENSG01") (Some "GENE1") (Some "ENST01") (Some 1)
        (Some "HC") None (Some "stop_gained").

Definition hc_flagged : Csq :=
  mkCsq (Some "ENSG01") (Some "GENE1") (Some "ENST02") None
        (Some "HC") (Some "") (Some "stop_gained").

Definition missense : Csq :=
  mkCsq (Some "ENSG01") (Some "GENE1") (Some "ENST01") (Some 1)
        None None (Some "missense_variant").

(** A PASS site at AF 0.01 and a PASS site at AF 0.2. *)
Definition rare_site : VariantRow :=
  mkVariantRow (Some (mkLocus Autosomal false)) (Some [Some "A"; Some "T"])
    (Some ∅) (Some [Some (mkFreq (Some 2) (Some 200) (Some (f64_lit 1 100)))])
    (Some [Some hc_stop_gained; Some hc_flagged; Some missense])
    (Some [Some hc_stop_gained; Some hc_flagged; Some missense]).

Definition common_site : VariantRow :=
  mkVariantRow (Some (mkLocus Autosomal false)) (Some [Some "AT"; Some "A"])
    (Some ∅) (Some [Some (mkFreq (Some 40) (Some 200) (Some (f64_lit 2 10)))])
    (Some [Some hc_stop_gained]) (Some [Some hc_stop_gained]).

Definition only_rare : MatrixTable VariantRow (option string) :=
  mkMatrixTable [rare_site] [Some "XX"; Some "XY"].

Definition rare_and_common : MatrixTable VariantRow (option string) :=
  mkMatrixTable [rare_site; common_site] [Some "XX"; Some "XY"].

(** An expression table with no entry for any site. *)
Definition empty_tx_ht (r : VariantRow) : option (list (option TxAnnotation)) := None.

(** The builder on the fixture row type. *)
Definition gene_lof_on_variants :=
  default_generate_gene_lof_matrix indel_by_length
    v_locus v_alleles v_filters v_freq v_freq col_sex
    v_transcript_consequences (fun r => r) v_worst_csq_by_gene keep_most_severe.

(** The annotations of the output rows alone. *)
Definition annotations_of {Row}
    (out : result (list (Row * option Csq * list (string * option anno))))
  : result (list (list (string * option anno))) :=
  match out with
  | Ok rows => Ok (map snd rows)
  | Raise e => Raise e
  end.

Definition retained_variants :=
  filter_rows_stage v_locus v_filters v_freq v_freq col_sex.

(** ** Further definitions used by the properties below *)

(** An allele count that none of the four AC rules of the binner matches:
    missing, or above 5. *)
Definition ac_above_5 (ac : option Z) : Prop :=
  match ac with
  | None => True
  | Some n => 5 < n
  end.

(** The label the AF rules of the binner give, in their order. *)
Definition af_label (af : option float64) : string :=
  match af with
  | None => "10% - 95%"
  | Some x =>
      if f64_lt x (f64_lit 1 10000) then "AC 6 - 0.01%"
      else if f64_lt x (f64_lit 1 1000) then "0.01% - 0.1%"
      else if f64_lt x (f64_lit 1 100) then "0.1% - 1%"
      else if f64_lt x (f64_lit 1 10) then "1% - 10%"
      else if f64_gt x (f64_lit 95 100) then ">95%"
      else "10% - 95%"
  end.

(** What a record adds to the count of a condition. *)
Definition unit_weight {R} (c : Expr R bool) (r : R) : Z :=
  if holds c r then 1 else 0.

(** How many samples have a given (possibly missing) karyotype. *)
Definition count_of (k : option string) (l : list (option string)) : Z :=
  Z.of_nat (length (filter (fun x => x = k) l)).


(** A cohort in which every sample is XX or of unknown karyotype. *)
Definition no_xy_cohort : MatrixTable SiteRow (option string) :=
  mkMatrixTable [x_nonpar_an6] [Some "XX"; None; Some "XX"].

(** Variants scored on a cohort without an XY sample. *)
Definition variants_no_xy : MatrixTable VariantRow (option string) :=
  mkMatrixTable [rare_site; common_site] [Some "XX"; Some "XX"].

(** An entry of the expression table matches a consequence when both have
    a gene id and these are equal, and both have a consequence term and
    these are equal. *)
Definition tx_matches (c : option Csq) (t : option TxAnnotation) : bool :=
  match t ≫= ensg, c ≫= gene_id, t ≫= csq, c ≫= most_severe_consequence with
  | Some g, Some g', Some m, Some m' => String.eqb g g' && String.eqb m m'
  | _, _, _, _ => false
  end.

(** Two entries for the gene and consequence of [hc_stop_gained], after an
    entry for another gene. *)
Definition tx_entries : list (option TxAnnotation) :=
  [ Some (mkTxAnnotation (Some "ENSG02") (Some "stop_gained") (Some (f64_lit 5 10)));
    Some (mkTxAnnotation (Some "ENSG01") (Some "stop_gained") (Some (f64_lit 95 100)));
    Some (mkTxAnnotation (Some "ENSG01") (Some "stop_gained") (Some (f64_lit 1 100))) ].

Definition tx_table (r : VariantRow) : option (list (option TxAnnotation)) :=
  Some tx_entries.

(** * Properties *)

(** ** The literals are the binary64 values the interpreter reads *)

Example f64_lit_1e_4 : f64_lit 1 10000 = S754_finite false 7378697629483821 (-66).
Proof. vm_compute. reflexivity. Qed.
Example f64_lit_1e_3 : f64_lit 1 1000 = S754_finite false 4611686018427388 (-62).
Proof. vm_compute. reflexivity. Qed.
Example f64_lit_1e_2 : f64_lit 1 100 = S754_finite false 5764607523034235 (-59).
Proof. vm_compute. reflexivity. Qed.
Example f64_lit_1e_1 : f64_lit 1 10 = S754_finite false 7205759403792794 (-56).
Proof. vm_compute. reflexivity. Qed.
Example f64_lit_0_95 : f64_lit 95 100 = S754_finite false 8556839292003942 (-53).
Proof. vm_compute. reflexivity. Qed.
Example f64_lit_0_8 : f64_lit 8 10 = S754_finite false 7205759403792794 (-53).
Proof. vm_compute. reflexivity. Qed.
Example f64_lit_0_05 : f64_lit 5 100 = S754_finite false 7205759403792794 (-57).
Proof. vm_compute. reflexivity. Qed.
Example f64_lit_0_9 : f64_lit 9 10 = S754_finite false 8106479329266893 (-53).
Proof. vm_compute. reflexivity. Qed.
Example f64_lit_1e_6 : f64_lit 1 1000000 = S754_finite false 4722366482869645 (-72).
Proof. vm_compute. reflexivity. Qed.
Example f64_lit_0_005 : f64_lit 5 1000 = S754_finite false 5764607523034235 (-60).
Proof. vm_compute. reflexivity. Qed.
Example f64_lit_0_96 : f64_lit 96 100 = S754_finite false 8646911284551352 (-53).
Proof. vm_compute. reflexivity. Qed.

(** Integers convert exactly while they fit, and to nothing finite from
    2^1024 - 2^970 on. *)
Example f64_of_Z_max :
  f64_of_Z (2 ^ 1024 - 2 ^ 970 - 1) = S754_finite false 9007199254740991 971
  /\ f64_of_Z (2 ^ 1024 - 2 ^ 970) = S754_infinity false.
Proof. split; vm_compute; reflexivity. Qed.


(** ** Case chains *)

Section CaseLemmas.
Context {R A : Type}.
Implicit Types (b : CaseBuilder (R := R) A) (c : Expr R bool) (t d : Expr R A).

Lemma finish_nil mf d : finish d (mkCase mf []) = d.
Proof. reflexivity. Qed.

Lemma finish_cons mf c t (l : list (Expr R bool * Expr R A)) d r :
  finish d (mkCase mf ((c, t) :: l)) r
  = hl_cond mf c t (finish d (mkCase mf l)) r.
Proof. reflexivity. Qed.

(** With [missing_false], a chain none of whose conditions raises
    returns the value of its first true branch. *)
Lemma finish_first_true (l : list (Expr R bool * Expr R A)) d r :
  Forall (fun ct => ¬ is_raise (fst ct r)) l ->
  finish d (mkCase true l) r
  = match List.find (fun ct => holds (fst ct) r) l with
    | Some ct => snd ct r
    | None => d r
    end.
Proof.
  induction 1 as [|[c t] l Hc Hl IH]; [reflexivity|].
  rewrite finish_cons. cbn [List.find fst snd] in *.
  unfold hl_cond, holds.
  destruct (c r) as [[[|]|]|]; cbn in Hc; try done; apply IH.
Qed.

(** Without [missing_false], the chain is missing as soon as a condition
    is missing before any condition is true. *)
Lemma finish_strict_missing mf c t (l : list (Expr R bool * Expr R A)) d r :
  mf = false -> c r = NA -> finish d (mkCase mf ((c, t) :: l)) r = NA.
Proof. intros -> Hc. rewrite finish_cons. unfold hl_cond. by rewrite Hc. Qed.
End CaseLemmas.

(** Case analysis on the atomic conditions of nested conditionals. *)
Ltac case_ifs :=
  repeat match goal with
         | |- context [if ?b then _ else _] =>
             lazymatch b with
             | (if _ then _ else _) => fail
             | _ => destruct b
             end
         end.

(** ** Frequency binner *)

Lemma bin_labels_NoDup : NoDup bin_labels.
Proof. apply (bool_decide_unpack _). vm_compute. reflexivity. Qed.

Section FreqBinFacts.
Context {R : Type}.
Variables (freq_expr : Expr R (list (option Freq))) (index : Z) (r : R).

(** What the binner does once the selected struct is known. *)
Lemma freq_bin_expr_selected (s : option Freq) :
  index_array freq_expr index r = Ok s ->
  freq_bin_expr freq_expr index r
  = Def (first_true_wins
           [ (fun s => match s ≫= AC with Some x => x =? 0 | None => false end,
               "Not found");
             (fun s => match s ≫= AC with Some x => x =? 1 | None => false end,
               "Singleton");
             (fun s => match s ≫= AC with Some x => x =? 2 | None => false end,
               "Doubleton");
             (fun s => match s ≫= AC with Some x => x <=? 5 | None => false end,
               "AC 3 - 5");
             (fun s => match s ≫= AF with
                       | Some x => f64_lt x (f64_lit 1 10000) | None => false end,
               "AC 6 - 0.01%");
             (fun s => match s ≫= AF with
                       | Some x => f64_lt x (f64_lit 1 1000) | None => false end,
               "0.01% - 0.1%");
             (fun s => match s ≫= AF with
                       | Some x => f64_lt x (f64_lit 1 100) | None => false end,
               "0.1% - 1%");
             (fun s => match s ≫= AF with
                       | Some x => f64_lt x (f64_lit 1 10) | None => false end,
               "1% - 10%");
             (fun s => match s ≫= AF with
                       | Some x => f64_gt x (f64_lit 95 100) | None => false end,
               ">95%") ]
           "10% - 95%" s).
Proof.
  intros Hs. unfold freq_bin_expr, case_default, when, hl_case.
  cbn [cases missing_false app].
  rewrite finish_first_true.
  - unfold first_true_wins. cbn [List.find fst snd].
    unfold holds, lift1, field. rewrite Hs.
    destruct s as [[[ac|] an [af|]]|];
      cbn -[f64_lt f64_gt f64_lit Z.eqb Z.leb]; unfold lit;
      case_ifs; reflexivity.
  - repeat constructor; cbn [fst]; unfold lift1, field; rewrite Hs;
      destruct s as [[[ac|] an [af|]]|]; cbn; tauto.
Qed.
End FreqBinFacts.

Lemma first_true_wins_In {X} (rules : list ((X -> bool) * string)) dflt (x : X) :
  In (first_true_wins rules dflt x) (map snd rules ++ [dflt]).
Proof.
  unfold first_true_wins.
  destruct (List.find _ rules) as [rl|] eqn:Hf.
  - apply find_some in Hf as [Hin _]. apply in_or_app. left. by apply in_map.
  - apply in_or_app. right. by left.
Qed.

(** C1. For a record whose AC is a defined non-negative integer and whose AF
    is defined, the binner returns the label of the first true rule of the
    specification's ordered rule table (the default when none is true);
    that label is one of the ten pairwise distinct bin labels and it is the
    only result.  AC=0 gives "Not found"; AC=1 with AF=1e-6 gives
    "Singleton"; AC=10 with AF=0.005 gives "0.1% - 1%"; AC=10 with AF=0.96
    gives ">95%". *)
Theorem freq_bin_expr_first_true_wins
    {R : Type} (freq_expr : Expr R (list (option Freq))) (index : Z) (r : R)
    (ac : Z) (an : option Z) (af : float64)
    (Hac : 0 <= ac)
    (Hsel : index_array freq_expr index r = Def (mkFreq (Some ac) an (Some af))) :
  freq_bin_expr freq_expr index r
    = Def (first_true_wins freq_bin_rules "10% - 95%" (ac, af))
  /\ (exists l, In l bin_labels
        /\ freq_bin_expr freq_expr index r = Def l
        /\ forall l', In l' bin_labels ->
                      freq_bin_expr freq_expr index r = Def l' -> l' = l)
  /\ NoDup bin_labels /\ length bin_labels = 10%nat
  /\ bin_of (Some 0) (Some (f64_of_Z 0)) = Def "Not found"
  /\ bin_of (Some 1) (Some (f64_lit 1 1000000)) = Def "Singleton"
  /\ bin_of (Some 10) (Some (f64_lit 5 1000)) = Def "0.1% - 1%"
  /\ bin_of (Some 10) (Some (f64_lit 96 100)) = Def ">95%".
Proof.
  assert (Hcode : freq_bin_expr freq_expr index r
                  = Def (first_true_wins freq_bin_rules "10% - 95%" (ac, af))).
  { rewrite (freq_bin_expr_selected _ _ _ _ Hsel).
    unfold first_true_wins, freq_bin_rules.
    cbn -[f64_lt f64_gt f64_lit Z.eqb Z.leb].
    destruct (Z.eqb_spec ac 0); [reflexivity|].
    destruct (Z.eqb_spec ac 1); [reflexivity|].
    destruct (Z.eqb_spec ac 2); [reflexivity|].
    destruct (Z.leb_spec ac 5), (Z.leb_spec 3 ac); try lia; cbn [andb];
      case_ifs; reflexivity. }
  split; [exact Hcode|]. split.
  - exists (first_true_wins freq_bin_rules "10% - 95%" (ac, af)).
    split; [|split; [exact Hcode|]].
    + apply (first_true_wins_In freq_bin_rules).
    + intros l' _ Hl'. rewrite Hcode in Hl'. by injection Hl' as <-.
  - split; [exact bin_labels_NoDup|]. split; [reflexivity|].
    repeat split; vm_compute; reflexivity.
Qed.

Lemma freq_bin_expr_first_true_wins_witness :
  0 <= 7
  /\ index_array (R := unit)
       (lit [Some (mkFreq (Some 7) (Some 100) (Some (f64_lit 7 100)))]) 0 tt
     = Def (mkFreq (Some 7) (Some 100) (Some (f64_lit 7 100)))
  /\ freq_bin_expr (R := unit)
       (lit [Some (mkFreq (Some 7) (Some 100) (Some (f64_lit 7 100)))]) 0 tt
     = Def (first_true_wins freq_bin_rules "10% - 95%" (7, f64_lit 7 100)).
Proof.
  split; [lia|]. split; [reflexivity|].
  apply (freq_bin_expr_first_true_wins
           (lit [Some (mkFreq (Some 7) (Some 100) (Some (f64_lit 7 100)))]) 0 tt
           7 (Some 100) (f64_lit 7 100)); [lia|reflexivity].
Defined.

(** ** AN-adjacency criterion *)

Lemma py_float_of_int_2 : py_float_of_int 2 = Ok (f64_of_Z 2).
Proof. reflexivity. Qed.

Section AnAdjFacts.
Context {Row Col : Type}.
Variable locus : Row -> option Locus.
Variable sex_field : Col -> option string.
Variable freq_field : Row -> option (list (option Freq)).

Lemma an_adj_chain_on_row freq_index t_auto t_x t_y r :
  let an := lift1 f64_of_Z
              (field AN (index_array (fun r => Ok (freq_field r)) freq_index)) in
  let loc : Expr Row Locus := fun r => Ok (locus r) in
  (hl_case false
   |> when (lift1 in_autosome_or_par loc) (lift1 (fun a => f64_ge a t_auto) an)
   |> when (lift1 in_x_nonpar loc) (lift1 (fun a => f64_ge a t_x) an)
   |> when (lift1 in_y_nonpar loc) (lift1 (fun a => f64_ge a t_y) an)
   |> or_missing) r
  = an_adj_on_row locus freq_field freq_index t_auto t_x t_y r.
Proof.
  intros an loc. unfold an_adj_on_row, or_missing, when, hl_case, finish.
  cbn [cases missing_false app fold_right fst snd].
  assert (Hl : forall p : Locus -> bool, lift1 p loc r = Ok (p <$> locus r)).
  { intros p. unfold lift1, loc. by destruct (locus r). }
  unfold hl_cond, missing. rewrite !Hl.
  destruct (locus r) as [l|]; [|reflexivity].
  cbn [fmap option_fmap option_map].
  destruct (in_autosome_or_par l); [reflexivity|].
  destruct (in_x_nonpar l); [reflexivity|].
  destruct (in_y_nonpar l); reflexivity.
Qed.

(** When both keys are present and the three integers convert to floats,
    the function returns the criterion with the thresholds the source
    computes. *)
Lemma get_an_adj_criteria_Ok mt samples_by_sex xy_str xx_str freq_index cutoff
    xy xx f_total f_x f_y :
  let d := resolved_samples_by_sex sex_field mt samples_by_sex in
  d !! Some xy_str = Some xy ->
  d !! Some xx_str = Some xx ->
  py_float_of_int (dict_values_sum d) = Ok f_total ->
  py_float_of_int (xy + xx * 2) = Ok f_x ->
  py_float_of_int xy = Ok f_y ->
  exists crit,
    get_an_adj_criteria locus sex_field freq_field mt samples_by_sex
      xy_str xx_str freq_index cutoff = Ok crit
    /\ forall r,
         crit r = an_adj_on_row locus freq_field freq_index
                    (f64_mul (f64_mul cutoff (f64_of_Z 2)) f_total)
                    (f64_mul cutoff f_x) (f64_mul cutoff f_y) r.
Proof.
  intros d Hxy Hxx Ht Hx Hy.
  unfold get_an_adj_criteria.
  fold (resolved_samples_by_sex sex_field mt samples_by_sex). fold d.
  unfold py_float_mul_int, dict_getitem.
  rewrite py_float_of_int_2, Hxy, Hxx. cbn [mbind result_bind].
  rewrite Ht, Hx, Hy. cbn [mbind result_bind].
  eexists. split; [reflexivity|].
  intros r. apply an_adj_chain_on_row.
Qed.

(** Whenever the function returns, what it returns is the criterion for
    some thresholds. *)
Lemma get_an_adj_criteria_inv mt samples_by_sex xy_str xx_str freq_index cutoff crit :
  get_an_adj_criteria locus sex_field freq_field mt samples_by_sex
    xy_str xx_str freq_index cutoff = Ok crit ->
  exists t_auto t_x t_y,
    forall r, crit r = an_adj_on_row locus freq_field freq_index t_auto t_x t_y r.
Proof.
  unfold get_an_adj_criteria.
  repeat match goal with
         | |- context [mbind _ ?m] =>
             lazymatch m with
             | Ok _ => cbn [mbind result_bind]
             | _ => destruct m eqn:?; cbn [mbind result_bind]; [|discriminate]
             end
         end.
  intros [= <-]. do 3 eexists. intros r. apply an_adj_chain_on_row.
Qed.

(** The three locus classes exclude one another. *)
Lemma locus_classes_disjoint (l : Locus) :
  (in_x_nonpar l = true -> in_autosome_or_par l = false)
  /\ (in_y_nonpar l = true ->
      in_autosome_or_par l = false /\ in_x_nonpar l = false).
Proof. destruct l as [[] []]; cbn; auto. Qed.
End AnAdjFacts.

(** C5. With both karyotype keys in the mapping (counts [xy] and [xx]) and
    the counts converted to floats, the criterion of a row at a defined
    locus with a defined AN is: AN >= cutoff * 2 * (total sample count) on
    an autosomal or pseudo-autosomal locus, AN >= cutoff * (xy + xx * 2) on
    an X non-PAR locus, AN >= cutoff * xy on a Y non-PAR locus; on a locus of
    any other class it is missing.  The products and the comparison are the
    binary64 ones of the source. *)
Theorem get_an_adj_criteria_by_locus_class
    {Row Col : Type} (locus : Row -> option Locus)
    (sex_field : Col -> option string)
    (freq_field : Row -> option (list (option Freq)))
    (mt : MatrixTable Row Col) (samples_by_sex : option (gmap (option string) Z))
    (xy_str xx_str : string) (freq_index : Z) (cutoff : float64)
    (xy xx : Z) (f_total f_x f_y : float64)
    (Hxy : resolved_samples_by_sex sex_field mt samples_by_sex !! Some xy_str = Some xy)
    (Hxx : resolved_samples_by_sex sex_field mt samples_by_sex !! Some xx_str = Some xx)
    (Htotal : py_float_of_int
                (dict_values_sum (resolved_samples_by_sex sex_field mt samples_by_sex))
              = Ok f_total)
    (Hx : py_float_of_int (xy + xx * 2) = Ok f_x)
    (Hy : py_float_of_int xy = Ok f_y) :
  exists crit,
    get_an_adj_criteria locus sex_field freq_field mt samples_by_sex
      xy_str xx_str freq_index cutoff = Ok crit
    /\ forall (r : Row) (l : Locus),
         locus r = Some l ->
         (in_autosome_or_par l = false -> in_x_nonpar l = false ->
          in_y_nonpar l = false -> crit r = NA)
         /\ forall (s : Freq) (an : Z),
              index_array (fun r => Ok (freq_field r)) freq_index r = Def s ->
              AN s = Some an ->
              (in_autosome_or_par l = true ->
               crit r = Def (f64_ge (f64_of_Z an)
                               (f64_mul (f64_mul cutoff (f64_of_Z 2)) f_total)))
              /\ (in_x_nonpar l = true ->
                  crit r = Def (f64_ge (f64_of_Z an) (f64_mul cutoff f_x)))
              /\ (in_y_nonpar l = true ->
                  crit r = Def (f64_ge (f64_of_Z an) (f64_mul cutoff f_y))).
Proof.
  destruct (get_an_adj_criteria_Ok locus sex_field freq_field mt samples_by_sex
              xy_str xx_str freq_index cutoff xy xx f_total f_x f_y
              Hxy Hxx Htotal Hx Hy) as (crit & Hcrit & Hrow).
  exists crit. split; [exact Hcrit|].
  intros r l Hl. split.
  - intros Ha Hxn Hyn. rewrite Hrow. unfold an_adj_on_row.
    by rewrite Hl, Ha, Hxn, Hyn.
  - intros s an Hs Han.
    assert (Han' : forall t,
               lift1 (fun a => f64_ge a t)
                 (lift1 f64_of_Z
                    (field AN (index_array (fun r => Ok (freq_field r)) freq_index))) r
               = Def (f64_ge (f64_of_Z an) t)).
    { intros t. unfold lift1, field. by rewrite Hs, Han. }
    destruct (locus_classes_disjoint l) as [Hdx Hdy].
    split; [|split]; intros Hc; rewrite Hrow; unfold an_adj_on_row; rewrite Hl.
    + by rewrite Hc, Han'.
    + by rewrite (Hdx Hc), Hc, Han'.
    + destruct (Hdy Hc) as [-> ->]. by rewrite Hc, Han'.
Qed.

Lemma get_an_adj_criteria_by_locus_class_witness :
  resolved_samples_by_sex col_sex no_samples (Some cohort_3xy_2xx) !! Some "XY" = Some 3
  /\ resolved_samples_by_sex col_sex no_samples (Some cohort_3xy_2xx) !! Some "XX" = Some 2
  /\ py_float_of_int
       (dict_values_sum (resolved_samples_by_sex col_sex no_samples (Some cohort_3xy_2xx)))
     = Ok (f64_of_Z 5)
  /\ py_float_of_int (3 + 2 * 2) = Ok (f64_of_Z 7)
  /\ py_float_of_int 3 = Ok (f64_of_Z 3)
  /\ exists crit,
       get_an_adj_criteria row_locus col_sex row_freq no_samples (Some cohort_3xy_2xx)
         "XY" "XX" 0 (f64_lit 8 10) = Ok crit
       /\ crit x_nonpar_an6 = Def true.
Proof.
  assert (H1 : resolved_samples_by_sex col_sex no_samples (Some cohort_3xy_2xx)
               !! Some "XY" = Some 3) by (vm_compute; reflexivity).
  assert (H2 : resolved_samples_by_sex col_sex no_samples (Some cohort_3xy_2xx)
               !! Some "XX" = Some 2) by (vm_compute; reflexivity).
  assert (H3 : py_float_of_int
                 (dict_values_sum
                    (resolved_samples_by_sex col_sex no_samples (Some cohort_3xy_2xx)))
               = Ok (f64_of_Z 5)) by (vm_compute; reflexivity).
  assert (H4 : py_float_of_int (3 + 2 * 2) = Ok (f64_of_Z 7)) by (vm_compute; reflexivity).
  assert (H5 : py_float_of_int 3 = Ok (f64_of_Z 3)) by (vm_compute; reflexivity).
  repeat (split; [assumption|]).
  destruct (get_an_adj_criteria_by_locus_class row_locus col_sex row_freq no_samples
              (Some cohort_3xy_2xx) "XY" "XX" 0 (f64_lit 8 10) 3 2
              (f64_of_Z 5) (f64_of_Z 7) (f64_of_Z 3) H1 H2 H3 H4 H5)
    as (crit & Hcrit & Hrow).
  exists crit. split; [exact Hcrit|].
  destruct (Hrow x_nonpar_an6 (mkLocus ContigX false) eq_refl) as [_ Hdef].
  destruct (Hdef (mkFreq (Some 1) (Some 6) (Some (f64_lit 1 6))) 6 eq_refl eq_refl)
    as (_ & Hx & _).
  rewrite (Hx eq_refl). vm_compute. reflexivity.
Defined.

(** ** Eager key lookup *)

(** C10 (as amended). The keys are looked up while the expression is built:
    whenever the mapping lacks xy_str or xx_str the function raises, whatever
    the rows are.  The error is the KeyError of the first absent key
    provided the sum of the mapping's values converts to a float; that sum
    is converted first, for the threshold of the first branch. *)
Theorem get_an_adj_criteria_missing_key
    {Row Col : Type} (locus : Row -> option Locus)
    (sex_field : Col -> option string)
    (freq_field : Row -> option (list (option Freq)))
    (mt : MatrixTable Row Col) (samples_by_sex : option (gmap (option string) Z))
    (xy_str xx_str : string) (freq_index : Z) (cutoff : float64)
    (Hkey : resolved_samples_by_sex sex_field mt samples_by_sex !! Some xy_str = None
            \/ resolved_samples_by_sex sex_field mt samples_by_sex !! Some xx_str = None) :
  is_raise (get_an_adj_criteria locus sex_field freq_field mt samples_by_sex
              xy_str xx_str freq_index cutoff)
  /\ forall f_total,
       py_float_of_int
         (dict_values_sum (resolved_samples_by_sex sex_field mt samples_by_sex))
       = Ok f_total ->
       get_an_adj_criteria locus sex_field freq_field mt samples_by_sex
         xy_str xx_str freq_index cutoff
       = Raise (KeyError
                  match resolved_samples_by_sex sex_field mt samples_by_sex
                        !! Some xy_str with
                  | None => xy_str
                  | Some _ => xx_str
                  end).
Proof.
  unfold get_an_adj_criteria.
  fold (resolved_samples_by_sex sex_field mt samples_by_sex).
  set (d := resolved_samples_by_sex sex_field mt samples_by_sex) in *.
  unfold py_float_mul_int, dict_getitem. rewrite py_float_of_int_2.
  cbn [mbind result_bind].
  split.
  - destruct (py_float_of_int (dict_values_sum d)); cbn [mbind result_bind]; [|exact I].
    destruct (d !! Some xy_str); cbn [mbind result_bind]; [|exact I].
    destruct Hkey as [?| ->]; [discriminate|exact I].
  - intros f_total ->. cbn [mbind result_bind].
    destruct (d !! Some xy_str); cbn [mbind result_bind]; [|reflexivity].
    destruct Hkey as [?| ->]; [discriminate|reflexivity].
Qed.

Lemma get_an_adj_criteria_missing_key_witness :
  (resolved_samples_by_sex col_sex no_samples (Some cohort_xx_only) !! Some "XY" = None
   \/ resolved_samples_by_sex col_sex no_samples (Some cohort_xx_only) !! Some "XX" = None)
  /\ get_an_adj_criteria row_locus col_sex row_freq no_samples (Some cohort_xx_only)
       "XY" "XX" 0 (f64_lit 8 10)
     = Raise (KeyError "XY").
Proof.
  assert (H : resolved_samples_by_sex col_sex no_samples (Some cohort_xx_only)
              !! Some "XY" = None
              \/ resolved_samples_by_sex col_sex no_samples (Some cohort_xx_only)
                 !! Some "XX" = None) by (left; vm_compute; reflexivity).
  split; [exact H|].
  destruct (get_an_adj_criteria_missing_key row_locus col_sex row_freq no_samples
              (Some cohort_xx_only) "XY" "XX" 0 (f64_lit 8 10) H) as [_ Hk].
  rewrite (Hk (f64_of_Z 2)); [reflexivity|vm_compute; reflexivity].
Defined.

(** C10 as stated fails when the mapping lacks XY and holds a count that
    no float can hold: the call raises OverflowError, not KeyError. *)
Lemma get_an_adj_criteria_key_error_counterexample :
  cohort_beyond_float !! Some "XY" = None
  /\ get_an_adj_criteria row_locus col_sex row_freq no_samples
       (Some cohort_beyond_float) "XY" "XX" 0 (f64_lit 8 10)
     = Raise (OverflowError "int too large to convert to float")
  /\ ~ exists k,
        get_an_adj_criteria row_locus col_sex row_freq no_samples
          (Some cohort_beyond_float) "XY" "XX" 0 (f64_lit 8 10)
        = Raise (KeyError k).
Proof.
  assert (H : get_an_adj_criteria row_locus col_sex row_freq no_samples
                (Some cohort_beyond_float) "XY" "XX" 0 (f64_lit 8 10)
              = Raise (OverflowError "int too large to convert to float"))
    by (vm_compute; reflexivity).
  split; [vm_compute; reflexivity|]. split; [exact H|].
  intros [k Hk]. rewrite H in Hk. discriminate.
Qed.

(** ** Missing frequency inputs *)

(** C2 as stated fails: with the selected struct missing, or with both AC
    and AF missing, the binner returns the bin label "10% - 95%", not a
    missing result. *)
Lemma freq_bin_expr_missing_counterexample :
  freq_bin_expr (R := unit) (lit [None]) 0 tt = Def "10% - 95%"
  /\ bin_of None None = Def "10% - 95%"
  /\ In "10% - 95%" bin_labels
  /\ freq_bin_expr (R := unit) (lit [None]) 0 tt <> NA
  /\ bin_of None None <> NA.
Proof.
  assert (H1 : freq_bin_expr (R := unit) (lit [None]) 0 tt = Def "10% - 95%")
    by (vm_compute; reflexivity).
  assert (H2 : bin_of None None = Def "10% - 95%") by (vm_compute; reflexivity).
  split; [exact H1|]. split; [exact H2|].
  split; [cbn; tauto|].
  split; [rewrite H1|rewrite H2]; discriminate.
Qed.

(** C2 (as amended). When the selected frequency struct is missing, or both
    its AC and AF are missing, the binner does not raise and returns the
    default label "10% - 95%": every condition is missing, missing counts as
    false, and the chain falls through to its default.  In the AN-adjacency
    criterion a missing AN (or a missing selected struct or frequency array)
    gives a missing result on every row. *)
Theorem missing_frequency_inputs :
  (forall (R : Type) (freq_expr : Expr R (list (option Freq))) (index : Z) (r : R)
          (s : option Freq),
      index_array freq_expr index r = Ok s ->
      s = None \/ (exists f, s = Some f /\ AC f = None /\ AF f = None) ->
      freq_bin_expr freq_expr index r = Def "10% - 95%")
  /\ (forall (Row Col : Type) (locus : Row -> option Locus)
             (sex_field : Col -> option string)
             (freq_field : Row -> option (list (option Freq)))
             (mt : MatrixTable Row Col) samples_by_sex xy_str xx_str freq_index cutoff
             (crit : Expr Row bool) (r : Row) (s : option Freq),
         get_an_adj_criteria locus sex_field freq_field mt samples_by_sex
           xy_str xx_str freq_index cutoff = Ok crit ->
         index_array (fun r => Ok (freq_field r)) freq_index r = Ok s ->
         s ≫= AN = None ->
         crit r = NA).
Proof.
  split.
  - intros R freq_expr index r s Hs Hmiss.
    rewrite (freq_bin_expr_selected _ _ _ _ Hs).
    destruct Hmiss as [-> | (f & -> & Hac & Haf)]; unfold first_true_wins; cbn;
      [reflexivity|]. by rewrite Hac, Haf.
  - intros Row Col locus sex_field freq_field mt sbs xy_str xx_str freq_index cutoff
           crit r s Hcrit Hs Han.
    destruct (get_an_adj_criteria_inv _ _ _ _ _ _ _ _ _ _ Hcrit)
      as (t_auto & t_x & t_y & Hrow).
    rewrite Hrow. unfold an_adj_on_row.
    assert (Hna : forall t,
               lift1 (fun a => f64_ge a t)
                 (lift1 f64_of_Z
                    (field AN (index_array (fun r => Ok (freq_field r)) freq_index))) r
               = NA).
    { intros t. unfold lift1, field. rewrite Hs.
      destruct s as [f|]; cbn in Han; [by rewrite Han|reflexivity]. }
    rewrite !Hna. destruct (locus r) as [l|]; [|reflexivity].
    by destruct (in_autosome_or_par l), (in_x_nonpar l), (in_y_nonpar l).
Qed.

Lemma missing_frequency_inputs_witness :
  (index_array (R := unit) (lit [Some (mkFreq None (Some 10) None)]) 0 tt
   = Ok (Some (mkFreq None (Some 10) None))
   /\ freq_bin_expr (R := unit) (lit [Some (mkFreq None (Some 10) None)]) 0 tt
      = Def "10% - 95%")
  /\ exists crit,
       get_an_adj_criteria row_locus col_sex row_freq no_samples (Some cohort_3xy_2xx)
         "XY" "XX" 0 (f64_lit 8 10) = Ok crit
       /\ index_array (fun r => Ok (row_freq r)) 0 autosomal_no_an
          = Ok (Some (mkFreq (Some 1) None None))
       /\ crit autosomal_no_an = NA.
Proof.
  destruct missing_frequency_inputs as [Hbin Han].
  split.
  - split; [reflexivity|].
    apply (Hbin unit (lit [Some (mkFreq None (Some 10) None)]) 0 tt
             (Some (mkFreq None (Some 10) None)) eq_refl).
    right. exists (mkFreq None (Some 10) None). repeat split; reflexivity.
  - destruct (get_an_adj_criteria row_locus col_sex row_freq no_samples
                (Some cohort_3xy_2xx) "XY" "XX" 0 (f64_lit 8 10)) as [crit|e] eqn:Hc;
      [|vm_compute in Hc; discriminate].
    exists crit. split; [reflexivity|]. split; [reflexivity|].
    exact (Han _ _ row_locus col_sex row_freq no_samples (Some cohort_3xy_2xx)
             "XY" "XX" 0 (f64_lit 8 10) crit autosomal_no_an
             (Some (mkFreq (Some 1) None None)) Hc eq_refl eq_refl).
Defined.

(** ** Gene-level LoF matrix builder: the consequence predicate *)

Section CsqCriteria.
Variable add_most_severe_consequence_to_consequence : option Csq -> val Csq.
Variables (pre_loftee : bool) (lof_csq_set : gset string).

Lemma csq_criteria_empty :
  csq_criteria add_most_severe_consequence_to_consequence pre_loftee lof_csq_set ∅
  = Ok (lof_criteria add_most_severe_consequence_to_consequence pre_loftee lof_csq_set).
Proof. reflexivity. Qed.

(** Any non-empty additional set makes the construction of the predicate
    fail. *)
Lemma csq_criteria_nonempty (additional_csq_set : gset string) :
  additional_csq_set ≠ ∅ ->
  csq_criteria add_most_severe_consequence_to_consequence pre_loftee lof_csq_set
    additional_csq_set
  = Raise (TypeError "unsupported operand type(s) for &=: 'function' and 'function'").
Proof.
  intros Hne. unfold csq_criteria. by rewrite bool_decide_eq_true_2.
Qed.
End CsqCriteria.

Lemma default_additional_csq_set_nonempty : default_additional_csq_set ≠ ∅.
Proof.
  intros H. assert (Hin : "missense_variant" ∈ default_additional_csq_set)
    by (unfold default_additional_csq_set; set_solver).
  rewrite H in Hin. set_solver.
Qed.

Section GeneLofFacts.
Variable is_indel : string -> string -> bool.
Context {Row Col : Type}.
Variable locus : Row -> option Locus.
Variable alleles : Row -> option (list (option string)).
Variable filter_field : Row -> option (gset string).
Variables freq_field freq : Row -> option (list (option Freq)).
Variable sex_karyotype : Col -> option string.
Variable transcript_consequences : Row -> option (list (option Csq)).
Variable process_consequences : Row -> Row.
Variable worst_csq_by_gene : Row -> option (list (option Csq)).
Variable add_most_severe_consequence_to_consequence : option Csq -> val Csq.

(** With a non-empty additional set the builder never returns; without
    the AN filter the error is the TypeError of the predicate's
    construction. *)
Lemma gene_lof_additional_set_raises mt tx_ht freq_index additional_csq_set
    all_transcripts filter_an filter_to_rare pre_loftee lof_csq_set
    remove_ultra_common :
  additional_csq_set ≠ ∅ ->
  is_raise
    (default_generate_gene_lof_matrix is_indel locus alleles filter_field
       freq_field freq sex_karyotype transcript_consequences process_consequences
       worst_csq_by_gene add_most_severe_consequence_to_consequence
       mt tx_ht freq_index additional_csq_set all_transcripts filter_an
       filter_to_rare pre_loftee lof_csq_set remove_ultra_common)
  /\ (filter_an = false ->
      default_generate_gene_lof_matrix is_indel locus alleles filter_field
        freq_field freq sex_karyotype transcript_consequences process_consequences
        worst_csq_by_gene add_most_severe_consequence_to_consequence
        mt tx_ht freq_index additional_csq_set all_transcripts filter_an
        filter_to_rare pre_loftee lof_csq_set remove_ultra_common
      = Raise (TypeError
                 "unsupported operand type(s) for &=: 'function' and 'function'")).
Proof.
  intros Hne. unfold default_generate_gene_lof_matrix.
  rewrite (csq_criteria_nonempty _ _ _ _ Hne). split.
  - by destruct (filt_criteria _ _ _ _ _ _ _ _ _ _).
  - intros ->. reflexivity.
Qed.
End GeneLofFacts.

(** C3. On the default arguments (additional set missense + synonymous) the
    builder raises a TypeError when it combines the LoF predicate with the
    membership test of the additional set, in either LoF mode: no
    consequence entry is retained at all.  With an empty additional set the
    same matrix goes through. *)
Theorem gene_lof_additional_set_not_unioned :
  gene_lof_on_variants rare_and_common None 0 default_additional_csq_set
    false false false false default_lof_csq_set false
  = Raise (TypeError "unsupported operand type(s) for &=: 'function' and 'function'")
  /\ gene_lof_on_variants rare_and_common None 0 default_additional_csq_set
       false false false true default_lof_csq_set false
     = Raise (TypeError "unsupported operand type(s) for &=: 'function' and 'function'")
  /\ exists rows,
       gene_lof_on_variants rare_and_common None 0 ∅
         false false false false default_lof_csq_set false = Ok rows.
Proof.
  split; [|split].
  - apply (gene_lof_additional_set_raises indel_by_length v_locus v_alleles v_filters
             v_freq v_freq col_sex v_transcript_consequences (fun r => r)
             v_worst_csq_by_gene keep_most_severe);
      [exact default_additional_csq_set_nonempty|reflexivity].
  - apply (gene_lof_additional_set_raises indel_by_length v_locus v_alleles v_filters
             v_freq v_freq col_sex v_transcript_consequences (fun r => r)
             v_worst_csq_by_gene keep_most_severe);
      [exact default_additional_csq_set_nonempty|reflexivity].
  - eexists. vm_compute. reflexivity.
Qed.

(** ** Gene-level LoF matrix builder: post-LOFTEE classification *)

(** C9. In post-LOFTEE mode (and with an empty additional set, where the
    predicate is the LoF predicate itself) an entry is classified as LoF
    exactly when its lof field is "HC" and its lof_flags field is missing;
    an entry whose lof_flags is present, whatever string it holds, gets the
    value false. *)
Theorem lof_criteria_post_loftee
    (add_most_severe_consequence_to_consequence : option Csq -> val Csq)
    (lof_csq_set : gset string) :
  csq_criteria add_most_severe_consequence_to_consequence false lof_csq_set ∅
  = Ok (lof_criteria add_most_severe_consequence_to_consequence false lof_csq_set)
  /\ (forall x : option Csq,
        lof_criteria add_most_severe_consequence_to_consequence false lof_csq_set x
        = Def true
        <-> exists c, x = Some c /\ lof c = Some "HC" /\ lof_flags c = None)
  /\ (forall (c : Csq) (flags : string),
        lof_flags c = Some flags ->
        lof_criteria add_most_severe_consequence_to_consequence false lof_csq_set
          (Some c) = Def false).
Proof.
  split; [reflexivity|]. split.
  - intros x. unfold lof_criteria, hl_and, hl_is_missing, lift1, field, elem. split.
    + destruct x as [c|]; [|discriminate]. cbn.
      destruct (lof c) as [l|] eqn:Hl, (lof_flags c) as [fl|] eqn:Hf; cbn;
        try destruct (String.eqb_spec l "HC"); try discriminate.
      intros _. exists c. by subst.
    + intros (c & -> & Hl & Hf). cbn. by rewrite Hl, Hf.
  - intros c flags Hf. unfold lof_criteria, hl_and, hl_is_missing, lift1, field, elem.
    cbn. rewrite Hf. destruct (lof c) as [l|]; [|reflexivity].
    by destruct (String.eqb l "HC").
Qed.

Lemma lof_criteria_post_loftee_witness :
  lof_flags hc_flagged = Some ""
  /\ lof_criteria keep_most_severe false default_lof_csq_set (Some hc_flagged) = Def false
  /\ lof_criteria keep_most_severe false default_lof_csq_set (Some hc_stop_gained) = Def true.
Proof.
  destruct (lof_criteria_post_loftee keep_most_severe default_lof_csq_set)
    as (_ & Hiff & Hflag).
  split; [reflexivity|]. split.
  - exact (Hflag hc_flagged "" eq_refl).
  - apply Hiff. exists hc_stop_gained. repeat split; reflexivity.
Defined.

(** ** Gene-level LoF matrix builder: expression bucket *)

(** C7. The bucket is "high" for a mean expression >= 0.9, else "medium"
    for one > 0.1, else "low" for any other defined one; for a missing mean
    expression it is missing, not the string "missing": the first condition
    is then missing and the chain, built without missing_false, stops there.
    On a matrix whose expression table has no entry for the site, the
    "expressed" annotation of the output row is missing. *)
Theorem expressed_expr_buckets :
  (forall (R : Type) (tx_annotation : Expr R float64) (r : R),
      expressed_expr tx_annotation r
      = match tx_annotation r with
        | Def x =>
            Def (if f64_ge x (f64_lit 9 10) then "high"
                 else if f64_gt x (f64_lit 1 10) then "medium"
                 else "low")
        | NA => NA
        | Raise e => Raise e
        end)
  /\ expressed_expr (R := unit) missing tt = NA
  /\ expressed_expr (R := unit) missing tt <> Def "missing"
  /\ annotations_of
       (gene_lof_on_variants only_rare (Some empty_tx_ht) 0 ∅
          false false false false default_lof_csq_set false)
     = Ok [[ ("gene_id", Some (AStr "ENSG01")); ("gene", Some (AStr "GENE1"));
             ("indel", Some (ABool false));
             ("most_severe_consequence", Some (AStr "stop_gained"));
             ("expressed", None) ]].
Proof.
  split; [|split; [reflexivity|split; [discriminate|vm_compute; reflexivity]]].
  intros R tx r. unfold expressed_expr, case_default, when, hl_case, finish.
  cbn [cases missing_false app fold_right fst snd].
  unfold hl_cond, hl_is_defined, lift1, lit.
  destruct (tx r) as [[x|]|e]; [|reflexivity|reflexivity].
  by destruct (f64_ge x (f64_lit 9 10)), (f64_gt x (f64_lit 1 10)).
Qed.

(** ** Gene-level LoF matrix builder: the row filter *)

Section RowFilterFacts.
Context {R : Type}.
Implicit Types (c : Expr R bool) (rows : list R).

Lemma hl_and_Ok c1 c2 r b :
  hl_and c1 c2 r = Ok b ->
  exists b1, c1 r = Ok b1 /\ (b = Some true -> b1 = Some true /\ c2 r = Def true).
Proof.
  unfold hl_and. destruct (c1 r) as [[[|]|]|e]; intros H.
  - eexists. split; [reflexivity|]. intros ->. by split.
  - eexists. split; [reflexivity|]. intros ->. discriminate.
  - eexists. split; [reflexivity|]. intros ->.
    destruct (c2 r) as [[[|]|]|]; discriminate.
  - discriminate.
Qed.

(** Adding a conjunct to the predicate of a filter can only remove
    rows, and can only make the evaluation fail. *)
Lemma table_filter_and c1 c2 rows rows1 :
  table_filter (hl_and c1 c2) rows = Ok rows1 ->
  exists rows0,
    table_filter c1 rows = Ok rows0
    /\ sublist rows1 rows0
    /\ Forall (fun r => c2 r = Def true) rows1.
Proof.
  revert rows1. induction rows as [|r rows IH]; intros rows1; cbn [table_filter].
  - intros [= <-]. exists []. by repeat split.
  - destruct (hl_and c1 c2 r) as [b|e] eqn:Hb; cbn [mbind result_bind];
      [|discriminate].
    destruct (table_filter (hl_and c1 c2) rows) as [rs|e] eqn:Hrs;
      cbn [mbind result_bind]; [|discriminate].
    intros [= <-].
    destruct (IH rs eq_refl) as (rs0 & -> & Hsub & Hall).
    destruct (hl_and_Ok _ _ _ _ Hb) as (b1 & -> & Htrue).
    cbn [mbind result_bind]. eexists. split; [reflexivity|].
    destruct b as [[|]|].
    + destruct (Htrue eq_refl) as [-> Hc2]. split; [by constructor|by constructor].
    + split; [|done]. destruct b1 as [[|]|]; [by constructor|done|done].
    + split; [|done]. destruct b1 as [[|]|]; [by constructor|done|done].
Qed.
End RowFilterFacts.

(** C8 (as amended). Whenever the filter with filter_to_rare=True
    evaluates, the filter with filter_to_rare=False (other parameters equal)
    evaluates too, the rows retained with True are a sub-sequence of those
    retained with False, and each of them has a defined AF below 0.05.  The
    two sets may be equal. *)
Theorem filter_to_rare_retains_subset
    {Row Col : Type} (locus : Row -> option Locus)
    (filter_field : Row -> option (gset string))
    (freq_field freq : Row -> option (list (option Freq)))
    (sex_karyotype : Col -> option string)
    (mt : MatrixTable Row Col) (freq_index : Z)
    (filter_an remove_ultra_common : bool) (rare_rows : list Row)
    (Hrare : filter_rows_stage locus filter_field freq_field freq sex_karyotype
               mt freq_index filter_an true remove_ultra_common = Ok rare_rows) :
  exists all_rows,
    filter_rows_stage locus filter_field freq_field freq sex_karyotype
      mt freq_index filter_an false remove_ultra_common = Ok all_rows
    /\ sublist rare_rows all_rows
    /\ Forall (fun r => exists s af,
                 index_array (fun r => Ok (freq_field r)) freq_index r = Def s
                 /\ AF s = Some af /\ f64_lt af (f64_lit 5 100) = true) rare_rows.
Proof.
  unfold filter_rows_stage, filt_criteria in *.
  destruct (if filter_an then _ else _) as [c|e]; cbn [mbind result_bind] in *;
    [|discriminate].
  apply table_filter_and in Hrare as (rows0 & H0 & Hsub & Hall).
  exists rows0. split; [exact H0|]. split; [exact Hsub|].
  eapply Forall_impl; [exact Hall|]. intros r. cbn beta.
  unfold lift1, field.
  destruct (index_array _ freq_index r) as [[s|]|]; try discriminate.
  destruct (AF s) as [af|] eqn:Haf; [|discriminate].
  intros [= Hlt]. by exists s, af.
Qed.

Lemma filter_to_rare_retains_subset_witness :
  retained_variants rare_and_common 0 false true false = Ok [rare_site]
  /\ exists all_rows,
       retained_variants rare_and_common 0 false false false = Ok all_rows
       /\ sublist [rare_site] all_rows.
Proof.
  assert (H : retained_variants rare_and_common 0 false true false = Ok [rare_site])
    by (vm_compute; reflexivity).
  split; [exact H|].
  destruct (filter_to_rare_retains_subset v_locus v_filters v_freq v_freq col_sex
              rare_and_common 0 false false [rare_site] H) as (all_rows & H0 & Hsub & _).
  exists all_rows. split; [exact H0|exact Hsub].
Defined.

(** C8 as stated fails: when every retained row is rare the two filters
    retain the same rows, so the inclusion is not strict. *)
Lemma filter_to_rare_strict_subset_counterexample :
  retained_variants only_rare 0 false true false = Ok [rare_site]
  /\ retained_variants only_rare 0 false false false = Ok [rare_site]
  /\ ~ exists rare_rows all_rows r,
        retained_variants only_rare 0 false true false = Ok rare_rows
        /\ retained_variants only_rare 0 false false false = Ok all_rows
        /\ In r all_rows /\ ~ In r rare_rows.
Proof.
  assert (H1 : retained_variants only_rare 0 false true false = Ok [rare_site])
    by (vm_compute; reflexivity).
  assert (H0 : retained_variants only_rare 0 false false false = Ok [rare_site])
    by (vm_compute; reflexivity).
  split; [exact H1|]. split; [exact H0|].
  intros (rare_rows & all_rows & r & Hr & Ha & Hin & Hnot).
  rewrite H1 in Hr. rewrite H0 in Ha.
  injection Hr as <-. injection Ha as <-. exact (Hnot Hin).
Qed.

(** ** Counting aggregators *)

Lemma result_mapM_cons {A B} (f : A -> result B) x l :
  mapM f (x :: l) = (y ← f x; k ← mapM f l; Ok (y :: k)).
Proof. reflexivity. Qed.

Lemma result_mapM_ext_in {A B} (f g : A -> result B) l :
  (forall x, x ∈ l -> f x = g x) -> mapM f l = mapM g l.
Proof.
  induction l as [|x l IH]; intros Hfg; [reflexivity|].
  rewrite !result_mapM_cons, Hfg by left.
  rewrite IH; [reflexivity|]. intros y Hy. apply Hfg. by right.
Qed.

Section Additive.
Context {R : Type}.
Implicit Types (a : Agg R) (c : Expr R bool) (rows : list R).

Lemma agg_count_additive : additive (agg_count (R := R)).
Proof.
  split; [reflexivity|]. intros r rows. unfold agg_count.
  cbn [mbind result_bind length]. f_equal. lia.
Qed.

Lemma agg_count_where_additive c : additive (agg_count_where c).
Proof.
  split; [reflexivity|]. intros r rows. cbn [agg_count_where].
  destruct (c r) as [b|e]; cbn [mbind result_bind]; [|reflexivity].
  destruct (agg_count_where c rows) as [n|e]; cbn [mbind result_bind];
    [|by destruct b as [[|]|]].
  destruct b as [[|]|]; f_equal; lia.
Qed.

Lemma agg_count_where_bounds c rows n :
  agg_count_where c rows = Ok n -> 0 <= n <= Z.of_nat (length rows).
Proof.
  revert n. induction rows as [|r rows IH]; intros n; cbn [agg_count_where].
  - intros [= <-]. cbn. lia.
  - destruct (c r) as [b|e]; cbn [mbind result_bind]; [|discriminate].
    destruct (agg_count_where c rows) as [m|e]; cbn [mbind result_bind];
      [|discriminate].
    specialize (IH m eq_refl). cbn [length].
    destruct b as [[|]|]; intros [= <-]; lia.
Qed.

(** A condition that raises on no record is counted without error. *)
Lemma agg_count_where_total c rows :
  Forall (fun r => ¬ is_raise (c r)) rows ->
  exists n, agg_count_where c rows = Ok n.
Proof.
  induction 1 as [|r rows Hr _ [n IH]]; [by exists 0|].
  cbn [agg_count_where]. rewrite IH.
  destruct (c r) as [b|e]; [|done]. cbn [mbind result_bind]. eauto.
Qed.

(** Splitting the records in two splits the count. *)
Lemma additive_split a (P : R -> Prop) `{!forall r, Decision (P r)} rows n :
  additive a ->
  a rows = Ok n ->
  exists n1 n2,
    a (filter P rows) = Ok n1
    /\ a (filter (fun r => ¬ P r) rows) = Ok n2
    /\ n = n1 + n2.
Proof.
  intros [Hnil Hcons]. revert n.
  induction rows as [|r rows IH]; intros n.
  - rewrite Hnil. intros [= <-]. exists 0, 0. by rewrite !filter_nil, Hnil.
  - rewrite Hcons.
    destruct (a [r]) as [x|e] eqn:Hx; cbn [mbind result_bind]; [|discriminate].
    destruct (a rows) as [m|e]; cbn [mbind result_bind]; [|discriminate].
    intros [= <-]. destruct (IH m eq_refl) as (n1 & n2 & H1 & H2 & ->).
    destruct (decide (P r)) as [HP|HP].
    + exists (x + n1), n2.
      rewrite (filter_cons_True P) by done.
      rewrite (filter_cons_False (fun r => ¬ P r)) by tauto.
      rewrite Hcons, Hx, H1. cbn [mbind result_bind].
      split; [reflexivity|]. split; [exact H2|lia].
    + exists n1, (x + n2).
      rewrite (filter_cons_False P) by done.
      rewrite (filter_cons_True (fun r => ¬ P r)) by done.
      rewrite Hcons, Hx, H2. cbn [mbind result_bind].
      split; [exact H1|]. split; [reflexivity|lia].
Qed.

(** Grouping by a key whose values all occur in a duplicate-free list of
    keys: the counts of the groups add up to the count of the whole. *)
Lemma additive_groups a (key : R -> option string) ks :
  additive a ->
  NoDup ks ->
  forall rows n,
    (forall r, r ∈ rows -> key r ∈ ks) ->
    a rows = Ok n ->
    exists ns,
      mapM (fun k => a (group_rows key k rows)) ks = Ok ns /\ Zsum ns = n.
Proof.
  intros Ha. induction 1 as [|k ks Hk Hnd IH]; intros rows n Hcover Hn.
  - destruct rows as [|r rows].
    + destruct Ha as [Hnil _]. rewrite Hnil in Hn. injection Hn as <-.
      by exists [].
    + exfalso. eapply not_elem_of_nil, (Hcover r). by left.
  - destruct (additive_split a (fun r => key r = k) rows n Ha Hn)
      as (n1 & n2 & H1 & H2 & ->).
    destruct (IH (filter (fun r => ¬ key r = k) rows) n2) as (ns & Hns & Hsum).
    + intros r [Hne Hr]%list_elem_of_filter.
      specialize (Hcover r Hr). apply elem_of_cons in Hcover as [?|?]; done.
    + exact H2.
    + exists (n1 :: ns). rewrite result_mapM_cons.
      change (group_rows key k rows) with (filter (fun r => key r = k) rows).
      rewrite H1. cbn [mbind result_bind].
      rewrite (result_mapM_ext_in _
                 (fun k' => a (group_rows key k'
                                 (filter (fun r => ¬ key r = k) rows)))).
      * rewrite Hns. cbn [mbind result_bind]. split; [reflexivity|].
        cbn [Zsum foldr]. fold (Zsum ns). lia.
      * intros k' Hk'. unfold group_rows. f_equal.
        rewrite list_filter_filter_l; [reflexivity|].
        intros r -> ->. done.
Qed.
End Additive.

(** ** Structs of aggregations and grouped tables *)

Section Grouped.
Context {R : Type}.
Implicit Types (d : list (string * Agg R)) (rows : list R).

Lemma agg_struct_lookup d rows s name a :
  agg_struct d rows = Ok s ->
  NoDup (fst <$> d) ->
  (name, a) ∈ d ->
  exists v, a rows = Ok v /\ struct_get name s = Some v.
Proof.
  unfold agg_struct. revert s.
  induction d as [|[n0 a0] d IH]; intros s Hs Hnd Hin.
  - by apply not_elem_of_nil in Hin.
  - rewrite result_mapM_cons in Hs. cbn [fst snd] in Hs.
    destruct (a0 rows) as [v0|e] eqn:Hv0; cbn [mbind result_bind] in Hs;
      [|discriminate].
    destruct (mapM _ d) as [k|e] eqn:Hk; cbn [mbind result_bind] in Hs;
      [|discriminate].
    injection Hs as <-. apply NoDup_cons in Hnd as [Hn0 Hnd].
    apply elem_of_cons in Hin as [[= -> ->]|Hin].
    + exists v0. split; [exact Hv0|]. unfold struct_get. cbn [List.find fst].
      by rewrite String.eqb_refl.
    + destruct (IH k eq_refl Hnd Hin) as (v & Hv & Hget).
      exists v. split; [exact Hv|]. unfold struct_get. cbn [List.find fst].
      destruct (String.eqb_spec n0 name) as [->|_]; [|exact Hget].
      exfalso. apply Hn0. apply (list_elem_of_fmap_2 fst _ (name, a)), Hin.
Qed.

(** One column of a grouped aggregation, read off the output rows. *)
Lemma group_by_aggregate_column (key : R -> option string) d rows name a :
  NoDup (fst <$> d) ->
  (name, a) ∈ d ->
  forall ks out,
    mapM (fun k => s ← agg_struct d (group_rows key k rows); Ok (k, s)) ks = Ok out ->
    exists ns,
      mapM (fun k => a (group_rows key k rows)) ks = Ok ns
      /\ column_sum name out = Zsum ns
      /\ Forall (fun row => is_Some (struct_get name (snd row))) out.
Proof.
  intros Hnd Hin. induction ks as [|k ks IH]; intros out Hout.
  - injection Hout as <-. by exists [].
  - rewrite result_mapM_cons in Hout.
    destruct (agg_struct d (group_rows key k rows)) as [s|e] eqn:Hs;
      cbn [mbind result_bind] in Hout; [|discriminate].
    destruct (mapM _ ks) as [out'|e] eqn:Hout'; cbn [mbind result_bind] in Hout;
      [|discriminate].
    injection Hout as <-.
    destruct (IH out' eq_refl) as (ns & Hns & Hsum & Hall).
    destruct (agg_struct_lookup _ _ _ _ _ Hs Hnd Hin) as (v & Hv & Hget).
    exists (v :: ns). rewrite result_mapM_cons, Hv, Hns. cbn [mbind result_bind].
    split; [reflexivity|]. split.
    + unfold column_sum in *. rewrite fmap_cons. cbn beta. cbn [Zsum foldr snd].
      rewrite Hget. cbn [default]. unfold Zsum in Hsum. by rewrite Hsum.
    + constructor; [cbn [snd]; by rewrite Hget|exact Hall].
Qed.

Lemma group_keys_NoDup (key : R -> option string) rows :
  NoDup (group_keys key rows).
Proof.
  unfold group_keys. rewrite merge_sort_Permutation. apply NoDup_remove_dups.
Qed.

Lemma group_keys_cover (key : R -> option string) rows r :
  r ∈ rows -> key r ∈ group_keys key rows.
Proof.
  intros Hr. unfold group_keys. rewrite merge_sort_Permutation.
  apply elem_of_remove_dups. by apply list_elem_of_fmap_2.
Qed.

(** For an additive aggregator that occurs in the dictionary of the
    totals (under [name_t]) and in that of the groups (under [name_g]),
    the total is the sum of the group column. *)
Lemma grouped_column_sum (key : R -> option string) d_tot d_grp rows tot out
    name_t name_g a :
  additive a ->
  NoDup (fst <$> d_tot) -> NoDup (fst <$> d_grp) ->
  (name_t, a) ∈ d_tot -> (name_g, a) ∈ d_grp ->
  agg_struct d_tot rows = Ok tot ->
  group_by_aggregate key d_grp rows = Ok out ->
  struct_get name_t tot = Some (column_sum name_g out)
  /\ Forall (fun row => is_Some (struct_get name_g (snd row))) out.
Proof.
  intros Ha Hnt Hng Hint Hing Htot Hout.
  destruct (agg_struct_lookup _ _ _ _ _ Htot Hnt Hint) as (t & Ht & Hget).
  destruct (group_by_aggregate_column key _ rows _ _ Hng Hing _ _ Hout)
    as (ns & Hns & Hsum & Hall).
  destruct (additive_groups a key (group_keys key rows) Ha
              (group_keys_NoDup key rows) rows t
              (group_keys_cover key rows) Ht) as (ns' & Hns' & Hsum').
  rewrite Hns in Hns'. injection Hns' as <-.
  split; [|exact Hall]. by rewrite Hget, Hsum, Hsum'.
Qed.
End Grouped.

(** ** Summary-counts pipeline *)

Lemma summary_counts_dict_names {R} is_indel is_snp
    (al : Expr R (list (option string))) (lo : Expr R string) (nf : Expr R bool)
    (prefix : string) :
  fst <$> get_summary_counts_dict is_indel is_snp al lo nf prefix
  = (fun c => prefix +:+ c) <$> category_names.
Proof. reflexivity. Qed.

(** C4. Whenever the pipeline produces its table, the total recorded in the
    table's globals under "total_" + category equals, for each of the eight
    categories, the sum of that category's column over the frequency-bin
    rows of the table (every row carries the column). *)
Theorem summary_totals_are_bin_sums
    (is_indel is_snp : string -> string -> bool) {Row : Type}
    (filter_field : Row -> option (gset string))
    (freq_field : Row -> option (list (option Freq)))
    (alleles : Row -> option (list (option string)))
    (lof : Row -> option string) (no_lof_flags : Row -> option bool)
    (filter_low_conf_regions : list Row -> bool -> result (list Row))
    (filter_vep_to_canonical_transcripts : list Row -> result (list Row))
    (get_most_severe_consequence_for_summary : list Row -> result (list Row))
    (ht : list Row) (filter_decoy : bool) (tbl : SummaryTable)
    (Hrun : get_summary_counts is_indel is_snp filter_field freq_field alleles lof
              no_lof_flags filter_low_conf_regions filter_vep_to_canonical_transcripts
              get_most_severe_consequence_for_summary ht filter_decoy = Ok tbl)
    (category : string) (Hcat : category ∈ category_names) :
  struct_get ("total_" +:+ category) (summary_counts tbl)
    = Some (column_sum category (summary_rows tbl))
  /\ Forall (fun row => is_Some (struct_get category (snd row))) (summary_rows tbl).
Proof.
  unfold get_summary_counts in Hrun.
  repeat match type of Hrun with
         | mbind _ ?m = _ =>
             destruct m eqn:?; cbn [mbind result_bind] in Hrun; [|discriminate]
         end.
  injection Hrun as <-. cbn [summary_counts summary_rows].
  match goal with
  | Ht : agg_struct _ ?rows = Ok ?tot, Hg : group_by_aggregate _ _ ?rows = Ok ?out |- _ =>
      unfold category_names in Hcat;
      repeat (apply elem_of_cons in Hcat as [->|Hcat]);
      [ .. | by apply not_elem_of_nil in Hcat ];
      (eapply grouped_column_sum;
       [ | | | | | exact Ht | exact Hg ];
       [ | rewrite summary_counts_dict_names; apply (bool_decide_unpack _);
           vm_compute; reflexivity
         | rewrite summary_counts_dict_names; apply (bool_decide_unpack _);
           vm_compute; reflexivity
         | unfold get_summary_counts_dict;
           repeat first [ apply list_elem_of_here | apply list_elem_of_further ]
         | unfold get_summary_counts_dict;
           repeat first [ apply list_elem_of_here | apply list_elem_of_further ] ];
       first [ apply agg_count_additive | apply agg_count_where_additive ])
  end.
Qed.

Lemma summary_totals_are_bin_sums_witness :
  summary_counts_of_sites five_sites = Ok five_sites_table
  /\ "snps" ∈ category_names
  /\ struct_get "total_snps" (summary_counts five_sites_table)
     = Some (column_sum "snps" (summary_rows five_sites_table)).
Proof.
  assert (Hrun : summary_counts_of_sites five_sites = Ok five_sites_table)
    by (vm_compute; reflexivity).
  assert (Hcat : "snps" ∈ category_names)
    by (unfold category_names; repeat first [left | right]).
  split; [exact Hrun|]. split; [exact Hcat|].
  exact (proj1 (summary_totals_are_bin_sums indel_by_length snp_by_length
                  s_filters s_freq s_alleles s_lof s_no_lof_flags
                  (fun ht _ => Ok ht) (fun ht => Ok ht) (fun ht => Ok ht)
                  five_sites false five_sites_table Hrun "snps" Hcat)).
Defined.

(** ** Category counter *)

Section CategoryCounter.
Variables is_indel is_snp : string -> string -> bool.
Context {R : Type}.
Variable allele_expr : Expr R (list (option string)).

Lemma classifiable_counts rows :
  Forall (classifiable is_indel is_snp allele_expr) rows ->
  exists n_indels n_snps,
    agg_count_where
      (lift2 is_indel (index_array allele_expr 0) (index_array allele_expr 1)) rows
    = Ok n_indels
    /\ agg_count_where
         (lift2 is_snp (index_array allele_expr 0) (index_array allele_expr 1)) rows
       = Ok n_snps
    /\ n_indels + n_snps = Z.of_nat (length rows).
Proof.
  induction 1 as [|r rows (ref & alt & H0 & H1 & Hx) _ (ni & ns & Hi & Hs & Hsum)].
  - exists 0, 0. by repeat split.
  - cbn [agg_count_where length]. rewrite Hi, Hs. unfold lift2.
    rewrite H0, H1. cbn [mbind result_bind].
    destruct (is_indel ref alt), (is_snp ref alt); try discriminate;
      eexists _, _; (split; [reflexivity|split; [reflexivity|lia]]).
Qed.

End CategoryCounter.

Section LofConditions.
Context {R : Type}.
Variable lof_expr : Expr R string.
Variable no_lof_flags_expr : Expr R bool.

Lemma lof_conditions_total rows (f : string -> bool) :
  Forall (fun r => ¬ is_raise (lof_expr r) /\ ¬ is_raise (no_lof_flags_expr r)) rows ->
  (exists n, agg_count_where (hl_is_defined lof_expr) rows = Ok n)
  /\ (exists n, agg_count_where (lift1 f lof_expr) rows = Ok n)
  /\ (exists n, agg_count_where (hl_and (lift1 f lof_expr) no_lof_flags_expr) rows
                = Ok n).
Proof.
  intros Hall. repeat split; apply agg_count_where_total;
    (eapply Forall_impl; [exact Hall|]); intros r [Hl Hn];
    unfold hl_is_defined, hl_and, lift1;
    destruct (lof_expr r) as [[l|]|]; cbn in Hl |- *; try tauto;
    try destruct (f l); destruct (no_lof_flags_expr r) as [[[|]|]|];
    cbn in Hn |- *; tauto.
Qed.
End LofConditions.

(** Case analysis on the innermost computation of a chain of binds that is
    known to succeed. *)
Ltac inv_bind H :=
  match type of H with
  | context [mbind _ ?m] =>
      lazymatch m with
      | context [@mbind] => fail
      | Ok _ => fail
      | _ => destruct m eqn:?; cbn [mbind result_bind] in H; [|discriminate H]
      end
  end.

(** C6. Every count the category counter produces is a non-negative integer
    (the struct has the eight categories, in the order of the source).  On
    records whose allele pairs are each exactly one of indel and SNV, every
    struct the counter produces has num_variants = indels + snps, and the
    counter does produce one when the LoF expressions raise on no record. *)
Theorem summary_counts_dict_counts
    (is_indel is_snp : string -> string -> bool) {R : Type}
    (allele_expr : Expr R (list (option string)))
    (lof_expr : Expr R string) (no_lof_flags_expr : Expr R bool)
    (prefix_str : string) (rows : list R) :
  (forall s,
      agg_struct (get_summary_counts_dict is_indel is_snp allele_expr lof_expr
                    no_lof_flags_expr prefix_str) rows = Ok s ->
      fst <$> s = (fun c => prefix_str +:+ c) <$> category_names
      /\ Forall (fun nv => 0 <= snd nv) s)
  /\ (Forall (classifiable is_indel is_snp allele_expr) rows ->
      (forall s,
          agg_struct (get_summary_counts_dict is_indel is_snp allele_expr lof_expr
                        no_lof_flags_expr prefix_str) rows = Ok s ->
          exists n_variants n_indels n_snps rest,
            s = (prefix_str +:+ "num_variants", n_variants)
                  :: (prefix_str +:+ "indels", n_indels)
                  :: (prefix_str +:+ "snps", n_snps) :: rest
            /\ n_variants = Z.of_nat (length rows)
            /\ n_variants = n_indels + n_snps)
      /\ (Forall (fun r => ¬ is_raise (lof_expr r)
                           /\ ¬ is_raise (no_lof_flags_expr r)) rows ->
          exists s,
            agg_struct (get_summary_counts_dict is_indel is_snp allele_expr lof_expr
                          no_lof_flags_expr prefix_str) rows = Ok s)).
Proof.
  split; [|intros Hcls; split].
  - intros s Hs. unfold agg_struct, get_summary_counts_dict in Hs.
    rewrite !result_mapM_cons in Hs. unfold agg_count in Hs.
    cbn [fst snd mbind result_bind] in Hs.
    repeat inv_bind Hs.
    change (mapM _ []) with (Ok (@nil (string * Z))) in Hs.
    cbn [mbind result_bind] in Hs. injection Hs as <-.
    split; [reflexivity|].
    repeat constructor; cbn [snd];
      first [ lia
            | match goal with
              | H : agg_count_where _ rows = Ok ?n |- 0 <= ?n =>
                  exact (proj1 (agg_count_where_bounds _ _ _ H))
              end ].
  - intros s Hs.
    destruct (classifiable_counts is_indel is_snp allele_expr rows Hcls)
      as (ni & ns & Hi & Hsn & Hsum).
    unfold agg_struct, get_summary_counts_dict in Hs.
    rewrite !result_mapM_cons in Hs. unfold agg_count in Hs.
    cbn [fst snd mbind result_bind] in Hs. rewrite Hi, Hsn in Hs.
    cbn [mbind result_bind] in Hs.
    repeat inv_bind Hs.
    change (mapM _ []) with (Ok (@nil (string * Z))) in Hs.
    cbn [mbind result_bind] in Hs. injection Hs as <-.
    eexists _, _, _, _. split; [reflexivity|]. split; [reflexivity|lia].
  - intros Hlof.
    destruct (classifiable_counts is_indel is_snp allele_expr rows Hcls)
      as (ni & ns & Hi & Hs & Hsum).
    destruct (lof_conditions_total lof_expr no_lof_flags_expr rows
                (fun s => String.eqb s "HC") Hlof) as ([n1 H1] & [n2 H2] & [n3 H3]).
    destruct (lof_conditions_total lof_expr no_lof_flags_expr rows
                (fun s => String.eqb s "OS") Hlof) as (_ & [n4 H4] & _).
    destruct (lof_conditions_total lof_expr no_lof_flags_expr rows
                (fun s => String.eqb s "LC") Hlof) as (_ & [n5 H5] & _).
    unfold agg_struct, get_summary_counts_dict.
    rewrite !result_mapM_cons. unfold agg_count.
    cbn [fst snd mbind result_bind].
    rewrite Hi, Hs, H1, H2, H3, H4, H5.
    change (mapM _ []) with (Ok (@nil (string * Z))).
    cbn [mbind result_bind]. eexists. reflexivity.
Qed.

Lemma summary_counts_dict_counts_witness :
  Forall (classifiable indel_by_length snp_by_length (col s_alleles)) five_sites
  /\ Forall (fun r => ¬ is_raise (col s_lof r) /\ ¬ is_raise (col s_no_lof_flags r))
            five_sites
  /\ exists s n_variants n_indels n_snps rest,
       agg_struct (get_summary_counts_dict indel_by_length snp_by_length
                     (col s_alleles) (col s_lof) (col s_no_lof_flags) "")
                  five_sites = Ok s
       /\ s = ("" +:+ "num_variants", n_variants)
               :: ("" +:+ "indels", n_indels)
               :: ("" +:+ "snps", n_snps) :: rest
       /\ n_variants = Z.of_nat (length five_sites)
       /\ n_variants = n_indels + n_snps.
Proof.
  assert (Hcls : Forall (classifiable indel_by_length snp_by_length (col s_alleles))
                        five_sites).
  { repeat constructor; eexists _, _;
      (split; [reflexivity|split; [reflexivity|reflexivity]]). }
  assert (Hlof : Forall (fun r => ¬ is_raise (col s_lof r)
                                  /\ ¬ is_raise (col s_no_lof_flags r)) five_sites).
  { repeat constructor; cbn; tauto. }
  split; [exact Hcls|]. split; [exact Hlof|].
  destruct (summary_counts_dict_counts indel_by_length snp_by_length
              (col s_alleles) (col s_lof) (col s_no_lof_flags) "" five_sites)
    as (_ & Hsum).
  destruct (Hsum Hcls) as (Hshape & Hret).
  destruct (Hret Hlof) as (s & Hs).
  destruct (Hshape s Hs) as (nv & ni & ns & rest & Heq & Hlen & Hadd).
  exists s, nv, ni, ns, rest. by repeat split.
Defined.

(** ** The pipeline returns on well-formed sites *)

Lemma index_array_nat {R A} (e : Expr R (list (option A))) (i : nat) r l x :
  e r = Def l -> l !! i = Some x -> index_array e (Z.of_nat i) r = Ok x.
Proof.
  intros He Hx. unfold index_array. rewrite He.
  pose proof (lookup_lt_Some _ _ _ Hx) as Hlt.
  destruct (Z.ltb_spec (Z.of_nat i) 0); [lia|].
  destruct (Z.leb_spec 0 (Z.of_nat i)); [|lia].
  destruct (Z.ltb_spec (Z.of_nat i) (Z.of_nat (length l))); [|lia].
  cbn [andb]. by rewrite Nat2Z.id, Hx.
Qed.

Lemma index_array_missing {R A} (e : Expr R (list (option A))) (i : Z) r :
  e r = NA -> index_array e i r = NA.
Proof. intros He. unfold index_array. by rewrite He. Qed.

Lemma result_mapM_total {A B} (f : A -> result B) l :
  Forall (fun x => exists y, f x = Ok y) l -> exists ys, mapM f l = Ok ys.
Proof.
  induction 1 as [|x l [y Hy] _ [ys Hys]]; [by exists []|].
  exists (y :: ys). by rewrite result_mapM_cons, Hy, Hys.
Qed.

Lemma table_filter_total {R} (c : Expr R bool) rows :
  Forall (fun r => ¬ is_raise (c r)) rows ->
  exists rows', table_filter c rows = Ok rows'.
Proof.
  induction 1 as [|r rows Hr _ [rows' IH]]; [by exists []|].
  cbn [table_filter]. rewrite IH.
  destruct (c r) as [b|e]; [|done]. cbn [mbind result_bind]. eauto.
Qed.

Section DictTotal.
Variables is_indel is_snp : string -> string -> bool.
Context {R : Type}.
Variable allele_expr : Expr R (list (option string)).
Variable lof_expr : Expr R string.
Variable no_lof_flags_expr : Expr R bool.

(** The counter returns on records on which its three expressions
    evaluate. *)
Lemma get_summary_counts_dict_total prefix_str rows :
  Forall (fun r => ¬ is_raise (index_array allele_expr 0 r)
                   /\ ¬ is_raise (index_array allele_expr 1 r)
                   /\ ¬ is_raise (lof_expr r)
                   /\ ¬ is_raise (no_lof_flags_expr r)) rows ->
  exists s,
    agg_struct (get_summary_counts_dict is_indel is_snp allele_expr lof_expr
                  no_lof_flags_expr prefix_str) rows = Ok s.
Proof.
  intros Hall. apply result_mapM_total.
  assert (Hlof : Forall (fun r => ¬ is_raise (lof_expr r)
                                  /\ ¬ is_raise (no_lof_flags_expr r)) rows)
    by (eapply Forall_impl; [exact Hall|]; cbn beta; tauto).
  assert (Hal : forall f : string -> string -> bool,
             exists n, agg_count_where
                         (lift2 f (index_array allele_expr 0)
                                  (index_array allele_expr 1)) rows = Ok n).
  { intros f. apply agg_count_where_total.
    eapply Forall_impl; [exact Hall|]. intros r (H0 & H1 & _). unfold lift2.
    destruct (index_array allele_expr 0 r) as [[a|]|]; cbn in H0 |- *; try tauto.
    destruct (index_array allele_expr 1 r) as [[b|]|]; cbn in H1 |- *; tauto. }
  destruct (lof_conditions_total lof_expr no_lof_flags_expr rows
              (fun s => String.eqb s "HC") Hlof) as ([n1 H1] & [n2 H2] & [n3 H3]).
  destruct (lof_conditions_total lof_expr no_lof_flags_expr rows
              (fun s => String.eqb s "OS") Hlof) as (_ & [n4 H4] & _).
  destruct (lof_conditions_total lof_expr no_lof_flags_expr rows
              (fun s => String.eqb s "LC") Hlof) as (_ & [n5 H5] & _).
  destruct (Hal is_indel) as [ni Hi]. destruct (Hal is_snp) as [ns Hs].
  unfold get_summary_counts_dict, agg_count.
  repeat constructor; cbn [fst snd];
    rewrite ?Hi, ?Hs, ?H1, ?H2, ?H3, ?H4, ?H5; cbn [mbind result_bind]; eauto.
Qed.
End DictTotal.

Lemma table_annotate_total {R A} (e : Expr R A) rows :
  Forall (fun r => ¬ is_raise (e r)) rows ->
  exists out, table_annotate e rows = Ok out /\ fst <$> out = rows.
Proof.
  unfold table_annotate.
  induction 1 as [|r rows Hr _ (out & Hout & Hfst)]; [by exists []|].
  rewrite result_mapM_cons, Hout.
  destruct (e r) as [v|x]; [|done]. cbn [mbind result_bind].
  exists ((r, v) :: out). split; [reflexivity|]. by rewrite fmap_cons, Hfst.
Qed.

Lemma Forall_group_rows {R} (P : R -> Prop) (key : R -> option string) k rows :
  Forall P rows -> Forall P (group_rows key k rows).
Proof.
  rewrite !Forall_forall. intros H r [_ Hr]%list_elem_of_filter. by apply H.
Qed.

(** Whenever the collaborators return and hand over well-formed sites, the
    pipeline returns its table. *)
Lemma get_summary_counts_returns
    (is_indel is_snp : string -> string -> bool) {Row : Type}
    (filter_field : Row -> option (gset string))
    (freq_field : Row -> option (list (option Freq)))
    (alleles : Row -> option (list (option string)))
    (lof : Row -> option string) (no_lof_flags : Row -> option bool)
    (filter_low_conf_regions : list Row -> bool -> result (list Row))
    (filter_vep_to_canonical_transcripts : list Row -> result (list Row))
    (get_most_severe_consequence_for_summary : list Row -> result (list Row))
    (ht : list Row) (filter_decoy : bool) (ht1 ht2 ht3 ht4 : list Row) :
  table_filter (lift1 (fun s => Z.of_nat (size s) =? 0) (col filter_field)) ht = Ok ht1 ->
  filter_low_conf_regions ht1 filter_decoy = Ok ht2 ->
  filter_vep_to_canonical_transcripts ht2 = Ok ht3 ->
  get_most_severe_consequence_for_summary ht3 = Ok ht4 ->
  Forall (well_formed_site freq_field alleles) ht4 ->
  exists tbl,
    get_summary_counts is_indel is_snp filter_field freq_field alleles lof
      no_lof_flags filter_low_conf_regions filter_vep_to_canonical_transcripts
      get_most_severe_consequence_for_summary ht filter_decoy = Ok tbl.
Proof.
  intros H1 H2 H3 H4 Hwf. unfold get_summary_counts.
  rewrite H1. cbn [mbind result_bind]. rewrite H2. cbn [mbind result_bind].
  rewrite H3. cbn [mbind result_bind]. rewrite H4. cbn [mbind result_bind].
  destruct (table_annotate_total (freq_bin_expr (col freq_field) 0) ht4)
    as (ht5 & -> & Hfst).
  { eapply Forall_impl; [exact Hwf|]. intros r [Hfreq _].
    assert (Hsel : exists s, index_array (col freq_field) 0 r = Ok s).
    { destruct (freq_field r) as [[|x l]|] eqn:Hf; [done| |].
      - exists x. apply (index_array_nat _ 0%nat r (x :: l)); [|done].
        unfold col. by rewrite Hf.
      - exists None. apply index_array_missing. unfold col. by rewrite Hf. }
    destruct Hsel as [s Hs]. rewrite (freq_bin_expr_selected _ _ _ _ Hs).
    exact (fun H => H). }
  cbn [mbind result_bind].
  assert (Hrows : Forall
            (fun r : Row * option string =>
               ¬ is_raise (index_array (fun r => col alleles (fst r)) 0 r)
               /\ ¬ is_raise (index_array (fun r => col alleles (fst r)) 1 r)
               /\ ¬ is_raise (col lof (fst r))
               /\ ¬ is_raise (col no_lof_flags (fst r))) ht5).
  { rewrite <- Hfst in Hwf. apply (proj1 (Forall_fmap fst _ ht5)) in Hwf.
    eapply Forall_impl; [exact Hwf|]. intros [r v] [_ Hal]. cbn [fst compose] in *.
    destruct (alleles r) as [l|] eqn:Hl.
    - specialize (Hal l eq_refl). destruct l as [|a [|b l]]; cbn in Hal; try lia.
      assert (E0 : index_array (fun r => col alleles (fst r)) 0 (r, v) = Ok a)
        by (apply (index_array_nat _ 0%nat _ (a :: b :: l));
            [unfold col; cbn [fst]; by rewrite Hl|done]).
      assert (E1 : index_array (fun r => col alleles (fst r)) 1 (r, v) = Ok b)
        by (apply (index_array_nat _ 1%nat _ (a :: b :: l));
            [unfold col; cbn [fst]; by rewrite Hl|done]).
      rewrite E0, E1. unfold col. cbn [is_raise]. tauto.
    - rewrite !index_array_missing by (unfold col; cbn [fst]; by rewrite Hl).
      unfold col. cbn [is_raise]. tauto. }
  destruct (get_summary_counts_dict_total is_indel is_snp _ _ _ "total_" ht5 Hrows)
    as [totals ->]. cbn [mbind result_bind].
  destruct (result_mapM_total
              (fun k => s ← agg_struct
                            (get_summary_counts_dict is_indel is_snp
                               (fun r => col alleles (fst r))
                               (fun r => col lof (fst r))
                               (fun r => col no_lof_flags (fst r)) "")
                            (group_rows snd k ht5); Ok (k, s))
              (group_keys snd ht5)) as [rows Hrows'].
  { apply Forall_forall. intros k _.
    destruct (get_summary_counts_dict_total is_indel is_snp _ _ _ ""
                (group_rows snd k ht5) (Forall_group_rows _ snd k ht5 Hrows))
      as [s ->]. cbn [mbind result_bind]. eauto. }
  unfold group_by_aggregate. rewrite Hrows'. cbn [mbind result_bind]. eauto.
Qed.

(** * Further properties of the code *)

(** ** Order of binary64 values *)

Ltac sf_cases :=
  repeat match goal with
         | s : bool |- _ => destruct s
         end;
  cbn; try discriminate; try reflexivity;
  repeat match goal with
         | |- context [Z.compare ?a ?b] => destruct (Z.compare_spec a b)
         | H : context [Z.compare ?a ?b] |- _ => destruct (Z.compare_spec a b)
         | |- context [Pos.compare_cont Eq ?a ?b] =>
             change (Pos.compare_cont Eq a b) with (Pos.compare a b);
             destruct (Pos.compare_spec a b)
         | H : context [Pos.compare_cont Eq ?a ?b] |- _ =>
             change (Pos.compare_cont Eq a b) with (Pos.compare a b) in H;
             destruct (Pos.compare_spec a b)
         end;
  cbn in *; try discriminate; try reflexivity; try lia.

Lemma f64_lt_trans x y z : f64_lt x y = true -> f64_lt y z = true -> f64_lt x z = true.
Proof. unfold f64_lt, SFltb, SFcompare. destruct x, y, z; sf_cases. Qed.

Lemma f64_lt_asym x y : f64_lt x y = true -> f64_lt y x = false.
Proof. unfold f64_lt, SFltb, SFcompare. destruct x, y; sf_cases. Qed.

Lemma f64_lt_nan_l y : f64_lt S754_nan y = false.
Proof. reflexivity. Qed.

Lemma f64_lt_nan_r x : f64_lt x S754_nan = false.
Proof. by destruct x. Qed.

(** The thresholds of the binner increase. *)
Lemma freq_bin_thresholds_increase :
  f64_lt (f64_lit 1 10000) (f64_lit 1 1000) = true
  /\ f64_lt (f64_lit 1 1000) (f64_lit 1 100) = true
  /\ f64_lt (f64_lit 1 100) (f64_lit 1 10) = true
  /\ f64_lt (f64_lit 1 10) (f64_lit 95 100) = true.
Proof. repeat split; vm_compute; reflexivity. Qed.

(** ** Frequency binner: which rule decides *)

Section FreqBinMore.
Context {R : Type}.
Variables (freq_expr : Expr R (list (option Freq))) (index : Z) (r : R).



Lemma freq_bin_expr_above_5 ac an af :
  index_array freq_expr index r = Def (mkFreq ac an af) ->
  ac_above_5 ac ->
  freq_bin_expr freq_expr index r = Def (af_label af).
Proof.
  intros Hs Hac. rewrite (freq_bin_expr_selected _ _ _ _ Hs).
  unfold first_true_wins, af_label.
  cbn -[f64_lt f64_gt f64_lit Z.eqb Z.leb].
  destruct ac as [n|]; cbn -[f64_lt f64_gt f64_lit Z.eqb Z.leb] in Hac |- *.
  - destruct (Z.eqb_spec n 0); [lia|]. destruct (Z.eqb_spec n 1); [lia|].
    destruct (Z.eqb_spec n 2); [lia|]. destruct (Z.leb_spec n 5); [lia|].
    destruct af as [x|]; [|reflexivity]. case_ifs; reflexivity.
  - destruct af as [x|]; [|reflexivity]. case_ifs; reflexivity.
Qed.
End FreqBinMore.

(** X1. An allele count of at most 5 decides the bin alone, whatever AF is
    (defined, missing or NaN): 0, 1 and 2 give their own labels and every
    other value up to 5, negative ones included, gives "AC 3 - 5". *)
Theorem freq_bin_expr_ac_decides
    {R : Type} (freq_expr : Expr R (list (option Freq))) (index : Z) (r : R)
    (ac : Z) (an : option Z) (af : option float64)
    (Hsel : index_array freq_expr index r = Def (mkFreq (Some ac) an af))
    (Hac : ac <= 5) :
  freq_bin_expr freq_expr index r
  = Def (if ac =? 0 then "Not found"
         else if ac =? 1 then "Singleton"
         else if ac =? 2 then "Doubleton"
         else "AC 3 - 5").
Proof.
  rewrite (freq_bin_expr_selected _ _ _ _ Hsel). unfold first_true_wins.
  cbn -[f64_lt f64_gt f64_lit Z.eqb Z.leb].
  destruct (Z.eqb_spec ac 0); [reflexivity|].
  destruct (Z.eqb_spec ac 1); [reflexivity|].
  destruct (Z.eqb_spec ac 2); [reflexivity|].
  destruct (Z.leb_spec ac 5); [reflexivity|lia].
Qed.

Lemma freq_bin_expr_ac_decides_witness :
  index_array (R := unit) (lit [Some (mkFreq (Some (-3)) None (Some S754_nan))]) 0 tt
  = Def (mkFreq (Some (-3)) None (Some S754_nan))
  /\ -3 <= 5
  /\ freq_bin_expr (R := unit)
       (lit [Some (mkFreq (Some (-3)) None (Some S754_nan))]) 0 tt
     = Def "AC 3 - 5".
Proof.
  split; [reflexivity|]. split; [lia|].
  exact (freq_bin_expr_ac_decides
           (lit [Some (mkFreq (Some (-3)) None (Some S754_nan))]) 0 tt
           (-3) None (Some S754_nan) eq_refl ltac:(lia)).
Defined.

(** X2. When AC is missing or above 5 the bin depends on AF alone: it is
    the label of the first AF rule that holds, never one of the four AC
    labels, and it is the default "10% - 95%" when AF is missing or NaN. *)
Theorem freq_bin_expr_af_decides
    {R : Type} (freq_expr : Expr R (list (option Freq))) (index : Z) (r : R)
    (ac : option Z) (an : option Z) (af : option float64)
    (Hsel : index_array freq_expr index r = Def (mkFreq ac an af))
    (Hac : ac_above_5 ac) :
  freq_bin_expr freq_expr index r = Def (af_label af)
  /\ ~ In (af_label af) ["Not found"; "Singleton"; "Doubleton"; "AC 3 - 5"]
  /\ (af = None \/ af = Some S754_nan ->
      freq_bin_expr freq_expr index r = Def "10% - 95%").
Proof.
  pose proof (freq_bin_expr_above_5 _ _ _ _ _ _ Hsel Hac) as Hres.
  split; [exact Hres|]. split.
  - unfold af_label. destruct af as [x|]; [case_ifs|]; cbn; intuition discriminate.
  - intros [-> | ->]; rewrite Hres; [reflexivity|].
    unfold af_label.
    change (f64_gt S754_nan (f64_lit 95 100)) with (f64_lt (f64_lit 95 100) S754_nan).
    by rewrite !f64_lt_nan_l, f64_lt_nan_r.
Qed.

Lemma freq_bin_expr_af_decides_witness :
  index_array (R := unit) (lit [Some (mkFreq None (Some 10) (Some (f64_lit 3 100)))]) 0 tt
  = Def (mkFreq None (Some 10) (Some (f64_lit 3 100)))
  /\ ac_above_5 None
  /\ freq_bin_expr (R := unit)
       (lit [Some (mkFreq None (Some 10) (Some (f64_lit 3 100)))]) 0 tt
     = Def "1% - 10%".
Proof.
  split; [reflexivity|]. split; [exact I|].
  destruct (freq_bin_expr_af_decides
              (lit [Some (mkFreq None (Some 10) (Some (f64_lit 3 100)))]) 0 tt
              None (Some 10) (Some (f64_lit 3 100)) eq_refl I) as [H _].
  rewrite H. vm_compute. reflexivity.
Defined.

(** No AF rule shadows another: the thresholds increase, so the first rule
    that holds is the one of the interval AF lies in. *)
Lemma af_label_intervals (x : float64) :
  (af_label (Some x) = "AC 6 - 0.01%" <-> f64_lt x (f64_lit 1 10000) = true)
  /\ (af_label (Some x) = "0.01% - 0.1%"
      <-> f64_lt x (f64_lit 1 10000) = false /\ f64_lt x (f64_lit 1 1000) = true)
  /\ (af_label (Some x) = "0.1% - 1%"
      <-> f64_lt x (f64_lit 1 1000) = false /\ f64_lt x (f64_lit 1 100) = true)
  /\ (af_label (Some x) = "1% - 10%"
      <-> f64_lt x (f64_lit 1 100) = false /\ f64_lt x (f64_lit 1 10) = true)
  /\ (af_label (Some x) = ">95%" <-> f64_gt x (f64_lit 95 100) = true)
  /\ (af_label (Some x) = "10% - 95%"
      <-> f64_lt x (f64_lit 1 10) = false /\ f64_gt x (f64_lit 95 100) = false).
Proof.
  destruct freq_bin_thresholds_increase as (H43 & H32 & H21 & H19).
  pose proof (f64_lt_trans x) as Ht.
  pose proof (f64_lt_asym x (f64_lit 95 100)) as Ha.
  pose proof (f64_lt_asym (f64_lit 95 100) x) as Ha'.
  unfold af_label. change (f64_gt x (f64_lit 95 100)) with (f64_lt (f64_lit 95 100) x).
  destruct (f64_lt x (f64_lit 1 10000)) eqn:E4.
  { pose proof (Ht _ _ E4 H43) as E3. pose proof (Ht _ _ E3 H32) as E2.
    pose proof (Ht _ _ E2 H21) as E1. pose proof (Ht _ _ E1 H19) as E9.
    rewrite E3, E2, E1, (Ha E9). intuition discriminate. }
  destruct (f64_lt x (f64_lit 1 1000)) eqn:E3.
  { pose proof (Ht _ _ E3 H32) as E2.
    pose proof (Ht _ _ E2 H21) as E1. pose proof (Ht _ _ E1 H19) as E9.
    rewrite E2, E1, (Ha E9). intuition discriminate. }
  destruct (f64_lt x (f64_lit 1 100)) eqn:E2.
  { pose proof (Ht _ _ E2 H21) as E1. pose proof (Ht _ _ E1 H19) as E9.
    rewrite E1, (Ha E9). intuition discriminate. }
  destruct (f64_lt x (f64_lit 1 10)) eqn:E1.
  { pose proof (Ht _ _ E1 H19) as E9. rewrite (Ha E9). intuition discriminate. }
  destruct (f64_lt (f64_lit 95 100) x) eqn:E9; intuition discriminate.
Qed.

(** X3. For AC missing or above 5 and a defined AF, each AF label is
    returned exactly on its own interval: "AC 6 - 0.01%" iff AF < 1e-4,
    "0.01% - 0.1%" iff 1e-4 <= AF < 1e-3 (as not AF < 1e-4 and AF < 1e-3), and
    so on; ">95%" iff AF > 0.95, which the earlier rules never intercept;
    "10% - 95%" iff neither AF < 0.1 nor AF > 0.95. *)
Theorem freq_bin_expr_af_intervals
    {R : Type} (freq_expr : Expr R (list (option Freq))) (index : Z) (r : R)
    (ac an : option Z) (x : float64)
    (Hsel : index_array freq_expr index r = Def (mkFreq ac an (Some x)))
    (Hac : ac_above_5 ac) :
  (freq_bin_expr freq_expr index r = Def "AC 6 - 0.01%"
   <-> f64_lt x (f64_lit 1 10000) = true)
  /\ (freq_bin_expr freq_expr index r = Def "0.01% - 0.1%"
      <-> f64_lt x (f64_lit 1 10000) = false /\ f64_lt x (f64_lit 1 1000) = true)
  /\ (freq_bin_expr freq_expr index r = Def "0.1% - 1%"
      <-> f64_lt x (f64_lit 1 1000) = false /\ f64_lt x (f64_lit 1 100) = true)
  /\ (freq_bin_expr freq_expr index r = Def "1% - 10%"
      <-> f64_lt x (f64_lit 1 100) = false /\ f64_lt x (f64_lit 1 10) = true)
  /\ (freq_bin_expr freq_expr index r = Def ">95%"
      <-> f64_gt x (f64_lit 95 100) = true)
  /\ (freq_bin_expr freq_expr index r = Def "10% - 95%"
      <-> f64_lt x (f64_lit 1 10) = false /\ f64_gt x (f64_lit 95 100) = false).
Proof.
  rewrite (freq_bin_expr_above_5 _ _ _ _ _ _ Hsel Hac).
  destruct (af_label_intervals x) as (H1 & H2 & H3 & H4 & H5 & H6).
  set (label := af_label (Some x)) in *.
  assert (Hinj : forall l : string, Def label = Def l <-> label = l).
  { intros l. split; [by intros [= ->]|by intros ->]. }
  rewrite !Hinj. tauto.
Qed.

Lemma freq_bin_expr_af_intervals_witness :
  index_array (R := unit) (lit [Some (mkFreq (Some 400) None (Some (f64_lit 97 100)))]) 0 tt
  = Def (mkFreq (Some 400) None (Some (f64_lit 97 100)))
  /\ ac_above_5 (Some 400)
  /\ freq_bin_expr (R := unit)
       (lit [Some (mkFreq (Some 400) None (Some (f64_lit 97 100)))]) 0 tt
     = Def ">95%".
Proof.
  split; [reflexivity|]. split; [cbn; lia|].
  apply (freq_bin_expr_af_intervals
           (lit [Some (mkFreq (Some 400) None (Some (f64_lit 97 100)))]) 0 tt
           (Some 400) None (f64_lit 97 100) eq_refl ltac:(cbn; lia)).
  vm_compute. reflexivity.
Defined.

(** ** Frequency binner: array bounds *)




(** ** Category counter: how the counts relate *)

Lemma Zsum_fmap_le {A} (f g : A -> Z) l :
  (forall x, f x <= g x) -> Zsum (f <$> l) <= Zsum (g <$> l).
Proof.
  intros Hfg. induction l as [|x l IH]; [done|].
  rewrite !fmap_cons. cbn [Zsum foldr]. fold (Zsum (f <$> l)) (Zsum (g <$> l)).
  specialize (Hfg x). lia.
Qed.

Lemma Zsum_fmap_add {A} (f g : A -> Z) l :
  Zsum ((fun x => f x + g x) <$> l) = Zsum (f <$> l) + Zsum (g <$> l).
Proof.
  induction l as [|x l IH]; [done|].
  rewrite !fmap_cons. cbn [Zsum foldr].
  fold (Zsum (f <$> l)) (Zsum (g <$> l)) (Zsum ((fun x => f x + g x) <$> l)). lia.
Qed.

Lemma Zsum_fmap_ext_in {A} (f g : A -> Z) l :
  Forall (fun x => f x = g x) l -> Zsum (f <$> l) = Zsum (g <$> l).
Proof.
  induction 1 as [|x l Hx _ IH]; [done|].
  rewrite !fmap_cons. cbn [Zsum foldr]. fold (Zsum (f <$> l)) (Zsum (g <$> l)). lia.
Qed.

Section CountWeights.
Context {R : Type}.
Implicit Types (c : Expr R bool) (rows : list R).

(** A count is the number of records on which the condition holds. *)
Lemma agg_count_where_Zsum c rows n :
  agg_count_where c rows = Ok n -> n = Zsum (unit_weight c <$> rows).
Proof.
  revert n. induction rows as [|r rows IH]; intros n; cbn [agg_count_where].
  - by intros [= <-].
  - destruct (c r) as [b|e] eqn:Hc; cbn [mbind result_bind]; [|discriminate].
    destruct (agg_count_where c rows) as [m|e]; cbn [mbind result_bind];
      [|discriminate].
    rewrite fmap_cons. cbn [Zsum foldr]. fold (Zsum (unit_weight c <$> rows)).
    rewrite <- (IH m eq_refl). unfold unit_weight, holds. rewrite Hc.
    destruct b as [[|]|]; intros [= <-]; lia.
Qed.

Lemma agg_count_Zsum rows : Z.of_nat (length rows) = Zsum ((fun _ => 1) <$> rows).
Proof.
  induction rows as [|r rows IH]; [done|].
  rewrite fmap_cons. cbn [Zsum foldr length]. fold (Zsum ((fun _ : R => 1) <$> rows)).
  lia.
Qed.

Lemma unit_weight_bounds c r : 0 <= unit_weight c r <= 1.
Proof. unfold unit_weight. destruct (holds c r); lia. Qed.

Lemma unit_weight_and_le c1 c2 r : unit_weight (hl_and c1 c2) r <= unit_weight c1 r.
Proof.
  unfold unit_weight, holds, hl_and.
  destruct (c1 r) as [[[|]|]|]; destruct (c2 r) as [[[|]|]|]; lia.
Qed.

Lemma unit_weight_lift1_le {A} (f : A -> bool) (e : Expr R A) r :
  unit_weight (lift1 f e) r <= unit_weight (hl_is_defined e) r.
Proof.
  unfold unit_weight, holds, lift1, hl_is_defined.
  destruct (e r) as [[a|]|]; [destruct (f a)|..]; lia.
Qed.
End CountWeights.

Section DictShape.
Variables is_indel is_snp : string -> string -> bool.
Context {R : Type}.
Variable allele_expr : Expr R (list (option string)).
Variable lof_expr : Expr R string.
Variable no_lof_flags_expr : Expr R bool.

(** The struct of the counter, count by count. *)
Lemma get_summary_counts_dict_shape prefix_str rows s :
  agg_struct (get_summary_counts_dict is_indel is_snp allele_expr lof_expr
                no_lof_flags_expr prefix_str) rows = Ok s ->
  exists ni ns nl np npf nos nf,
    s = [ (prefix_str +:+ "num_variants", Z.of_nat (length rows));
          (prefix_str +:+ "indels", ni); (prefix_str +:+ "snps", ns);
          (prefix_str +:+ "LOF", nl); (prefix_str +:+ "pass_loftee", np);
          (prefix_str +:+ "pass_loftee_no_flag", npf);
          (prefix_str +:+ "loftee_os", nos); (prefix_str +:+ "fail_loftee", nf) ]
    /\ ni = Zsum (unit_weight
                    (lift2 is_indel (index_array allele_expr 0)
                                    (index_array allele_expr 1)) <$> rows)
    /\ ns = Zsum (unit_weight
                    (lift2 is_snp (index_array allele_expr 0)
                                  (index_array allele_expr 1)) <$> rows)
    /\ nl = Zsum (unit_weight (hl_is_defined lof_expr) <$> rows)
    /\ np = Zsum (unit_weight (lift1 (fun s => String.eqb s "HC") lof_expr) <$> rows)
    /\ npf = Zsum (unit_weight
                     (hl_and (lift1 (fun s => String.eqb s "HC") lof_expr)
                             no_lof_flags_expr) <$> rows)
    /\ nos = Zsum (unit_weight (lift1 (fun s => String.eqb s "OS") lof_expr) <$> rows)
    /\ nf = Zsum (unit_weight (lift1 (fun s => String.eqb s "LC") lof_expr) <$> rows).
Proof.
  intros Hs. unfold agg_struct, get_summary_counts_dict in Hs.
  rewrite !result_mapM_cons in Hs. unfold agg_count in Hs.
  cbn [fst snd mbind result_bind] in Hs.
  repeat inv_bind Hs.
  change (mapM _ []) with (Ok (@nil (string * Z))) in Hs.
  cbn [mbind result_bind] in Hs. injection Hs as <-.
  eexists _, _, _, _, _, _, _. split; [reflexivity|].
  repeat split; by apply agg_count_where_Zsum.
Qed.
End DictShape.

(** X5. In every struct the category counter produces, the counts are
    ordered pass_loftee_no_flag <= pass_loftee <= LOF <= num_variants, and
    indels and snps are at most num_variants. *)
Theorem summary_counts_dict_ordered
    (is_indel is_snp : string -> string -> bool) {R : Type}
    (allele_expr : Expr R (list (option string)))
    (lof_expr : Expr R string) (no_lof_flags_expr : Expr R bool)
    (prefix_str : string) (rows : list R) (s : list (string * Z))
    (Hs : agg_struct (get_summary_counts_dict is_indel is_snp allele_expr lof_expr
                        no_lof_flags_expr prefix_str) rows = Ok s) :
  exists nv ni ns nl np npf nos nf,
    s = [ (prefix_str +:+ "num_variants", nv);
          (prefix_str +:+ "indels", ni); (prefix_str +:+ "snps", ns);
          (prefix_str +:+ "LOF", nl); (prefix_str +:+ "pass_loftee", np);
          (prefix_str +:+ "pass_loftee_no_flag", npf);
          (prefix_str +:+ "loftee_os", nos); (prefix_str +:+ "fail_loftee", nf) ]
    /\ npf <= np /\ np <= nl /\ nl <= nv /\ ni <= nv /\ ns <= nv.
Proof.
  destruct (get_summary_counts_dict_shape _ _ _ _ _ _ _ _ Hs)
    as (ni & ns & nl & np & npf & nos & nf & -> & -> & -> & -> & -> & -> & -> & ->).
  eexists _, _, _, _, _, _, _, _. split; [reflexivity|].
  rewrite agg_count_Zsum.
  repeat split; apply Zsum_fmap_le; intros r;
    first [ apply unit_weight_and_le
          | apply unit_weight_lift1_le
          | apply unit_weight_bounds ].
Qed.

Lemma summary_counts_dict_ordered_witness :
  agg_struct (get_summary_counts_dict indel_by_length snp_by_length
                (col s_alleles) (col s_lof) (col s_no_lof_flags) "") five_sites
  = Ok [ ("num_variants", 5); ("indels", 1); ("snps", 4); ("LOF", 2);
         ("pass_loftee", 2); ("pass_loftee_no_flag", 1); ("loftee_os", 0);
         ("fail_loftee", 0) ]
  /\ exists nv ni ns nl np npf nos nf,
       [ ("num_variants", 5); ("indels", 1); ("snps", 4); ("LOF", 2);
         ("pass_loftee", 2); ("pass_loftee_no_flag", 1); ("loftee_os", 0);
         ("fail_loftee", 0) ]
       = [ ("" +:+ "num_variants", nv); ("" +:+ "indels", ni); ("" +:+ "snps", ns);
           ("" +:+ "LOF", nl); ("" +:+ "pass_loftee", np);
           ("" +:+ "pass_loftee_no_flag", npf);
           ("" +:+ "loftee_os", nos); ("" +:+ "fail_loftee", nf) ]
       /\ npf <= np /\ np <= nl /\ nl <= nv /\ ni <= nv /\ ns <= nv.
Proof.
  assert (H : agg_struct (get_summary_counts_dict indel_by_length snp_by_length
                            (col s_alleles) (col s_lof) (col s_no_lof_flags) "")
                         five_sites
              = Ok [ ("num_variants", 5); ("indels", 1); ("snps", 4); ("LOF", 2);
                     ("pass_loftee", 2); ("pass_loftee_no_flag", 1);
                     ("loftee_os", 0); ("fail_loftee", 0) ])
    by (vm_compute; reflexivity).
  split; [exact H|].
  exact (summary_counts_dict_ordered indel_by_length snp_by_length
           (col s_alleles) (col s_lof) (col s_no_lof_flags) "" five_sites _ H).
Defined.

Lemma loftee_weights {R} (lof_expr : Expr R string) (r : R) :
  unit_weight (lift1 (fun s => String.eqb s "HC") lof_expr) r
  + unit_weight (lift1 (fun s => String.eqb s "OS") lof_expr) r
  + unit_weight (lift1 (fun s => String.eqb s "LC") lof_expr) r
  <= unit_weight (hl_is_defined lof_expr) r
  /\ ((forall v, lof_expr r = Def v -> v = "HC" \/ v = "OS" \/ v = "LC") ->
      unit_weight (lift1 (fun s => String.eqb s "HC") lof_expr) r
      + unit_weight (lift1 (fun s => String.eqb s "OS") lof_expr) r
      + unit_weight (lift1 (fun s => String.eqb s "LC") lof_expr) r
      = unit_weight (hl_is_defined lof_expr) r).
Proof.
  unfold unit_weight, holds, lift1, hl_is_defined.
  destruct (lof_expr r) as [[v|]|]; [|split; [lia|intros _; lia]..].
  destruct (String.eqb_spec v "HC") as [->|Hhc];
    [cbn; split; [lia|intros _; lia]|].
  destruct (String.eqb_spec v "OS") as [->|Hos];
    [cbn; split; [lia|intros _; lia]|].
  destruct (String.eqb_spec v "LC") as [->|Hlc];
    [cbn; split; [lia|intros _; lia]|].
  split; [lia|]. intros Hv. destruct (Hv v eq_refl) as [?|[?|?]]; done.
Qed.

(** X6. The three LOFTEE verdicts are counted apart: in every struct the
    counter produces, pass_loftee + loftee_os + fail_loftee <= LOF, with
    equality when every defined LoF code is "HC", "OS" or "LC". *)
Theorem summary_counts_dict_loftee_verdicts
    (is_indel is_snp : string -> string -> bool) {R : Type}
    (allele_expr : Expr R (list (option string)))
    (lof_expr : Expr R string) (no_lof_flags_expr : Expr R bool)
    (prefix_str : string) (rows : list R) (s : list (string * Z))
    (Hs : agg_struct (get_summary_counts_dict is_indel is_snp allele_expr lof_expr
                        no_lof_flags_expr prefix_str) rows = Ok s) :
  exists nv ni ns nl np npf nos nf,
    s = [ (prefix_str +:+ "num_variants", nv);
          (prefix_str +:+ "indels", ni); (prefix_str +:+ "snps", ns);
          (prefix_str +:+ "LOF", nl); (prefix_str +:+ "pass_loftee", np);
          (prefix_str +:+ "pass_loftee_no_flag", npf);
          (prefix_str +:+ "loftee_os", nos); (prefix_str +:+ "fail_loftee", nf) ]
    /\ np + nos + nf <= nl
    /\ (Forall (fun r => forall v, lof_expr r = Def v ->
                                   v = "HC" \/ v = "OS" \/ v = "LC") rows ->
        np + nos + nf = nl).
Proof.
  destruct (get_summary_counts_dict_shape _ _ _ _ _ _ _ _ Hs)
    as (ni & ns & nl & np & npf & nos & nf & -> & -> & -> & -> & -> & -> & -> & ->).
  eexists _, _, _, _, _, _, _, _. split; [reflexivity|].
  rewrite <- !Zsum_fmap_add. split.
  - apply Zsum_fmap_le. intros r. apply loftee_weights.
  - intros Hall. apply Zsum_fmap_ext_in.
    eapply Forall_impl; [exact Hall|]. intros r Hr. by apply loftee_weights.
Qed.

Lemma summary_counts_dict_loftee_verdicts_witness :
  agg_struct (get_summary_counts_dict indel_by_length snp_by_length
                (col s_alleles) (col s_lof) (col s_no_lof_flags) "") five_sites
  = Ok [ ("num_variants", 5); ("indels", 1); ("snps", 4); ("LOF", 2);
         ("pass_loftee", 2); ("pass_loftee_no_flag", 1); ("loftee_os", 0);
         ("fail_loftee", 0) ]
  /\ exists nv ni ns nl np npf nos nf,
       [ ("num_variants", 5); ("indels", 1); ("snps", 4); ("LOF", 2);
         ("pass_loftee", 2); ("pass_loftee_no_flag", 1); ("loftee_os", 0);
         ("fail_loftee", 0) ]
       = [ ("" +:+ "num_variants", nv); ("" +:+ "indels", ni); ("" +:+ "snps", ns);
           ("" +:+ "LOF", nl); ("" +:+ "pass_loftee", np);
           ("" +:+ "pass_loftee_no_flag", npf);
           ("" +:+ "loftee_os", nos); ("" +:+ "fail_loftee", nf) ]
       /\ np + nos + nf <= nl.
Proof.
  assert (H : agg_struct (get_summary_counts_dict indel_by_length snp_by_length
                            (col s_alleles) (col s_lof) (col s_no_lof_flags) "")
                         five_sites
              = Ok [ ("num_variants", 5); ("indels", 1); ("snps", 4); ("LOF", 2);
                     ("pass_loftee", 2); ("pass_loftee_no_flag", 1);
                     ("loftee_os", 0); ("fail_loftee", 0) ])
    by (vm_compute; reflexivity).
  split; [exact H|].
  destruct (summary_counts_dict_loftee_verdicts indel_by_length snp_by_length
              (col s_alleles) (col s_lof) (col s_no_lof_flags) "" five_sites _ H)
    as (nv & ni & ns & nl & np & npf & nos & nf & Heq & Hle & _).
  exists nv, ni, ns, nl, np, npf, nos, nf. by split.
Defined.

(** ** Category counter: aggregation over parts *)

Lemma additive_app {R} (a : Agg R) (rows1 rows2 : list R) n1 n2 :
  additive a -> a rows1 = Ok n1 -> a rows2 = Ok n2 -> a (rows1 ++ rows2)%list = Ok (n1 + n2).
Proof.
  intros [Hnil Hcons] H1 H2. revert n1 H1.
  induction rows1 as [|r rows1 IH]; intros n1 H1.
  - rewrite Hnil in H1. injection H1 as <-. exact H2.
  - rewrite Hcons in H1. cbn [app]. rewrite Hcons.
    destruct (a [r]) as [x|e]; cbn [mbind result_bind] in *; [|discriminate].
    destruct (a rows1) as [m|e]; cbn [mbind result_bind] in *; [|discriminate].
    injection H1 as <-. rewrite (IH m eq_refl). cbn [mbind result_bind].
    f_equal. lia.
Qed.

Lemma agg_struct_app {R} (d : list (string * Agg R)) (rows1 rows2 : list R) s1 s2 :
  Forall (fun na => additive (snd na)) d ->
  agg_struct d rows1 = Ok s1 ->
  agg_struct d rows2 = Ok s2 ->
  agg_struct d (rows1 ++ rows2)%list
  = Ok (zip_with (fun x y => (fst x, snd x + snd y)) s1 s2).
Proof.
  unfold agg_struct. intros Hd. revert s1 s2.
  induction Hd as [|[n a] d Ha _ IH]; intros s1 s2 H1 H2.
  - injection H1 as <-. injection H2 as <-. reflexivity.
  - rewrite result_mapM_cons in H1, H2 |- *. cbn [fst snd] in *.
    destruct (a rows1) as [v1|e] eqn:Hv1; cbn [mbind result_bind] in H1;
      [|discriminate].
    destruct (mapM _ d) as [k1|e] eqn:Hk1 in H1; cbn [mbind result_bind] in H1;
      [|discriminate].
    destruct (a rows2) as [v2|e] eqn:Hv2; cbn [mbind result_bind] in H2;
      [|discriminate].
    destruct (mapM _ d) as [k2|e] eqn:Hk2 in H2; cbn [mbind result_bind] in H2;
      [|discriminate].
    injection H1 as <-. injection H2 as <-.
    rewrite (additive_app a _ _ _ _ Ha Hv1 Hv2). cbn [mbind result_bind].
    rewrite (IH k1 k2 Hk1 Hk2). reflexivity.
Qed.

(** X7. The counts of a table split in two parts are the sums of the counts
    of the parts, category by category: aggregating the concatenation gives
    the struct whose values are the pairwise sums. *)
Theorem summary_counts_dict_concat
    (is_indel is_snp : string -> string -> bool) {R : Type}
    (allele_expr : Expr R (list (option string)))
    (lof_expr : Expr R string) (no_lof_flags_expr : Expr R bool)
    (prefix_str : string) (rows1 rows2 : list R) (s1 s2 : list (string * Z))
    (H1 : agg_struct (get_summary_counts_dict is_indel is_snp allele_expr lof_expr
                        no_lof_flags_expr prefix_str) rows1 = Ok s1)
    (H2 : agg_struct (get_summary_counts_dict is_indel is_snp allele_expr lof_expr
                        no_lof_flags_expr prefix_str) rows2 = Ok s2) :
  agg_struct (get_summary_counts_dict is_indel is_snp allele_expr lof_expr
                no_lof_flags_expr prefix_str) (rows1 ++ rows2)%list
  = Ok (zip_with (fun x y => (fst x, snd x + snd y)) s1 s2).
Proof.
  apply agg_struct_app; [|exact H1|exact H2].
  unfold get_summary_counts_dict.
  repeat constructor; cbn [snd];
    first [ apply agg_count_additive | apply agg_count_where_additive ].
Qed.

Lemma summary_counts_dict_concat_witness :
  agg_struct (get_summary_counts_dict indel_by_length snp_by_length
                (col s_alleles) (col s_lof) (col s_no_lof_flags) "")
             (take 2 five_sites)
  = Ok [ ("num_variants", 2); ("indels", 1); ("snps", 1); ("LOF", 1);
         ("pass_loftee", 1); ("pass_loftee_no_flag", 1); ("loftee_os", 0);
         ("fail_loftee", 0) ]
  /\ agg_struct (get_summary_counts_dict indel_by_length snp_by_length
                   (col s_alleles) (col s_lof) (col s_no_lof_flags) "")
                (drop 2 five_sites)
     = Ok [ ("num_variants", 3); ("indels", 0); ("snps", 3); ("LOF", 1);
            ("pass_loftee", 1); ("pass_loftee_no_flag", 0); ("loftee_os", 0);
            ("fail_loftee", 0) ]
  /\ agg_struct (get_summary_counts_dict indel_by_length snp_by_length
                   (col s_alleles) (col s_lof) (col s_no_lof_flags) "")
                (take 2 five_sites ++ drop 2 five_sites)%list
     = Ok [ ("num_variants", 5); ("indels", 1); ("snps", 4); ("LOF", 2);
            ("pass_loftee", 2); ("pass_loftee_no_flag", 1); ("loftee_os", 0);
            ("fail_loftee", 0) ].
Proof.
  assert (H1 : agg_struct (get_summary_counts_dict indel_by_length snp_by_length
                             (col s_alleles) (col s_lof) (col s_no_lof_flags) "")
                          (take 2 five_sites)
               = Ok [ ("num_variants", 2); ("indels", 1); ("snps", 1); ("LOF", 1);
                      ("pass_loftee", 1); ("pass_loftee_no_flag", 1);
                      ("loftee_os", 0); ("fail_loftee", 0) ])
    by (vm_compute; reflexivity).
  assert (H2 : agg_struct (get_summary_counts_dict indel_by_length snp_by_length
                             (col s_alleles) (col s_lof) (col s_no_lof_flags) "")
                          (drop 2 five_sites)
               = Ok [ ("num_variants", 3); ("indels", 0); ("snps", 3); ("LOF", 1);
                      ("pass_loftee", 1); ("pass_loftee_no_flag", 0);
                      ("loftee_os", 0); ("fail_loftee", 0) ])
    by (vm_compute; reflexivity).
  split; [exact H1|]. split; [exact H2|].
  exact (summary_counts_dict_concat indel_by_length snp_by_length
           (col s_alleles) (col s_lof) (col s_no_lof_flags) ""
           (take 2 five_sites) (drop 2 five_sites) _ _ H1 H2).
Defined.

(** ** Summary-counts pipeline: the rows of the output *)


Section GroupedRows.
Context {R : Type}.
Implicit Types (rows : list R) (key : R -> option string).

Lemma group_keys_elem key rows k :
  k ∈ group_keys key rows <-> exists r, r ∈ rows /\ key r = k.
Proof.
  unfold group_keys. rewrite merge_sort_Permutation, elem_of_remove_dups.
  rewrite list_elem_of_fmap. split; intros (r & H1 & H2); eauto.
Qed.


Lemma group_keys_nil_iff key rows : group_keys key rows = [] <-> rows = [].
Proof.
  split.
  - intros Hk. destruct rows as [|r rows]; [done|].
    assert (Hin : key r ∈ group_keys key (r :: rows))
      by (apply group_keys_elem; exists r; split; [left|done]).
    rewrite Hk in Hin. by apply not_elem_of_nil in Hin.
  - intros ->. reflexivity.
Qed.

Lemma group_by_aggregate_inv key (d : list (string * Agg R)) rows out :
  group_by_aggregate key d rows = Ok out ->
  fst <$> out = group_keys key rows
  /\ Forall (fun row => agg_struct d (group_rows key (fst row) rows) = Ok (snd row))
            out.
Proof.
  unfold group_by_aggregate. generalize (group_keys key rows) as ks. intros ks.
  revert out. induction ks as [|k ks IH]; intros out Hout.
  - injection Hout as <-. by split.
  - rewrite result_mapM_cons in Hout.
    destruct (agg_struct d (group_rows key k rows)) as [s|e] eqn:Hs;
      cbn [mbind result_bind] in Hout; [|discriminate].
    destruct (mapM _ ks) as [out'|e] eqn:Hout'; cbn [mbind result_bind] in Hout;
      [|discriminate].
    injection Hout as <-. destruct (IH out' eq_refl) as [Hk Hall].
    split; [by rewrite fmap_cons, Hk|]. by constructor.
Qed.

Lemma table_annotate_inv {A} (e : Expr R A) rows out :
  table_annotate e rows = Ok out ->
  fst <$> out = rows /\ Forall (fun rv => e (fst rv) = Ok (snd rv)) out.
Proof.
  unfold table_annotate. revert out.
  induction rows as [|r rows IH]; intros out Hout.
  - injection Hout as <-. by split.
  - rewrite result_mapM_cons in Hout.
    destruct (e r) as [v|x] eqn:Hv; cbn [mbind result_bind] in Hout; [|discriminate].
    destruct (mapM _ rows) as [out'|x] eqn:Hout'; cbn [mbind result_bind] in Hout;
      [|discriminate].
    injection Hout as <-. destruct (IH out' eq_refl) as [Hk Hall].
    split; [by rewrite fmap_cons, Hk|]. by constructor.
Qed.
End GroupedRows.

Section PipelineInv.
Variables is_indel is_snp : string -> string -> bool.
Context {Row : Type}.
Variable filter_field : Row -> option (gset string).
Variable freq_field : Row -> option (list (option Freq)).
Variable alleles : Row -> option (list (option string)).
Variable lof : Row -> option string.
Variable no_lof_flags : Row -> option bool.
Variable filter_low_conf_regions : list Row -> bool -> result (list Row).
Variable filter_vep_to_canonical_transcripts : list Row -> result (list Row).
Variable get_most_severe_consequence_for_summary : list Row -> result (list Row).

(** The stages of a run of the pipeline that returned. *)
Lemma get_summary_counts_inv ht filter_decoy tbl :
  get_summary_counts is_indel is_snp filter_field freq_field alleles lof
    no_lof_flags filter_low_conf_regions filter_vep_to_canonical_transcripts
    get_most_severe_consequence_for_summary ht filter_decoy = Ok tbl ->
  exists ht1 ht2 ht3 ht4 ht5,
    table_filter (lift1 (fun s => Z.of_nat (size s) =? 0) (col filter_field)) ht
    = Ok ht1
    /\ filter_low_conf_regions ht1 filter_decoy = Ok ht2
    /\ filter_vep_to_canonical_transcripts ht2 = Ok ht3
    /\ get_most_severe_consequence_for_summary ht3 = Ok ht4
    /\ table_annotate (freq_bin_expr (col freq_field) 0) ht4 = Ok ht5
    /\ agg_struct
         (get_summary_counts_dict is_indel is_snp
            (fun r : Row * option string => col alleles (fst r))
            (fun r => col lof (fst r)) (fun r => col no_lof_flags (fst r)) "total_")
         ht5 = Ok (summary_counts tbl)
    /\ group_by_aggregate snd
         (get_summary_counts_dict is_indel is_snp
            (fun r : Row * option string => col alleles (fst r))
            (fun r => col lof (fst r)) (fun r => col no_lof_flags (fst r)) "")
         ht5 = Ok (summary_rows tbl).
Proof.
  intros Hrun. unfold get_summary_counts in Hrun.
  repeat match type of Hrun with
         | mbind _ ?m = _ =>
             destruct m eqn:?; cbn [mbind result_bind] in Hrun; [|discriminate]
         end.
  injection Hrun as <-. cbn [summary_counts summary_rows].
  eexists _, _, _, _, _. repeat split; eassumption.
Qed.
End PipelineInv.



(** X9. The pipeline's total number of variants is the number of sites the
    collaborators hand over, and it is zero exactly when the returned table
    has no rows. *)
Theorem summary_total_zero_iff_no_rows
    (is_indel is_snp : string -> string -> bool) {Row : Type}
    (filter_field : Row -> option (gset string))
    (freq_field : Row -> option (list (option Freq)))
    (alleles : Row -> option (list (option string)))
    (lof : Row -> option string) (no_lof_flags : Row -> option bool)
    (filter_low_conf_regions : list Row -> bool -> result (list Row))
    (filter_vep_to_canonical_transcripts : list Row -> result (list Row))
    (get_most_severe_consequence_for_summary : list Row -> result (list Row))
    (ht : list Row) (filter_decoy : bool) (tbl : SummaryTable)
    (Hrun : get_summary_counts is_indel is_snp filter_field freq_field alleles lof
              no_lof_flags filter_low_conf_regions filter_vep_to_canonical_transcripts
              get_most_severe_consequence_for_summary ht filter_decoy = Ok tbl) :
  exists ht1 ht2 ht3 ht4,
    table_filter (lift1 (fun s => Z.of_nat (size s) =? 0) (col filter_field)) ht
    = Ok ht1
    /\ filter_low_conf_regions ht1 filter_decoy = Ok ht2
    /\ filter_vep_to_canonical_transcripts ht2 = Ok ht3
    /\ get_most_severe_consequence_for_summary ht3 = Ok ht4
    /\ struct_get "total_num_variants" (summary_counts tbl)
       = Some (Z.of_nat (length ht4))
    /\ (length ht4 = 0%nat <-> summary_rows tbl = []).
Proof.
  destruct (get_summary_counts_inv _ _ _ _ _ _ _ _ _ _ _ _ _ Hrun)
    as (ht1 & ht2 & ht3 & ht4 & ht5 & H1 & H2 & H3 & H4 & Hann & Htot & Hgrp).
  exists ht1, ht2, ht3, ht4. repeat (split; [assumption|]).
  destruct (group_by_aggregate_inv _ _ _ _ Hgrp) as [Hkeys _].
  destruct (table_annotate_inv _ _ _ Hann) as [Hfst _].
  assert (Hlen : length ht5 = length ht4) by (by rewrite <- Hfst, length_fmap).
  destruct (get_summary_counts_dict_shape _ _ _ _ _ _ _ _ Htot)
    as (ni & ns & nl & np & npf & nos & nf & -> & _).
  split; [by rewrite Hlen|].
  rewrite <- Hlen. split.
  - intros H0. apply nil_length_inv in H0. subst ht5.
    apply (f_equal length) in Hkeys. rewrite length_fmap in Hkeys.
    by apply nil_length_inv.
  - intros Hnil. rewrite Hnil in Hkeys. symmetry in Hkeys.
    apply group_keys_nil_iff in Hkeys. by subst.
Qed.

Lemma summary_total_zero_iff_no_rows_witness :
  summary_counts_of_sites five_sites = Ok five_sites_table
  /\ exists ht4 : list SummaryRow,
       struct_get "total_num_variants" (summary_counts five_sites_table)
       = Some (Z.of_nat (length ht4))
       /\ (length ht4 = 0%nat <-> summary_rows five_sites_table = []).
Proof.
  assert (Hrun : summary_counts_of_sites five_sites = Ok five_sites_table)
    by (vm_compute; reflexivity).
  split; [exact Hrun|].
  destruct (summary_total_zero_iff_no_rows indel_by_length snp_by_length
              s_filters s_freq s_alleles s_lof s_no_lof_flags
              (fun ht _ => Ok ht) (fun ht => Ok ht) (fun ht => Ok ht)
              five_sites false five_sites_table Hrun)
    as (ht1 & ht2 & ht3 & ht4 & _ & _ & _ & _ & Htot & Hiff).
  exists ht4. by split.
Defined.

(** ** Summary-counts pipeline: a site without frequencies *)





(** ** The computed sample counts *)

Lemma dict_values_sum_empty : dict_values_sum ∅ = 0.
Proof. unfold dict_values_sum. by rewrite map_fold_empty. Qed.

Lemma dict_values_sum_insert_fresh (d : gmap (option string) Z) k v :
  d !! k = None -> dict_values_sum (<[k := v]> d) = v + dict_values_sum d.
Proof.
  intros Hk. unfold dict_values_sum.
  rewrite map_fold_insert_L; [reflexivity| |exact Hk]. intros. lia.
Qed.

Lemma dict_values_sum_insert (d : gmap (option string) Z) k v :
  dict_values_sum (<[k := v]> d) = v + dict_values_sum d - default 0 (d !! k).
Proof.
  destruct (d !! k) as [w|] eqn:Hk; cbn [default from_option id].
  - rewrite <- insert_delete_eq.
    rewrite dict_values_sum_insert_fresh by apply lookup_delete_eq.
    assert (Hd : dict_values_sum d = w + dict_values_sum (delete k d)).
    { unfold dict_values_sum.
      rewrite <- (map_fold_delete_L _ _ k w d); [reflexivity| |exact Hk].
      intros. lia. }
    lia.
  - rewrite dict_values_sum_insert_fresh by done. lia.
Qed.

Lemma agg_counter_lookup (l : list (option string)) (k : option string) :
  agg_counter l !! k = if decide (count_of k l = 0) then None else Some (count_of k l).
Proof.
  induction l as [|x l IH]; [reflexivity|].
  cbn [agg_counter foldr]. fold (agg_counter l). unfold count_of in *.
  destruct (decide (x = k)) as [->|Hne].
  - rewrite lookup_insert_eq, IH, filter_cons_True by done. cbn [length].
    repeat case_decide; cbn [default from_option id]; try lia; f_equal; lia.
  - rewrite lookup_insert_ne, IH, filter_cons_False by done. reflexivity.
Qed.

Lemma agg_counter_sum (l : list (option string)) :
  dict_values_sum (agg_counter l) = Z.of_nat (length l).
Proof.
  induction l as [|x l IH]; [apply dict_values_sum_empty|].
  cbn [agg_counter foldr]. fold (agg_counter l).
  rewrite dict_values_sum_insert, IH. cbn [length]. lia.
Qed.

Lemma count_of_zero_iff (k : option string) (l : list (option string)) :
  count_of k l = 0 <-> k ∉ l.
Proof.
  unfold count_of. split.
  - intros H0 Hin.
    assert (Hf : k ∈ filter (fun x => x = k) l) by (by apply list_elem_of_filter).
    destruct (filter (fun x => x = k) l); [by apply not_elem_of_nil in Hf|].
    cbn [length] in H0. lia.
  - intros Hnot. destruct (filter (fun x => x = k) l) as [|y ys] eqn:Hf; [done|].
    exfalso. apply Hnot.
    assert (Hy : y ∈ filter (fun x => x = k) l) by (rewrite Hf; left).
    apply list_elem_of_filter in Hy as [-> Hy]. exact Hy.
Qed.

(** X11. When the sample counts are not supplied, the mapping the function
    computes holds, for every karyotype value that occurs among the samples
    (the missing value included), the number of samples with that value, and
    nothing else; its values add up to the number of samples, so the
    autosomal threshold is built from all samples, whatever their
    karyotype. *)
Theorem computed_samples_by_sex_counts
    {Row Col : Type} (sex_field : Col -> option string) (mt : MatrixTable Row Col) :
  (forall k,
      resolved_samples_by_sex sex_field mt None !! k
      = if decide (count_of k (sex_field <$> mt_cols mt) = 0) then None
        else Some (count_of k (sex_field <$> mt_cols mt)))
  /\ (forall k, resolved_samples_by_sex sex_field mt None !! k = None
                <-> k ∉ sex_field <$> mt_cols mt)
  /\ dict_values_sum (resolved_samples_by_sex sex_field mt None)
     = Z.of_nat (length (mt_cols mt)).
Proof.
  unfold resolved_samples_by_sex. split; [|split].
  - intros k. apply agg_counter_lookup.
  - intros k. rewrite agg_counter_lookup, <- count_of_zero_iff.
    case_decide; [tauto|]. split; [discriminate|tauto].
  - by rewrite agg_counter_sum, length_fmap.
Qed.

(** ** AN-adjacency criterion on a cohort that lacks a karyotype *)

Lemma py_float_of_int_raise n e :
  py_float_of_int n = Raise e ->
  e = OverflowError "int too large to convert to float".
Proof. unfold py_float_of_int. destruct (f64_of_Z n); congruence. Qed.

Lemma py_float_of_int_0 : py_float_of_int 0 = Ok (f64_of_Z 0).
Proof. reflexivity. Qed.

Section AnAdjMissingKey.
Context {Row Col : Type}.
Variable locus : Row -> option Locus.
Variable sex_field : Col -> option string.
Variable freq_field : Row -> option (list (option Freq)).

Lemma get_an_adj_criteria_raises_without_key mt samples_by_sex xy_str xx_str
    freq_index cutoff :
  resolved_samples_by_sex sex_field mt samples_by_sex !! Some xy_str = None
  \/ resolved_samples_by_sex sex_field mt samples_by_sex !! Some xx_str = None ->
  exists e,
    get_an_adj_criteria locus sex_field freq_field mt samples_by_sex
      xy_str xx_str freq_index cutoff = Raise e
    /\ (e = KeyError xy_str \/ e = KeyError xx_str
        \/ e = OverflowError "int too large to convert to float").
Proof.
  intros Hkey. unfold get_an_adj_criteria.
  fold (resolved_samples_by_sex sex_field mt samples_by_sex).
  set (d := resolved_samples_by_sex sex_field mt samples_by_sex) in *.
  unfold py_float_mul_int, dict_getitem. rewrite py_float_of_int_2.
  cbn [mbind result_bind].
  destruct (py_float_of_int (dict_values_sum d)) as [f|e] eqn:Hf;
    cbn [mbind result_bind].
  - destruct (d !! Some xy_str); cbn [mbind result_bind]; [|eauto].
    destruct Hkey as [?| ->]; [discriminate|]. cbn [mbind result_bind]. eauto.
  - apply py_float_of_int_raise in Hf as ->. eauto.
Qed.

Lemma get_an_adj_criteria_no_samples mt xy_str xx_str freq_index cutoff :
  mt_cols mt = [] ->
  get_an_adj_criteria locus sex_field freq_field mt None
    xy_str xx_str freq_index cutoff = Raise (KeyError xy_str).
Proof.
  intros Hcols. unfold get_an_adj_criteria. rewrite Hcols.
  unfold py_float_mul_int, dict_getitem. rewrite py_float_of_int_2.
  cbn [mbind result_bind fmap list_fmap agg_counter foldr].
  rewrite dict_values_sum_empty, py_float_of_int_0. cbn [mbind result_bind].
  by rewrite lookup_empty.
Qed.
End AnAdjMissingKey.

(** X12. With the sample counts computed from the matrix, a cohort in which
    no sample has the XY karyotype string, or none has the XX one, makes the
    function raise while it builds the expression: the KeyError of the
    absent key (or, were the number of samples beyond the floats, the
    OverflowError of the first threshold).  On a matrix without samples it
    is the KeyError of xy_str. *)
Theorem get_an_adj_criteria_cohort_without_karyotype
    {Row Col : Type} (locus : Row -> option Locus)
    (sex_field : Col -> option string)
    (freq_field : Row -> option (list (option Freq)))
    (mt : MatrixTable Row Col) (xy_str xx_str : string)
    (freq_index : Z) (cutoff : float64) :
  (Some xy_str ∉ sex_field <$> mt_cols mt \/ Some xx_str ∉ sex_field <$> mt_cols mt ->
   exists e,
     get_an_adj_criteria locus sex_field freq_field mt None
       xy_str xx_str freq_index cutoff = Raise e
     /\ (e = KeyError xy_str \/ e = KeyError xx_str
         \/ e = OverflowError "int too large to convert to float"))
  /\ (mt_cols mt = [] ->
      get_an_adj_criteria locus sex_field freq_field mt None
        xy_str xx_str freq_index cutoff = Raise (KeyError xy_str)).
Proof.
  split; [|apply get_an_adj_criteria_no_samples].
  intros Hkey. apply get_an_adj_criteria_raises_without_key.
  unfold resolved_samples_by_sex. rewrite !agg_counter_lookup.
  destruct Hkey as [H|H]; [left|right];
    apply count_of_zero_iff in H; by rewrite decide_True.
Qed.

Lemma get_an_adj_criteria_cohort_without_karyotype_witness :
  (Some "XY" ∉ col_sex <$> mt_cols no_xy_cohort
   \/ Some "XX" ∉ col_sex <$> mt_cols no_xy_cohort)
  /\ exists e,
       get_an_adj_criteria row_locus col_sex row_freq no_xy_cohort None
         "XY" "XX" 0 (f64_lit 8 10) = Raise e
       /\ (e = KeyError "XY" \/ e = KeyError "XX"
           \/ e = OverflowError "int too large to convert to float").
Proof.
  assert (H : Some "XY" ∉ col_sex <$> mt_cols no_xy_cohort
              \/ Some "XX" ∉ col_sex <$> mt_cols no_xy_cohort).
  { left. apply (bool_decide_unpack _). vm_compute. reflexivity. }
  split; [exact H|].
  exact (proj1 (get_an_adj_criteria_cohort_without_karyotype row_locus col_sex
                  row_freq no_xy_cohort "XY" "XX" 0 (f64_lit 8 10)) H).
Defined.

(** X13. The gene-level builder with filter_an=True computes the sample
    counts itself and looks up the fixed keys "XY" and "XX": on a cohort
    without a sample of karyotype "XY", or without one of karyotype "XX", it
    raises before any row is read, whatever the other arguments are. *)
Theorem gene_lof_filter_an_needs_both_karyotypes
    (is_indel : string -> string -> bool) {Row Col : Type}
    (locus : Row -> option Locus)
    (alleles : Row -> option (list (option string)))
    (filter_field : Row -> option (gset string))
    (freq_field freq : Row -> option (list (option Freq)))
    (sex_karyotype : Col -> option string)
    (transcript_consequences : Row -> option (list (option Csq)))
    (process_consequences : Row -> Row)
    (worst_csq_by_gene : Row -> option (list (option Csq)))
    (add_most_severe_consequence_to_consequence : option Csq -> val Csq)
    (mt : MatrixTable Row Col)
    (tx_ht : option (Row -> option (list (option TxAnnotation))))
    (freq_index : Z) (additional_csq_set : gset string)
    (all_transcripts filter_to_rare pre_loftee : bool)
    (lof_csq_set : gset string) (remove_ultra_common : bool)
    (Hkey : Some "XY" ∉ sex_karyotype <$> mt_cols mt
            \/ Some "XX" ∉ sex_karyotype <$> mt_cols mt) :
  exists e,
    default_generate_gene_lof_matrix is_indel locus alleles filter_field
      freq_field freq sex_karyotype transcript_consequences process_consequences
      worst_csq_by_gene add_most_severe_consequence_to_consequence
      mt tx_ht freq_index additional_csq_set all_transcripts true
      filter_to_rare pre_loftee lof_csq_set remove_ultra_common = Raise e
    /\ (e = KeyError "XY" \/ e = KeyError "XX"
        \/ e = OverflowError "int too large to convert to float").
Proof.
  destruct (get_an_adj_criteria_raises_without_key locus sex_karyotype freq mt None
              "XY" "XX" 0 (f64_lit 8 10)) as (e & He & Hkind).
  { unfold resolved_samples_by_sex. rewrite !agg_counter_lookup.
    destruct Hkey as [H|H]; [left|right];
      apply count_of_zero_iff in H; by rewrite decide_True. }
  exists e. split; [|exact Hkind].
  unfold default_generate_gene_lof_matrix, filt_criteria. by rewrite He.
Qed.

Lemma gene_lof_filter_an_needs_both_karyotypes_witness :
  (Some "XY" ∉ col_sex <$> mt_cols variants_no_xy
   \/ Some "XX" ∉ col_sex <$> mt_cols variants_no_xy)
  /\ exists e,
       gene_lof_on_variants variants_no_xy None 0 ∅ false true false false
         default_lof_csq_set false = Raise e
       /\ (e = KeyError "XY" \/ e = KeyError "XX"
           \/ e = OverflowError "int too large to convert to float").
Proof.
  assert (H : Some "XY" ∉ col_sex <$> mt_cols variants_no_xy
              \/ Some "XX" ∉ col_sex <$> mt_cols variants_no_xy).
  { left. apply (bool_decide_unpack _). vm_compute. reflexivity. }
  split; [exact H|].
  exact (gene_lof_filter_an_needs_both_karyotypes indel_by_length
           v_locus v_alleles v_filters v_freq v_freq col_sex
           v_transcript_consequences (fun r => r) v_worst_csq_by_gene
           keep_most_severe variants_no_xy None 0 ∅ false false false
           default_lof_csq_set false H).
Defined.

(** ** Looking up the expression of a consequence *)

Section Find.
Context {E : Type}.

Lemma find_elem_find (f : Expr (option E) bool) (l : list (option E)) :
  (forall x, ¬ is_raise (f x)) ->
  find_elem f l = Ok (default None (List.find (holds f) l)).
Proof.
  intros Hf. induction l as [|x l IH]; [reflexivity|].
  cbn [find_elem List.find]. unfold holds at 1. specialize (Hf x).
  destruct (f x) as [[[|]|]|]; cbn [mbind result_bind]; try done.
Qed.
End Find.

Section TxLookup.
Context {Row : Type}.
Variable tx_ht : Row -> option (list (option TxAnnotation)).

(** The lookup as a search for the first matching entry. *)
Lemma annotate_tx_expression_data_find (rc : Row * option Csq) :
  annotate_tx_expression_data tx_ht rc
  = Ok (match tx_ht (fst rc) with
        | None => None
        | Some l => default None (List.find (tx_matches (snd rc)) l)
        end).
Proof.
  unfold annotate_tx_expression_data, hl_find.
  destruct (tx_ht (fst rc)) as [l|]; [|reflexivity].
  rewrite find_elem_find.
  - f_equal. f_equal. induction l as [|t l IH]; [reflexivity|].
    cbn [List.find]. rewrite IH.
    replace (holds _ t) with (tx_matches (snd rc) t); [reflexivity|].
    unfold holds, tx_matches, hl_and, str_eq, lift2, field, elem.
    destruct (snd rc ≫= gene_id) as [g'|],
             (snd rc ≫= most_severe_consequence) as [m'|];
      destruct t as [[[g|] [m|] x]|]; cbn;
      repeat match goal with
             | |- context [String.eqb ?a ?b] => destruct (String.eqb a b)
             end; reflexivity.
  - intros t. unfold hl_and, str_eq, lift2, field, elem.
    destruct (snd rc ≫= gene_id) as [g'|],
             (snd rc ≫= most_severe_consequence) as [m'|];
      destruct t as [[[g|] [m|] x]|]; cbn;
      repeat match goal with
             | |- context [String.eqb ?a ?b] => destruct (String.eqb a b)
             end; tauto.
Qed.
End TxLookup.

(** X14. The expression lookup never raises and returns the first entry of
    the site's expression array whose gene equals the consequence's gene id
    and whose consequence term equals its most severe consequence; the
    result is missing when the site has no expression array, when no entry
    matches, and always when the consequence has no gene id or no most
    severe consequence. *)
Theorem annotate_tx_expression_data_first_match
    {Row : Type} (tx_ht : Row -> option (list (option TxAnnotation)))
    (rc : Row * option Csq) :
  (forall t,
      annotate_tx_expression_data tx_ht rc = Def t ->
      exists l before after,
        tx_ht (fst rc) = Some l
        /\ l = (before ++ Some t :: after)%list
        /\ tx_matches (snd rc) (Some t) = true
        /\ Forall (fun t' => tx_matches (snd rc) t' = false) before)
  /\ (forall l,
        tx_ht (fst rc) = Some l ->
        Forall (fun t' => tx_matches (snd rc) t' = false) l ->
        annotate_tx_expression_data tx_ht rc = NA)
  /\ (tx_ht (fst rc) = None -> annotate_tx_expression_data tx_ht rc = NA)
  /\ (snd rc ≫= gene_id = None \/ snd rc ≫= most_severe_consequence = None ->
      annotate_tx_expression_data tx_ht rc = NA)
  /\ ¬ is_raise (annotate_tx_expression_data tx_ht rc).
Proof.
  rewrite annotate_tx_expression_data_find.
  assert (Hfind : forall l : list (option TxAnnotation),
             Forall (fun t' => tx_matches (snd rc) t' = false) l ->
             List.find (tx_matches (snd rc)) l = None).
  { induction 1 as [|t l Ht _ IH]; [reflexivity|].
    cbn [List.find]. by rewrite Ht. }
  split; [|split; [|split; [|split]]].
  - intros t Ht. destruct (tx_ht (fst rc)) as [l|]; [|discriminate].
    exists l. injection Ht as Ht.
    induction l as [|t' l IH]; [discriminate|].
    cbn [List.find] in Ht. destruct (tx_matches (snd rc) t') eqn:Hm.
    + cbn in Ht. subst t'. exists [], l. by repeat split.
    + destruct (IH Ht) as (before & after & _ & -> & Hmt & Hbefore).
      exists (t' :: before), after. repeat split; [done|by constructor].
  - intros l -> Hall. by rewrite (Hfind l Hall).
  - by intros ->.
  - intros Hmiss. destruct (tx_ht (fst rc)) as [l|]; [|reflexivity].
    rewrite (Hfind l); [reflexivity|].
    apply Forall_forall. intros t _. unfold tx_matches.
    destruct Hmiss as [-> | ->]; by destruct (t ≫= ensg), (snd rc ≫= gene_id),
                                              (t ≫= csq).
  - exact (fun H => H).
Qed.

Lemma annotate_tx_expression_data_first_match_witness :
  annotate_tx_expression_data tx_table (rare_site, Some hc_stop_gained)
  = Def (mkTxAnnotation (Some "ENSG01") (Some "stop_gained") (Some (f64_lit 95 100)))
  /\ exists l before after,
       tx_table rare_site = Some l
       /\ l = (before ++ Some (mkTxAnnotation (Some "ENSG01") (Some "stop_gained")
                                 (Some (f64_lit 95 100))) :: after)%list
       /\ Forall (fun t' => tx_matches (Some hc_stop_gained) t' = false) before.
Proof.
  assert (H : annotate_tx_expression_data tx_table (rare_site, Some hc_stop_gained)
              = Def (mkTxAnnotation (Some "ENSG01") (Some "stop_gained")
                       (Some (f64_lit 95 100))))
    by (vm_compute; reflexivity).
  split; [exact H|].
  destruct (proj1 (annotate_tx_expression_data_first_match tx_table
                     (rare_site, Some hc_stop_gained)) _ H)
    as (l & before & after & Hl & Heq & _ & Hbefore).
  exists l, before, after. by repeat split.
Defined.

(** ** Gene-level builder: how the row filters combine *)

Lemma table_filter_ext {R} (c1 c2 : Expr R bool) (rows : list R) :
  (forall r, c1 r = c2 r) -> table_filter c1 rows = table_filter c2 rows.
Proof.
  intros Hc. induction rows as [|r rows IH]; [reflexivity|].
  cbn [table_filter]. by rewrite Hc, IH.
Qed.

Lemma rare_is_not_ultra_common x :
  f64_lt x (f64_lit 5 100) = true -> f64_lt x (f64_lit 95 100) = true.
Proof.
  intros H. apply (f64_lt_trans x (f64_lit 5 100)); [exact H|].
  vm_compute. reflexivity.
Qed.

(** After the rare-only conjunct, the ultra-common conjunct changes
    nothing, on any row, in value, missingness or error. *)
Lemma hl_and_rare_absorbs {R} (c : Expr R bool) (af : Expr R float64) (r : R) :
  hl_and (hl_and c (lift1 (fun x => f64_lt x (f64_lit 95 100)) af))
         (lift1 (fun x => f64_lt x (f64_lit 5 100)) af) r
  = hl_and c (lift1 (fun x => f64_lt x (f64_lit 5 100)) af) r.
Proof.
  unfold hl_and, lift1.
  destruct (c r) as [[[|]|]|]; destruct (af r) as [[x|]|]; try reflexivity;
    pose proof (rare_is_not_ultra_common x) as Himp;
    destruct (f64_lt x (f64_lit 5 100)), (f64_lt x (f64_lit 95 100));
    try reflexivity; by specialize (Himp eq_refl).
Qed.

(** X15. With filter_to_rare=True the flag remove_ultra_common makes no
    difference: AF < 0.05 implies AF < 0.95 on binary64 values, so the
    builder returns the same result (rows, annotations or error) whether
    remove_ultra_common is set or not, and so does its row filter. *)
Theorem remove_ultra_common_redundant_when_rare
    (is_indel : string -> string -> bool) {Row Col : Type}
    (locus : Row -> option Locus)
    (alleles : Row -> option (list (option string)))
    (filter_field : Row -> option (gset string))
    (freq_field freq : Row -> option (list (option Freq)))
    (sex_karyotype : Col -> option string)
    (transcript_consequences : Row -> option (list (option Csq)))
    (process_consequences : Row -> Row)
    (worst_csq_by_gene : Row -> option (list (option Csq)))
    (add_most_severe_consequence_to_consequence : option Csq -> val Csq)
    (mt : MatrixTable Row Col)
    (tx_ht : option (Row -> option (list (option TxAnnotation))))
    (freq_index : Z) (additional_csq_set : gset string)
    (all_transcripts filter_an pre_loftee : bool) (lof_csq_set : gset string) :
  filter_rows_stage locus filter_field freq_field freq sex_karyotype
    mt freq_index filter_an true true
  = filter_rows_stage locus filter_field freq_field freq sex_karyotype
      mt freq_index filter_an true false
  /\ default_generate_gene_lof_matrix is_indel locus alleles filter_field
       freq_field freq sex_karyotype transcript_consequences process_consequences
       worst_csq_by_gene add_most_severe_consequence_to_consequence
       mt tx_ht freq_index additional_csq_set all_transcripts filter_an
       true pre_loftee lof_csq_set true
     = default_generate_gene_lof_matrix is_indel locus alleles filter_field
         freq_field freq sex_karyotype transcript_consequences process_consequences
         worst_csq_by_gene add_most_severe_consequence_to_consequence
         mt tx_ht freq_index additional_csq_set all_transcripts filter_an
         true pre_loftee lof_csq_set false.
Proof.
  unfold filter_rows_stage, default_generate_gene_lof_matrix, filt_criteria.
  destruct (if filter_an then _ else _) as [c|e]; cbn [mbind result_bind];
    [|by split].
  split.
  - apply table_filter_ext. intros r. apply hl_and_rare_absorbs.
  - destruct (csq_criteria _ _ _ _) as [criteria|e]; cbn [mbind result_bind];
      [|reflexivity].
    rewrite (table_filter_ext _ _ (mt_rows mt) (hl_and_rare_absorbs c _)).
    reflexivity.
Qed.

(** ** Gene-level builder: what reaches the output *)

Lemma hl_and_true {R} (c1 c2 : Expr R bool) (r : R) :
  hl_and c1 c2 r = Def true -> c1 r = Def true /\ c2 r = Def true.
Proof.
  unfold hl_and. destruct (c1 r) as [[[|]|]|]; try discriminate.
  - by intros ->.
  - destruct (c2 r) as [[[|]|]|]; discriminate.
Qed.

Lemma table_filter_elem {R} (c : Expr R bool) (rows out : list R) :
  table_filter c rows = Ok out ->
  Forall (fun r => r ∈ rows /\ c r = Def true) out.
Proof.
  revert out. induction rows as [|r rows IH]; intros out; cbn [table_filter].
  - intros [= <-]. constructor.
  - destruct (c r) as [b|e] eqn:Hc; cbn [mbind result_bind]; [|discriminate].
    destruct (table_filter c rows) as [rs|e]; cbn [mbind result_bind];
      [|discriminate].
    specialize (IH rs eq_refl).
    assert (Hrs : Forall (fun r0 => r0 ∈ r :: rows /\ c r0 = Def true) rs).
    { eapply Forall_impl; [exact IH|]. intros r0 [H1 H2]. split; [by right|done]. }
    destruct b as [[|]|]; intros [= <-]; [|exact Hrs..].
    constructor; [|exact Hrs]. split; [left|exact Hc].
Qed.

Lemma filter_elems_elem {E} (f : Expr (option E) bool) (l out : list (option E)) :
  filter_elems f l = Ok out ->
  Forall (fun x => x ∈ l /\ f x = Def true) out.
Proof.
  revert out. induction l as [|x l IH]; intros out; cbn [filter_elems].
  - intros [= <-]. constructor.
  - destruct (f x) as [b|e] eqn:Hf; cbn [mbind result_bind]; [|discriminate].
    destruct (filter_elems f l) as [xs|e]; cbn [mbind result_bind];
      [|discriminate].
    specialize (IH xs eq_refl).
    assert (Hxs : Forall (fun y => y ∈ x :: l /\ f y = Def true) xs).
    { eapply Forall_impl; [exact IH|]. intros y [H1 H2]. split; [by right|done]. }
    destruct b as [[|]|]; intros [= <-]; [|exact Hxs..].
    constructor; [|exact Hxs]. split; [left|exact Hf].
Qed.

Lemma explode_rows_elem {R E} (a : Expr R (list (option E))) (rows : list R) out :
  explode_rows a rows = Ok out ->
  Forall (fun rx => fst rx ∈ rows /\ exists l, a (fst rx) = Def l /\ snd rx ∈ l) out.
Proof.
  unfold explode_rows. revert out.
  induction rows as [|r rows IH]; intros out Hout.
  - injection Hout as <-. constructor.
  - rewrite result_mapM_cons in Hout.
    destruct (a r) as [v|e] eqn:Ha; cbn [mbind result_bind] in Hout; [|discriminate].
    destruct (mapM _ rows) as [per_row|e] eqn:Hper;
      cbn [mbind result_bind] in Hout; [|discriminate].
    injection Hout as <-. cbn [concat].
    specialize (IH (concat per_row) eq_refl). apply Forall_app. split.
    + destruct v as [l|]; [|constructor].
      apply Forall_forall. intros rx (x & -> & Hx)%list_elem_of_fmap.
      cbn [fst snd]. split; [left|]. exists l. by split.
    + eapply Forall_impl; [exact IH|]. intros rx [H1 H2]. split; [by right|done].
Qed.

Lemma result_mapM_pair_inv {A B} (g : A -> result B) (l : list A) out :
  mapM (fun x => y ← g x; Ok (x, y)) l = Ok out -> fst <$> out = l.
Proof.
  revert out. induction l as [|x l IH]; intros out Hout.
  - by injection Hout as <-.
  - rewrite result_mapM_cons in Hout.
    destruct (g x) as [y|e]; cbn [mbind result_bind] in Hout; [|discriminate].
    destruct (mapM _ l) as [out'|e] eqn:Hout'; cbn [mbind result_bind] in Hout;
      [|discriminate].
    injection Hout as <-. by rewrite fmap_cons, (IH out' eq_refl).
Qed.

Section FilterCriteria.
Context {Row Col : Type}.
Variable locus : Row -> option Locus.
Variable filter_field : Row -> option (gset string).
Variables freq_field freq : Row -> option (list (option Freq)).
Variable sex_karyotype : Col -> option string.

Lemma pass_condition_true (r : Row) :
  lift1 (fun s : gset string => Z.of_nat (size s) =? 0)
        (fun r => Ok (filter_field r)) r = Def true
  <-> filter_field r = Some ∅.
Proof.
  unfold lift1. destruct (filter_field r) as [s|]; [|split; discriminate].
  split.
  - intros [= Hs]. apply Z.eqb_eq in Hs. f_equal.
    apply leibniz_equiv, size_empty_iff. lia.
  - intros [= ->]. reflexivity.
Qed.

(** Whatever the flags, the row predicate is true only on PASS rows. *)
Lemma filt_criteria_pass mt freq_index filter_an filter_to_rare remove_ultra_common
    c r :
  filt_criteria locus filter_field freq_field freq sex_karyotype
    mt freq_index filter_an filter_to_rare remove_ultra_common = Ok c ->
  c r = Def true -> filter_field r = Some ∅.
Proof.
  unfold filt_criteria. intros Hc Hr. apply pass_condition_true.
  destruct filter_an.
  - destruct (get_an_adj_criteria _ _ _ _ _ _ _ _ _) as [a|e];
      cbn [mbind result_bind] in Hc; [|discriminate].
    destruct remove_ultra_common, filter_to_rare; injection Hc as <-;
      repeat match goal with
             | H : hl_and _ _ r = Def true |- _ => apply hl_and_true in H as [H _]
             end; exact Hr.
  - cbn [mbind result_bind] in Hc.
    destruct remove_ultra_common, filter_to_rare; injection Hc as <-;
      repeat match goal with
             | H : hl_and _ _ r = Def true |- _ => apply hl_and_true in H as [H _]
             end; exact Hr.
Qed.
End FilterCriteria.

Lemma lof_criteria_true
    (add_most_severe_consequence_to_consequence : option Csq -> val Csq)
    (pre_loftee : bool) (lof_csq_set : gset string) (x : option Csq) :
  lof_criteria add_most_severe_consequence_to_consequence pre_loftee lof_csq_set x
  = Def true ->
  if pre_loftee then
    exists y m, add_most_severe_consequence_to_consequence x = Def y
                /\ most_severe_consequence y = Some m /\ m ∈ lof_csq_set
  else
    exists c, x = Some c /\ lof c = Some "HC" /\ lof_flags c = None.
Proof.
  unfold lof_criteria. destruct pre_loftee.
  - unfold set_contains, field.
    destruct (add_most_severe_consequence_to_consequence x) as [[y|]|];
      try discriminate.
    destruct (most_severe_consequence y) as [m|] eqn:Hm; [|discriminate].
    intros [= Hin]. apply bool_decide_eq_true in Hin. by exists y, m.
  - intros [H1 H2]%hl_and_true. unfold lift1, hl_is_missing, field, elem in *.
    destruct x as [c|]; [|discriminate]. exists c.
    destruct (lof c) as [l|]; [|discriminate].
    destruct (lof_flags c); [discriminate|].
    injection H1 as H1. apply String.eqb_eq in H1. by subst.
Qed.

(** X16. With an empty additional set, every row the builder returns stems
    from a variant of the input whose filter set is defined and empty, and
    carries one entry of that variant's consequence array (all transcript
    consequences, or the worst consequence per gene after processing) that
    satisfies the LoF policy: in post-LOFTEE mode the entry is defined with
    lof = "HC" and no lof_flags, in pre-LOFTEE mode its most severe
    consequence is in lof_csq_set. *)
Theorem gene_lof_rows_are_pass_lof
    (is_indel : string -> string -> bool) {Row Col : Type}
    (locus : Row -> option Locus)
    (alleles : Row -> option (list (option string)))
    (filter_field : Row -> option (gset string))
    (freq_field freq : Row -> option (list (option Freq)))
    (sex_karyotype : Col -> option string)
    (transcript_consequences : Row -> option (list (option Csq)))
    (process_consequences : Row -> Row)
    (worst_csq_by_gene : Row -> option (list (option Csq)))
    (add_most_severe_consequence_to_consequence : option Csq -> val Csq)
    (mt : MatrixTable Row Col)
    (tx_ht : option (Row -> option (list (option TxAnnotation))))
    (freq_index : Z)
    (all_transcripts filter_an filter_to_rare pre_loftee : bool)
    (lof_csq_set : gset string) (remove_ultra_common : bool)
    (out : list (Row * option Csq * list (string * option anno)))
    (Hrun : default_generate_gene_lof_matrix is_indel locus alleles filter_field
              freq_field freq sex_karyotype transcript_consequences
              process_consequences worst_csq_by_gene
              add_most_severe_consequence_to_consequence
              mt tx_ht freq_index ∅ all_transcripts filter_an
              filter_to_rare pre_loftee lof_csq_set remove_ultra_common = Ok out) :
  Forall (fun o =>
            exists r0 l,
              r0 ∈ mt_rows mt
              /\ filter_field r0 = Some ∅
              /\ fst (fst o) = (if all_transcripts then r0 else process_consequences r0)
              /\ (if all_transcripts then transcript_consequences
                  else worst_csq_by_gene) (fst (fst o)) = Some l
              /\ snd (fst o) ∈ l
              /\ if pre_loftee then
                   exists y m,
                     add_most_severe_consequence_to_consequence (snd (fst o)) = Def y
                     /\ most_severe_consequence y = Some m /\ m ∈ lof_csq_set
                 else
                   exists c, snd (fst o) = Some c
                             /\ lof c = Some "HC" /\ lof_flags c = None)
         out.
Proof.
  unfold default_generate_gene_lof_matrix in Hrun.
  destruct (filt_criteria _ _ _ _ _ _ _ _ _ _) as [filt|e] eqn:Hfilt;
    cbn [mbind result_bind] in Hrun; [|discriminate].
  rewrite csq_criteria_empty in Hrun. cbn [mbind result_bind] in Hrun.
  destruct (table_filter filt (mt_rows mt)) as [rows|e] eqn:Hrows;
    cbn [mbind result_bind] in Hrun; [|discriminate].
  destruct (explode_rows _ _) as [exploded|e] eqn:Hexp;
    cbn [mbind result_bind] in Hrun; [|discriminate].
  apply result_mapM_pair_inv in Hrun.
  apply table_filter_elem in Hrows. apply explode_rows_elem in Hexp.
  rewrite <- Hrun in Hexp. apply (proj1 (Forall_fmap fst _ out)) in Hexp.
  eapply Forall_impl; [exact Hexp|]. intros [[r c] a]. cbn [fst snd compose].
  intros (Hr & l' & Hl' & Hc).
  unfold array_filter in Hl'.
  destruct ((if all_transcripts then transcript_consequences else worst_csq_by_gene) r)
    as [l|] eqn:Hl; [|discriminate].
  destruct (filter_elems _ l) as [kept|e] eqn:Hkept; cbn [mbind result_bind] in Hl';
    [|discriminate].
  injection Hl' as <-. apply filter_elems_elem in Hkept.
  rewrite Forall_forall in Hkept. destruct (Hkept c Hc) as [Hcl Hcrit].
  apply lof_criteria_true in Hcrit.
  rewrite Forall_forall in Hrows.
  destruct all_transcripts.
  - destruct (Hrows r Hr) as [Hin Htrue].
    exists r, l. repeat split; try done.
    by apply (filt_criteria_pass _ _ _ _ _ _ _ _ _ _ _ _ Hfilt).
  - apply list_elem_of_fmap in Hr as (r0 & -> & Hr0).
    destruct (Hrows r0 Hr0) as [Hin Htrue].
    exists r0, l. repeat split; try done.
    by apply (filt_criteria_pass _ _ _ _ _ _ _ _ _ _ _ _ Hfilt).
Qed.

Lemma gene_lof_rows_are_pass_lof_witness :
  exists out,
    gene_lof_on_variants rare_and_common None 0 ∅ false false false false
      default_lof_csq_set false = Ok out
    /\ length out = 2%nat
    /\ Forall (fun o => exists c, snd (fst o) = Some c
                                  /\ lof c = Some "HC" /\ lof_flags c = None) out.
Proof.
  assert (Hlen : match gene_lof_on_variants rare_and_common None 0 ∅ false false
                         false false default_lof_csq_set false with
                 | Ok out => length out
                 | Raise _ => 0%nat
                 end = 2%nat) by (vm_compute; reflexivity).
  destruct (gene_lof_on_variants rare_and_common None 0 ∅ false false false false
              default_lof_csq_set false) as [out|e] eqn:Hrun; [|discriminate].
  exists out. split; [reflexivity|]. split; [exact Hlen|].
  pose proof (gene_lof_rows_are_pass_lof indel_by_length
                v_locus v_alleles v_filters v_freq v_freq col_sex
                v_transcript_consequences (fun r => r) v_worst_csq_by_gene
                keep_most_severe rare_and_common None 0 false false false false
                default_lof_csq_set false out Hrun) as Hall.
  eapply Forall_impl; [exact Hall|].
  intros o (r0 & l & _ & _ & _ & _ & _ & Hlof). exact Hlof.
Defined.

(** ** Gene-level builder: the rows the filter keeps *)

Lemma table_filter_decided {R} (c : Expr R bool) (P : R -> Prop)
    `{!forall r, Decision (P r)} (rows : list R) :
  (forall r, ¬ is_raise (c r)) ->
  (forall r, c r = Def true <-> P r) ->
  table_filter c rows = Ok (filter P rows).
Proof.
  intros Hno Hiff. induction rows as [|r rows IH]; [reflexivity|].
  cbn [table_filter]. rewrite IH.
  destruct (c r) as [b|e] eqn:Hc; [|by destruct (Hno r); rewrite Hc].
  cbn [mbind result_bind]. destruct (decide (P r)) as [HP|HP].
  - rewrite filter_cons_True by done. apply Hiff in HP. rewrite Hc in HP.
    by injection HP as ->.
  - rewrite filter_cons_False by done.
    destruct b as [[|]|]; try reflexivity. exfalso. apply HP, Hiff. exact Hc.
Qed.

Lemma table_filter_within {R} (c : Expr R bool) (P : R -> Prop)
    `{!forall r, Decision (P r)} (rows out : list R) :
  (forall r, c r = Def true -> P r) ->
  table_filter c rows = Ok out ->
  sublist out (filter P rows).
Proof.
  intros Himp. revert out. induction rows as [|r rows IH]; intros out;
    cbn [table_filter].
  - intros [= <-]. constructor.
  - destruct (c r) as [b|e] eqn:Hc; cbn [mbind result_bind]; [|discriminate].
    destruct (table_filter c rows) as [rs|e]; cbn [mbind result_bind];
      [|discriminate].
    specialize (IH rs eq_refl). destruct (decide (P r)) as [HP|HP].
    + rewrite filter_cons_True by done.
      destruct b as [[|]|]; intros [= <-]; by constructor.
    + rewrite filter_cons_False by done.
      destruct b as [[|]|]; intros [= <-]; try exact IH.
      exfalso. apply HP, Himp, Hc.
Qed.

(** X17. With all three optional flags off the row filter keeps exactly the
    variants whose filter set is defined and empty, in their order (a
    missing filter set drops the variant), and never fails; with any
    combination of flags, whatever it keeps is a sub-sequence of those PASS
    variants. *)
Theorem filter_rows_stage_keeps_pass_rows
    {Row Col : Type} (locus : Row -> option Locus)
    (filter_field : Row -> option (gset string))
    (freq_field freq : Row -> option (list (option Freq)))
    (sex_karyotype : Col -> option string)
    (mt : MatrixTable Row Col) (freq_index : Z) :
  filter_rows_stage locus filter_field freq_field freq sex_karyotype
    mt freq_index false false false
  = Ok (filter (fun r => filter_field r = Some ∅) (mt_rows mt))
  /\ forall (filter_an filter_to_rare remove_ultra_common : bool) (rows : list Row),
       filter_rows_stage locus filter_field freq_field freq sex_karyotype
         mt freq_index filter_an filter_to_rare remove_ultra_common = Ok rows ->
       sublist rows (filter (fun r => filter_field r = Some ∅) (mt_rows mt)).
Proof.
  split.
  - unfold filter_rows_stage, filt_criteria. cbn [mbind result_bind].
    apply table_filter_decided.
    + intros r. unfold lift1. destruct (filter_field r); exact (fun H => H).
    + intros r. apply pass_condition_true.
  - intros filter_an filter_to_rare remove_ultra_common rows Hrows.
    unfold filter_rows_stage in Hrows.
    destruct (filt_criteria _ _ _ _ _ _ _ _ _ _) as [c|e] eqn:Hc;
      cbn [mbind result_bind] in Hrows; [|discriminate].
    apply (table_filter_within c); [|exact Hrows].
    intros r Hr. exact (filt_criteria_pass _ _ _ _ _ _ _ _ _ _ _ _ Hc Hr).
Qed.

Lemma filter_rows_stage_keeps_pass_rows_witness :
  retained_variants rare_and_common 0 false true true = Ok [rare_site]
  /\ sublist [rare_site]
       (filter (fun r => v_filters r = Some ∅) (mt_rows rare_and_common)).
Proof.
  assert (H : retained_variants rare_and_common 0 false true true = Ok [rare_site])
    by (vm_compute; reflexivity).
  split; [exact H|].
  exact (proj2 (filter_rows_stage_keeps_pass_rows v_locus v_filters v_freq v_freq
                  col_sex rare_and_common 0) false true true [rare_site] H).
Defined.
